(** * The lesson-completion ledger of the learning-platform backend

    A shallow embedding of [backend/app/api/v1/modules.py]
    ([_complete_lesson_internal], [complete_lesson],
    [complete_lesson_by_number]) and of its sibling
    [backend/app/api/v1/lessons.py] ([complete_lesson]), together with the
    columns of [backend/app/models] that this code reads and writes.

    Python integers are [Z].  Finite floats are the rationals they denote
    ([Q]); ordering and [int(...)] truncation are exact on them.  Strings
    are byte strings.  SQL [NULL] / Python [None] is [option].  A table with
    a unique key that this code writes is a [gmap] from the key to the row;
    the content tables, which are only read, are kept as row lists in scan
    order, which is what [.first()] observes.  The SQLAlchemy session is an
    explicit state (committed database, pending database), threaded through
    a small state-and-exception monad.  What other sessions do shows only
    through the outcome of [flush()] and [commit()], which the environment
    of a request fixes.  Log lines are left out.

    Two things the database does are outside the model.  Columns have no
    width and no type of their own: a posted value is kept as it was
    posted, where MySQL reads an integer posted to a [Float] column back as
    a float and refuses a number that does not fit an [Integer] column
    (the route then answers 500 and stores nothing).  And the only
    statements that can fail are the explicit [flush()] and the [commit()]:
    an insert that the session flushes by itself before a query is taken to
    go through. *)

From Stdlib Require Import ZArith QArith String Ascii List Lia.
From stdpp Require Import base option gmap list strings pretty fin_maps.

Local Open Scope string_scope.
Local Open Scope Z_scope.

(** ** Python values *)

(** A decoded JSON value, as [request.get_json()] yields it.  Arrays and
    objects never reach a branch that inspects them, so they are opaque. *)
Inductive json : Type :=
| JNull
| JBool (b : bool)
| JInt (n : Z)
| JFloat (x : Q)
| JString (s : string)
| JContainer.

(** [isinstance(v, (int, float))]; [bool] is a subclass of [int]. *)
Definition is_number (v : json) : bool :=
  match v with
  | JBool _ | JInt _ | JFloat _ => true
  | _ => false
  end.

(** [v > 0] for a number. *)
Definition gt_zero (v : json) : bool :=
  match v with
  | JBool b => b
  | JInt n => 0 <? n
  | JFloat x => (0 <? Qnum x)
  | _ => false
  end.

(** [int(v)] for a number: truncation towards zero. *)
Definition py_int (v : json) : Z :=
  match v with
  | JBool b => if b then 1 else 0
  | JInt n => n
  | JFloat x => Z.quot (Qnum x) (Zpos (Qden x))
  | _ => 0
  end.

(** [str.lower()] on ASCII letters. *)
Definition lower_ascii (c : ascii) : ascii :=
  let n := N_of_ascii c in
  if ((65 <=? n) && (n <=? 90))%N then ascii_of_N (n + 32) else c.

Fixpoint lower (s : string) : string :=
  match s with
  | EmptyString => EmptyString
  | String c rest => String (lower_ascii c) (lower rest)
  end.

(** [needle in hay] on strings. *)
Fixpoint contains (needle hay : string) : bool :=
  String.prefix needle hay ||
  match hay with
  | EmptyString => false
  | String _ rest => contains needle rest
  end.

(** ** The models *)

(** [app/models/content.py]: the columns of [Lesson] and [Module] that the
    completion code reads. *)
Module Lesson.
Record t : Type := mk {
  id : Z;
  module_id : Z;
  title : string;
  lesson_number : Z;
  xp_reward : option Z
}.
End Lesson.

Module Module_.
Record t : Type := mk {
  id : Z;
  module_number : Z;
  total_lessons : option Z
}.
End Module_.

(** [app/models/user.py]: [User.total_xp]; the row is keyed by [User.id]. *)
Module User.
Record t : Type := mk {
  total_xp : option Z
}.
End User.

(** [app/models/progress.py].  The surrogate [id] columns are left out: the
    rows are keyed by their unique constraint ([unique_user_lesson],
    [unique_user_module]). *)
Module UserLessonProgress.
Record t : Type := mk {
  user_id : Z;
  lesson_id : Z;
  status : string;
  progress_percentage : Q;
  is_completed : option bool;
  score : json;
  attempts : Z;
  time_spent : json;
  xp_earned : json;
  started_at : Z;
  last_accessed : Z;
  completed_at : option Z
}.
End UserLessonProgress.

Module UserModuleProgress.
Record t : Type := mk {
  user_id : Z;
  module_id : Z;
  progress_percentage : Q;
  completed_lessons : option Z;
  total_lessons : option Z;
  is_completed : option bool;
  started_at : Z;
  last_accessed : Z;
  completed_at : option Z
}.
End UserModuleProgress.

Module XPTransaction.
Record t : Type := mk {
  user_id : Z;
  source : string;
  amount : Z;
  description : string;
  extra_metadata : Z * Z;   (* {'module_id': _, 'lesson_id': _} *)
  timestamp : Z
}.
End XPTransaction.

(** The request body: [request.get_json() or {}], with the three keys the
    code looks at; [None] is an absent key. *)
Module Data.
Record t : Type := mk {
  score : option json;
  time_spent : option json;
  xp_earned : option json
}.
Definition empty : t := mk None None None.
End Data.

(** ** The database *)

Record DB : Type := mkDB {
  lessons : list Lesson.t;
  modules : list Module_.t;
  users : gmap Z User.t;
  lesson_progress : gmap (Z * Z) UserLessonProgress.t;
  module_progress : gmap (Z * Z) UserModuleProgress.t;
  xp_transactions : list XPTransaction.t
}.

Definition set_users (f : gmap Z User.t → gmap Z User.t) (db : DB) : DB :=
  mkDB (lessons db) (modules db) (f (users db)) (lesson_progress db)
       (module_progress db) (xp_transactions db).

Definition set_lesson_progress
    (f : gmap (Z * Z) UserLessonProgress.t → gmap (Z * Z) UserLessonProgress.t)
    (db : DB) : DB :=
  mkDB (lessons db) (modules db) (users db) (f (lesson_progress db))
       (module_progress db) (xp_transactions db).

Definition set_module_progress
    (f : gmap (Z * Z) UserModuleProgress.t → gmap (Z * Z) UserModuleProgress.t)
    (db : DB) : DB :=
  mkDB (lessons db) (modules db) (users db) (lesson_progress db)
       (f (module_progress db)) (xp_transactions db).

Definition set_xp_transactions
    (f : list XPTransaction.t → list XPTransaction.t) (db : DB) : DB :=
  mkDB (lessons db) (modules db) (users db) (lesson_progress db)
       (module_progress db) (f (xp_transactions db)).

(** [Lesson.query.get(lesson_id)], [Module.query.get(module_id)]. *)
Definition get_lesson (db : DB) (lesson_id : Z) : option Lesson.t :=
  List.find (λ l, Lesson.id l =? lesson_id) (lessons db).

Definition get_module (db : DB) (module_id : Z) : option Module_.t :=
  List.find (λ m, Module_.id m =? module_id) (modules db).

(** [Module.query.filter_by(module_number=n).first()] and
    [Lesson.query.filter_by(module_id=m, lesson_number=n).first()]. *)
Definition first_module_by_number (db : DB) (module_number : Z)
  : option Module_.t :=
  List.find (λ m, Module_.module_number m =? module_number) (modules db).

Definition first_lesson_by_number (db : DB) (module_id lesson_number : Z)
  : option Lesson.t :=
  List.find (λ l, (Lesson.module_id l =? module_id)
                  && (Lesson.lesson_number l =? lesson_number))
            (lessons db).

(** The join condition of the completed-lessons scan: the progress row's
    lesson exists and belongs to [module_id]. *)
Definition lesson_in_module (db : DB) (lesson_id module_id : Z) : bool :=
  match get_lesson db lesson_id with
  | Some l => Lesson.module_id l =? module_id
  | None => false
  end.

Definition counts_for (db : DB) (user_id module_id : Z)
    (kv : Z * Z * UserLessonProgress.t) : Prop :=
  kv.1.1 = user_id
  ∧ UserLessonProgress.is_completed kv.2 = Some true
  ∧ lesson_in_module db kv.1.2 module_id = true.

Global Instance counts_for_dec db user_id module_id kv :
  Decision (counts_for db user_id module_id kv).
Proof. unfold counts_for. apply _. Defined.

(** [UserLessonProgress.query.filter_by(user_id=u, is_completed=True)
      .join(Lesson).filter(Lesson.module_id == m).count()] *)
Definition count_completed_lessons (db : DB) (user_id module_id : Z) : Z :=
  Z.of_nat (size (filter (counts_for db user_id module_id)
                         (lesson_progress db))).

(** ** XP amount resolution

    The [if / elif / elif] chain shared verbatim by
    [modules.py::_complete_lesson_internal] and
    [lessons.py::complete_lesson]; [credited_xp] is 0 on entry, so the last
    [elif credited_xp == 0] always fires when it is reached. *)
Definition resolve_xp (data : Data.t) (lesson : Lesson.t) : Z :=
  let credited_xp := 0 in
  let requested := default JNull (Data.xp_earned data) in
  if is_number requested && gt_zero requested then
    py_int requested
  else
    match Lesson.xp_reward lesson with
    | Some reward => reward                 (* int(xp_reward or 0) *)
    | None => if credited_xp =? 0 then 50 else credited_xp
    end.

(** ** The session and its environment *)

Inductive exn : Type :=
| NotFoundError (message : string)
| ValidationError (message : string)
| IntegrityError (message : string)
| InvalidRequestError (message : string)
| TypeError (message : string)
| ImportError (message : string)
| HTTPException (message : string).

(** [str(e)] / [e.message]. *)
Definition exn_str (e : exn) : string :=
  match e with
  | NotFoundError m | ValidationError m | IntegrityError m
  | InvalidRequestError m | TypeError m | ImportError m
  | HTTPException m => m
  end.

(** What [flush()] or [commit()] does.  An [IntegrityError] on the unique
    keys can only come from a writer in another session; [visible] is the
    database as this session sees it once it has rolled back.  The lesson
    object read before keeps the column values it was loaded with. *)
Inductive db_outcome : Type :=
| Succeeds
| RaisesIntegrityError (message : string) (visible : DB).

(** The surroundings of one request: the clock ([utcnow k] is the reading at
    call site [k]), the fate of the flush and of the commit, and whether the
    pair [update_leaderboard(user_id); check_achievements(user_id)] returns
    at the given attempt or raises an [Exception].  The hooks come from
    [app.api.v1.gamification], which is not part of this release
    ([modules.py] falls back to two functions that do nothing); they are
    taken as a parameter, and they do not write to the tables modelled
    here. *)
Record Env : Type := mkEnv {
  utcnow : nat → Z;
  flush_outcome : db_outcome;
  commit_outcome : db_outcome;
  hooks_return : nat → bool
}.

Inductive event : Type :=
| HookAttempt (attempt : nat) (returned : bool)
| Sleep (seconds : Q).

Record Session : Type := mkSession {
  committed : DB;
  pending : DB;
  trace : list event
}.

Inductive result (A : Type) : Type :=
| Returns (a : A)
| Raises (e : exn).
Arguments Returns {A} a.
Arguments Raises {A} e.

Definition M (A : Type) : Type := Session → result A * Session.

Definition ret {A} (a : A) : M A := λ s, (Returns a, s).
Definition raise {A} (e : exn) : M A := λ s, (Raises e, s).
Definition bind {A B} (m : M A) (k : A → M B) : M B :=
  λ s, match m s with
       | (Returns a, s') => k a s'
       | (Raises e, s') => (Raises e, s')
       end.
(** [try: m / except Exception as e: ...], with the outcome handed to the
    code that follows. *)
Definition attempt {A} (m : M A) : M (result A) :=
  λ s, let '(r, s') := m s in (Returns r, s').

Declare Scope session_scope.
Delimit Scope session_scope with session.
Notation "'let*' x ':=' m 'in' k" := (bind m (λ x, k))
  (at level 10, x name, m at level 100, k at level 200) : session_scope.
Notation "m ;;; k" := (bind m (λ _, k))
  (at level 100, right associativity) : session_scope.
Local Open Scope session_scope.

(** Reads see the session's own pending writes. *)
Definition query {A} (f : DB → A) : M A := λ s, (Returns (f (pending s)), s).
(** ORM writes go to the pending state. *)
Definition write (f : DB → DB) : M unit :=
  λ s, (Returns tt, mkSession (committed s) (f (pending s)) (trace s)).
Definition emit (e : event) : M unit :=
  λ s, (Returns tt, mkSession (committed s) (pending s) (trace s ++ [e])).

(** [db.session.rollback()] *)
Definition rollback : M unit :=
  λ s, (Returns tt, mkSession (committed s) (committed s) (trace s)).

Definition fail_with (message : string) (visible : DB) : M unit :=
  λ s, (Raises (IntegrityError message),
        mkSession visible (pending s) (trace s)).

(** [db.session.flush()] *)
Definition flush (env : Env) : M unit :=
  match flush_outcome env with
  | Succeeds => ret tt
  | RaisesIntegrityError message visible => fail_with message visible
  end.

(** [db.session.commit()] *)
Definition commit (env : Env) : M unit :=
  match commit_outcome env with
  | Succeeds => λ s, (Returns tt, mkSession (pending s) (pending s) (trace s))
  | RaisesIntegrityError message visible => fail_with message visible
  end.

(** Clock call sites. *)
Definition at_lesson_started : nat := 0.
Definition at_lesson_accessed : nat := 1.
Definition at_lesson_completed : nat := 2.
Definition at_module_started : nat := 3.
Definition at_module_created : nat := 4.
Definition at_module_accessed : nat := 5.
Definition at_module_completed : nat := 6.
Definition at_transaction : nat := 7.

(** ** Row construction and mutation *)

(** [UserLessonProgress(user_id=..., lesson_id=...)] with the column
    defaults. *)
Definition new_lesson_progress (env : Env) (user_id lesson_id : Z)
  : UserLessonProgress.t :=
  UserLessonProgress.mk user_id lesson_id "not_started" 0 (Some false)
    JNull 0 (JInt 0) (JInt 0)
    (utcnow env at_lesson_started) (utcnow env at_lesson_accessed) None.

(** [UserModuleProgress(user_id=..., module_id=..., total_lessons=...,
    completed_lessons=0, progress_percentage=0.0)] with the column
    defaults. *)
Definition new_module_progress (env : Env) (user_id module_id : Z)
    (total_lessons : option Z) : UserModuleProgress.t :=
  UserModuleProgress.mk user_id module_id 0 (Some 0) total_lessons
    (Some false)
    (utcnow env at_module_started) (utcnow env at_module_created) None.

(** The block under [# Update lesson progress].  The three posted values
    are assigned as they come, which is all the route does with them; what
    the [Float] and [Integer] columns make of them at the flush is not
    modelled. *)
Definition mark_lesson_completed (env : Env) (data : Data.t)
    (p : UserLessonProgress.t) : UserLessonProgress.t :=
  UserLessonProgress.mk
    (UserLessonProgress.user_id p) (UserLessonProgress.lesson_id p)
    "completed" 100 (Some true)
    (default (UserLessonProgress.score p) (Data.score data))
    (UserLessonProgress.attempts p)
    (default (UserLessonProgress.time_spent p) (Data.time_spent data))
    (default (UserLessonProgress.xp_earned p) (Data.xp_earned data))
    (UserLessonProgress.started_at p) (UserLessonProgress.last_accessed p)
    (Some (utcnow env at_lesson_completed)).

(** [user_progress.xp_earned = credited_xp] *)
Definition with_xp_earned (credited_xp : Z) (p : UserLessonProgress.t)
  : UserLessonProgress.t :=
  UserLessonProgress.mk
    (UserLessonProgress.user_id p) (UserLessonProgress.lesson_id p)
    (UserLessonProgress.status p) (UserLessonProgress.progress_percentage p)
    (UserLessonProgress.is_completed p) (UserLessonProgress.score p)
    (UserLessonProgress.attempts p) (UserLessonProgress.time_spent p)
    (JInt credited_xp)
    (UserLessonProgress.started_at p) (UserLessonProgress.last_accessed p)
    (UserLessonProgress.completed_at p).

(** [module_progress.completed_lessons = n] followed by
    [module_progress.total_lessons = module.total_lessons]. *)
Definition with_counts (n : Z) (total : option Z) (p : UserModuleProgress.t)
  : UserModuleProgress.t :=
  UserModuleProgress.mk
    (UserModuleProgress.user_id p) (UserModuleProgress.module_id p)
    (UserModuleProgress.progress_percentage p) (Some n) total
    (UserModuleProgress.is_completed p)
    (UserModuleProgress.started_at p) (UserModuleProgress.last_accessed p)
    (UserModuleProgress.completed_at p).

(** The percentage, [last_accessed] and the completion flag, for a module
    whose [total_lessons] is [t]:
    [(count / t) * 100 if t > 0 else 0], then
    [if count >= t: is_completed = True; completed_at = completed_at or now].
    The percentage is the exact quotient, which the source rounds to a
    binary float. *)
Definition with_percentage (env : Env) (count t : Z)
    (p : UserModuleProgress.t) : UserModuleProgress.t :=
  let finished := t <=? count in
  UserModuleProgress.mk
    (UserModuleProgress.user_id p) (UserModuleProgress.module_id p)
    (if 0 <? t then (inject_Z count / inject_Z t) * 100 else 0)%Q
    (UserModuleProgress.completed_lessons p)
    (UserModuleProgress.total_lessons p)
    (if finished then Some true else UserModuleProgress.is_completed p)
    (UserModuleProgress.started_at p)
    (utcnow env at_module_accessed)
    (if finished
     then match UserModuleProgress.completed_at p with
          | Some at_ => Some at_
          | None => Some (utcnow env at_module_completed)
          end
     else UserModuleProgress.completed_at p).

(** An ORM object that is added or mutated is written to the pending state
    under the key it was queried by. *)
Definition save_lesson_progress (user_id lesson_id : Z)
    (p : UserLessonProgress.t) : M unit :=
  write (set_lesson_progress <[(user_id, lesson_id) := p]>).

Definition save_module_progress (user_id module_id : Z)
    (p : UserModuleProgress.t) : M unit :=
  write (set_module_progress <[(user_id, module_id) := p]>).

(** [XPTransaction(user_id=..., source='lesson_completion', amount=...,
    description=f'Lesson completed: {lesson.title}', extra_metadata=...)]
    and [db.session.add(xp_tx)]. *)
Definition lesson_completion_tx (env : Env) (user_id module_id lesson_id : Z)
    (lesson : Lesson.t) (credited_xp : Z) : XPTransaction.t :=
  XPTransaction.mk user_id "lesson_completion" credited_xp
    ("Lesson completed: " +:+ Lesson.title lesson)
    (module_id, lesson_id) (utcnow env at_transaction).

Definition add_transaction (tx : XPTransaction.t) : M unit :=
  write (set_xp_transactions (λ l, (l ++ [tx])%list)).

(** [update(User).where(User.id == user_id)
      .values(total_xp=User.total_xp + credited_xp)]: evaluated by the
    database, where [NULL + n] is [NULL]; no row, no effect. *)
Definition sql_increment_total_xp (user_id credited_xp : Z) : M unit :=
  write (set_users (alter
    (λ u, User.mk ((λ x, x + credited_xp) <$> User.total_xp u)) user_id)).

(** [user.total_xp = (user.total_xp or 0) + credited_xp] on the ORM object,
    as [lessons.py] does it. *)
Definition orm_increment_total_xp (user_id credited_xp : Z) : M unit :=
  write (set_users (alter
    (λ u, User.mk (Some (default 0 (User.total_xp u) + credited_xp)))
    user_id)).

(** ** Responses *)

(** The [data] of a completion response; [to_dict()] of a row is the row. *)
Record payload : Type := mkPayload {
  lesson_progress_of : UserLessonProgress.t;
  module_progress_of : option UserModuleProgress.t;
  xp_earned_of : Z;
  already_completed_of : bool
}.

(** [APIResponse.success(data, message)] (status 200) and
    [APIResponse.error(message, status_code, error_code, details)], without
    the envelope's own timestamp. *)
Inductive response : Type :=
| Success (data : payload) (message : string)
| Error (message : string) (status_code : Z) (error_code : string)
        (details : option string).

(** What [_complete_lesson_internal] returns:
    [(lesson_progress, module_progress, xp_earned, already_completed)]. *)
Definition completion : Type :=
  (UserLessonProgress.t * option UserModuleProgress.t * Z * bool)%type.

(** [bool(user_progress.is_completed)] *)
Definition truthy (b : option bool) : bool := default false b.

(** ** [modules.py] *)
Module ModulesPy.

Definition max_retries : nat := 3.
Definition retry_delay : Q := 1 # 10.

(** The [for attempt in range(max_retries)] loop around the two hooks:
    leave at the first attempt that returns; after a failed attempt that is
    not the last, [time.sleep(retry_delay * (2 ** attempt))]. *)
Fixpoint post_commit_hooks (env : Env) (attempts : list nat) : M unit :=
  match attempts with
  | [] => ret tt
  | attempt :: rest =>
    let returned := hooks_return env attempt in
    emit (HookAttempt attempt returned) ;;;
    if returned then ret tt
    else
      (if (attempt <? max_retries - 1)%nat
       then emit (Sleep (retry_delay * inject_Z (2 ^ Z.of_nat attempt)))
       else ret tt) ;;;
      post_commit_hooks env rest
  end.

(** [is_unique_violation] of the commit handler, on [str(e)]. *)
Definition is_unique_violation (message : string) : bool :=
  let error_str := lower message in
  contains "unique" error_str
  || contains "duplicate" error_str
  || contains "UNIQUE constraint" message.

(** The [except IntegrityError] handler of the commit. *)
Definition on_commit_integrity_error (user_id lesson_id : Z)
    (message : string) : M completion :=
  rollback ;;;
  if is_unique_violation message then
    let* user_progress := query (λ db, lesson_progress db !! (user_id, lesson_id)) in
    match user_progress with
    | Some user_progress =>
      if truthy (UserLessonProgress.is_completed user_progress)
      then ret (user_progress, None, 0, true)
      else ret (user_progress, None, 0, false)
    | None => raise (IntegrityError message)
    end
  else raise (IntegrityError message).

(** [_complete_lesson_internal] from [# Update lesson progress] to its end,
    for the progress row [user_progress] and the flag [already_completed]
    that the first half has settled. *)
Definition complete_progress (env : Env) (user_id module_id lesson_id : Z)
    (lesson : Lesson.t) (data : Data.t)
    (user_progress : UserLessonProgress.t) (already_completed : bool)
  : M completion :=
  let user_progress := mark_lesson_completed env data user_progress in
  save_lesson_progress user_id lesson_id user_progress ;;;
  let* found := query (λ db, module_progress db !! (user_id, module_id)) in
  let* module_progress :=
    match found with
    | Some module_progress => ret module_progress
    | None =>
      let* module := query (λ db, get_module db module_id) in
      match module with
      | None => raise (NotFoundError "Module not found")
      | Some module =>
        let module_progress :=
          new_module_progress env user_id module_id
                              (Module_.total_lessons module) in
        save_module_progress user_id module_id module_progress ;;;
        ret module_progress
      end
    end in
  let* module := query (λ db, get_module db module_id) in
  match module with
  | None => raise (NotFoundError "Module not found")
  | Some module =>
    let* completed_lesson_count :=
      if negb already_completed
      then ret (default 0 (UserModuleProgress.completed_lessons
                             module_progress) + 1)
      else query (λ db, count_completed_lessons db user_id module_id) in
    let module_progress :=
      with_counts completed_lesson_count (Module_.total_lessons module)
                  module_progress in
    save_module_progress user_id module_id module_progress ;;;
    match Module_.total_lessons module with
    | None =>
      raise (TypeError
        "'>' not supported between instances of 'NoneType' and 'int'")
    | Some total =>
      let module_progress :=
        with_percentage env completed_lesson_count total module_progress in
      save_module_progress user_id module_id module_progress ;;;
      let credited_xp :=
        if negb already_completed then resolve_xp data lesson else 0 in
      let* user_progress :=
        if negb already_completed && (0 <? credited_xp) then
          add_transaction
            (lesson_completion_tx env user_id module_id lesson_id lesson
                                  credited_xp) ;;;
          sql_increment_total_xp user_id credited_xp ;;;
          let user_progress := with_xp_earned credited_xp user_progress in
          save_lesson_progress user_id lesson_id user_progress ;;;
          ret user_progress
        else ret user_progress in
      let* outcome := attempt (commit env) in
      match outcome with
      | Raises (IntegrityError message) =>
        on_commit_integrity_error user_id lesson_id message
      | Raises e => raise e
      | Returns _ =>
        post_commit_hooks env (seq 0 max_retries) ;;;
        ret (user_progress, Some module_progress, credited_xp,
             already_completed)
      end
    end
  end.

Definition _complete_lesson_internal (env : Env)
    (user_id module_id lesson_id : Z) (data : Data.t) : M completion :=
  let* lesson := query (λ db, get_lesson db lesson_id) in
  match lesson with
  | None => raise (NotFoundError "Lesson not found")
  | Some lesson =>
    if negb (Lesson.module_id lesson =? module_id)
    then raise (NotFoundError "Lesson not found")
    else
      let* user_progress :=
        query (λ db, lesson_progress db !! (user_id, lesson_id)) in
      match user_progress with
      | None =>
        let user_progress := new_lesson_progress env user_id lesson_id in
        save_lesson_progress user_id lesson_id user_progress ;;;
        let* flushed := attempt (flush env) in
        match flushed with
        | Raises (IntegrityError message) =>
          rollback ;;;
          let* user_progress :=
            query (λ db, lesson_progress db !! (user_id, lesson_id)) in
          match user_progress with
          | Some user_progress =>
            let already_completed :=
              truthy (UserLessonProgress.is_completed user_progress) in
            if already_completed
            then ret (user_progress, None, 0, true)
            else complete_progress env user_id module_id lesson_id lesson data
                                   user_progress already_completed
          | None => raise (IntegrityError message)
          end
        | Raises e => raise e
        | Returns _ =>
          complete_progress env user_id module_id lesson_id lesson data
                            user_progress false
        end
      | Some user_progress =>
        let already_completed :=
          truthy (UserLessonProgress.is_completed user_progress) in
        if already_completed
        then ret (user_progress, None, 0, true)
        else complete_progress env user_id module_id lesson_id lesson data
                               user_progress already_completed
      end
  end.

(** The response that both routes build from the internal result, and their
    two [except] clauses, each after [db.session.rollback()]. *)
Definition respond (r : result completion) : M response :=
  match r with
  | Returns (lesson_progress, module_progress, xp_earned, already_completed) =>
    if already_completed
    then ret (Success (mkPayload lesson_progress None 0 true)
                      "Lesson already completed")
    else ret (Success (mkPayload lesson_progress module_progress
                                 xp_earned false)
                      "Lesson completed successfully")
  | Raises (NotFoundError message) =>
    rollback ;;; ret (Error message 404 "LESSON_NOT_FOUND" None)
  | Raises e =>
    rollback ;;;
    ret (Error "Failed to complete lesson" 500 "LESSON_COMPLETION_ERROR"
               (Some (exn_str e)))
  end.

(** [POST /<module_id>/lessons/<lesson_id>/complete] *)
Definition complete_lesson (env : Env) (user_id module_id lesson_id : Z)
    (data : Data.t) : M response :=
  let* r := attempt (_complete_lesson_internal env user_id module_id
                                               lesson_id data) in
  respond r.

(** [POST /<module_number>/lessons/<lesson_number>/complete-by-number] *)
Definition complete_lesson_by_number (env : Env)
    (user_id module_number lesson_number : Z) (data : Data.t) : M response :=
  let* r := attempt (
    let* module := query (λ db, first_module_by_number db module_number) in
    match module with
    | None =>
      raise (NotFoundError
               ("Module " +:+ pretty module_number +:+ " not found"))
    | Some module =>
      let* lesson :=
        query (λ db, first_lesson_by_number db (Module_.id module)
                                            lesson_number) in
      match lesson with
      | None =>
        raise (NotFoundError
                 ("Lesson " +:+ pretty lesson_number +:+ " in module "
                  +:+ pretty module_number +:+ " not found"))
      | Some lesson =>
        _complete_lesson_internal env user_id (Module_.id module)
                                  (Lesson.id lesson) data
      end
    end) in
  respond r.

End ModulesPy.

(** ** [lessons.py]

    The sibling route [POST /api/v1/lessons/<lesson_id>/complete].  Its
    transaction block is never run to the end.  The route is registered
    behind [@require_auth], whose [User.query.get] has made the session
    begin its transaction, so [db.session.begin()] raises
    [InvalidRequestError]; and in a session that has begun none the second
    statement of the block, [from sqlalchemy.orm import with_for_update],
    raises [ImportError], because [sqlalchemy.orm] has no such name
    ([with_for_update] is a method of a query).  Both leave through the
    route's [except Exception].  What follows the import is the text of the
    block as the source has it. *)
Module LessonsPy.

(** [with db.session.begin(): body].  [begun] tells whether the session has
    already begun a transaction, in which case [begin()] raises; otherwise
    the block commits when the body returns, and rolls back and re-raises
    when it raises. *)
Definition session_begin {A} (env : Env) (begun : bool) (body : M A) : M A :=
  if begun
  then raise (InvalidRequestError
                "A transaction is already begun on this Session.")
  else
    let* r := attempt body in
    match r with
    | Returns a => commit env ;;; ret a
    | Raises e => rollback ;;; raise e
    end.

(** [from sqlalchemy.orm import with_for_update] *)
Definition import_with_for_update : M unit :=
  raise (ImportError
           "cannot import name 'with_for_update' from 'sqlalchemy.orm'").

(** The body of the transaction from [# Update lesson progress] on. *)
Definition complete_progress (env : Env) (user_id lesson_id : Z)
    (lesson : Lesson.t) (module : Module_.t) (data : Data.t)
    (user_lesson_progress : UserLessonProgress.t) (already_completed : bool)
  : M response :=
  let module_id := Module_.id module in
  let user_lesson_progress :=
    mark_lesson_completed env data user_lesson_progress in
  save_lesson_progress user_id lesson_id user_lesson_progress ;;;
  let* found := query (λ db, module_progress db !! (user_id, module_id)) in
  let* module_progress :=
    match found with
    | Some module_progress => ret module_progress
    | None =>
      let module_progress :=
        new_module_progress env user_id module_id
                            (Module_.total_lessons module) in
      save_module_progress user_id module_id module_progress ;;;
      ret module_progress
    end in
  let* completed_lesson_count :=
    query (λ db, count_completed_lessons db user_id module_id) in
  let module_progress :=
    with_counts completed_lesson_count (Module_.total_lessons module)
                module_progress in
  save_module_progress user_id module_id module_progress ;;;
  match Module_.total_lessons module with
  | None =>
    raise (TypeError
      "'>' not supported between instances of 'NoneType' and 'int'")
  | Some total =>
    let module_progress :=
      with_percentage env completed_lesson_count total module_progress in
    save_module_progress user_id module_id module_progress ;;;
    let credited_xp :=
      if negb already_completed then resolve_xp data lesson else 0 in
    let* user_lesson_progress :=
      if negb already_completed && (0 <? credited_xp) then
        add_transaction
          (lesson_completion_tx env user_id module_id lesson_id lesson
                                credited_xp) ;;;
        let* user := query (λ db, users db !! user_id) in
        match user with
        | Some _ =>
          orm_increment_total_xp user_id credited_xp ;;;
          let user_lesson_progress :=
            with_xp_earned credited_xp user_lesson_progress in
          save_lesson_progress user_id lesson_id user_lesson_progress ;;;
          ret user_lesson_progress
        | None => ret user_lesson_progress
        end
      else ret user_lesson_progress in
    ret (Success
           (mkPayload user_lesson_progress (Some module_progress)
                      (if negb already_completed then credited_xp else 0)
                      false)
           "Lesson completed successfully")
  end.

(** The body of the [with] block.  Queries autoflush, so the
    completed-lessons scan would see the row that was just marked; the row
    locks ([with_for_update]) have no effect within one session. *)
Definition transaction (env : Env) (user_id lesson_id : Z) (data : Data.t)
  : M response :=
  import_with_for_update ;;;
  let* lesson := query (λ db, get_lesson db lesson_id) in
  match lesson with
  | None => raise (NotFoundError "Lesson not found")
  | Some lesson =>
    let* module := query (λ db, get_module db (Lesson.module_id lesson)) in
    match module with
    | None => raise (NotFoundError "Module not found")
    | Some module =>
      let* user_lesson_progress :=
        query (λ db, lesson_progress db !! (user_id, lesson_id)) in
      match user_lesson_progress with
      | None =>
        let user_lesson_progress :=
          new_lesson_progress env user_id lesson_id in
        save_lesson_progress user_id lesson_id user_lesson_progress ;;;
        complete_progress env user_id lesson_id lesson module data
                          user_lesson_progress false
      | Some user_lesson_progress =>
        let already_completed :=
          truthy (UserLessonProgress.is_completed user_lesson_progress) in
        if already_completed
        then ret (Success (mkPayload user_lesson_progress None 0 true)
                          "Lesson already completed")
        else complete_progress env user_id lesson_id lesson module data
                               user_lesson_progress already_completed
      end
    end
  end.

(** [POST /api/v1/lessons/<lesson_id>/complete], the function under its
    decorators: the session has begun its transaction when the block is
    reached. *)
Definition complete_lesson (env : Env) (user_id lesson_id : Z) (data : Data.t)
  : M response :=
  let* r := attempt (session_begin env true
                       (transaction env user_id lesson_id data)) in
  match r with
  | Returns response => ret response
  | Raises (NotFoundError message) =>
    rollback ;;; ret (Error message 404 "NOT_FOUND" None)
  | Raises _ =>
    rollback ;;;
    ret (Error "Failed to complete lesson" 500 "INTERNAL_ERROR" None)
  end.

End LessonsPy.

(** ** Requests served one after the other *)

(** A request starts with a clean session over the committed database. *)
Definition start (db : DB) : Session := mkSession db db [].

(** No other session interferes: the flush and the commit go through. *)
Definition sequential (env : Env) : Prop :=
  flush_outcome env = Succeeds ∧ commit_outcome env = Succeeds.

(** The events of the hook loop, as a list. *)
Fixpoint hook_events (env : Env) (attempts : list nat) : list event :=
  match attempts with
  | [] => []
  | attempt :: rest =>
    let returned := hooks_return env attempt in
    HookAttempt attempt returned ::
    (if returned then []
     else (if (attempt <? ModulesPy.max_retries - 1)%nat
           then [Sleep (ModulesPy.retry_delay
                        * inject_Z (2 ^ Z.of_nat attempt))]
           else []) ++ hook_events env rest)
  end.

(** The pair [(user_id, lesson_id)] is completed in [db]. *)
Definition completed (db : DB) (user_id lesson_id : Z) : bool :=
  match lesson_progress db !! (user_id, lesson_id) with
  | Some p => truthy (UserLessonProgress.is_completed p)
  | None => false
  end.


(** ** The state a first completion leaves behind

    Closed forms for the database that a successful, sequential first
    completion through [modules.py] commits. *)
Section Outcome.
Context (env : Env) (user_id module_id lesson_id : Z) (data : Data.t)
        (lesson : Lesson.t) (total : Z) (db : DB).

Definition lesson_row0 : UserLessonProgress.t :=
  default (new_lesson_progress env user_id lesson_id)
          (lesson_progress db !! (user_id, lesson_id)).

Definition marked_row : UserLessonProgress.t :=
  mark_lesson_completed env data lesson_row0.

(** [recorded] tells whether [xp_earned] is written back to the row, as
    [modules.py] does whenever it credits. *)
Definition lesson_row (recorded : bool) : UserLessonProgress.t :=
  if recorded && (0 <? resolve_xp data lesson)
  then with_xp_earned (resolve_xp data lesson) marked_row
  else marked_row.

Definition module_row0 : UserModuleProgress.t :=
  default (new_module_progress env user_id module_id (Some total))
          (module_progress db !! (user_id, module_id)).

Definition module_row (count : Z) : UserModuleProgress.t :=
  with_percentage env count total
                  (with_counts count (Some total) module_row0).

(** The counter as [modules.py] sets it: one more than it was. *)
Definition incremented : Z :=
  default 0 (UserModuleProgress.completed_lessons module_row0) + 1.

Definition credited_transactions : list XPTransaction.t :=
  if 0 <? resolve_xp data lesson
  then xp_transactions db
       ++ [lesson_completion_tx env user_id module_id lesson_id lesson
                                (resolve_xp data lesson)]
  else xp_transactions db.

Definition after_modules_py : DB :=
  mkDB (lessons db) (modules db)
    (if 0 <? resolve_xp data lesson
     then alter (λ u, User.mk ((λ x, x + resolve_xp data lesson)
                               <$> User.total_xp u))
                user_id (users db)
     else users db)
    (<[(user_id, lesson_id) := lesson_row true]> (lesson_progress db))
    (<[(user_id, module_id) := module_row incremented]>
       (module_progress db))
    credited_transactions.
End Outcome.

(** ** Requests

    A request to one of the three routes; each is served in a session of
    its own. *)
Inductive request : Type :=
| ViaModules (env : Env) (user_id module_id lesson_id : Z) (data : Data.t)
| ViaLessons (env : Env) (user_id lesson_id : Z) (data : Data.t)
| ViaNumbers (env : Env) (user_id module_number lesson_number : Z)
             (data : Data.t).

Definition request_env (r : request) : Env :=
  match r with
  | ViaModules env _ _ _ _ | ViaLessons env _ _ _ | ViaNumbers env _ _ _ _ =>
    env
  end.

Definition handle (r : request) : M response :=
  match r with
  | ViaModules env user_id module_id lesson_id data =>
    ModulesPy.complete_lesson env user_id module_id lesson_id data
  | ViaLessons env user_id lesson_id data =>
    LessonsPy.complete_lesson env user_id lesson_id data
  | ViaNumbers env user_id module_number lesson_number data =>
    ModulesPy.complete_lesson_by_number env user_id module_number
                                        lesson_number data
  end.

(** The committed database after the request. *)
Definition serve (db : DB) (r : request) : DB :=
  committed (handle r (start db)).2.

Definition serve_all (db : DB) (rs : list request) : DB :=
  fold_left serve rs db.

(** The transactions that credit [user_id] for [lesson_id]. *)
Definition credits_pair (user_id lesson_id : Z) (tx : XPTransaction.t)
  : bool :=
  (XPTransaction.user_id tx =? user_id)
  && ((XPTransaction.extra_metadata tx).2 =? lesson_id).

Definition credit_count (db : DB) (user_id lesson_id : Z) : nat :=
  length (List.filter (credits_pair user_id lesson_id) (xp_transactions db)).

(** The pair of internal ids that [complete_lesson_by_number] resolves the
    two numbers to. *)
Definition resolve (db : DB) (module_number lesson_number : Z)
  : option (Z * Z) :=
  match first_module_by_number db module_number with
  | None => None
  | Some module =>
    match first_lesson_by_number db (Module_.id module) lesson_number with
    | None => None
    | Some lesson => Some (Module_.id module, Lesson.id lesson)
    end
  end.

(** The request asks to complete [lesson_id] for [user_id]. *)
Definition aims_at (db : DB) (r : request) (user_id lesson_id : Z) : Prop :=
  match r with
  | ViaModules _ u _ l _ | ViaLessons _ u l _ => u = user_id ∧ l = lesson_id
  | ViaNumbers _ u module_number lesson_number _ =>
    u = user_id
    ∧ ∃ m, resolve db module_number lesson_number = Some (m, lesson_id)
  end.

(** [db'] is [db] after a first completion of lesson [l] of module [m] by
    user [u]. *)
Inductive first_completion (db : DB) (u m l : Z) (db' : DB) : Prop :=
| FirstCompletion env data lesson module t :
    get_lesson db l = Some lesson →
    Lesson.module_id lesson = m →
    completed db u l = false →
    get_module db m = Some module →
    Module_.total_lessons module = Some t →
    db' = after_modules_py env u m l data lesson t db →
    first_completion db u m l db'.

(** The credits of a pair, plus one while the pair is still open: a
    quantity that a request can only lower. *)
Definition credit_budget (db : DB) (u l : Z) : nat :=
  (credit_count db u l + if completed db u l then 0 else 1)%nat.

(** ** Consistency of the denormalised counters *)

(** The number of lessons of a module. *)
Definition lessons_in (db : DB) (module_id : Z) : Z :=
  Z.of_nat (length (List.filter (λ l, Lesson.module_id l =? module_id)
                                (lessons db))).

(** [Module.total_lessons] is a column of its own, maintained by hand; it
    is consistent when no module has more lessons than it says. *)
Definition content_ok (db : DB) : Prop :=
  ∀ module_id module total,
    get_module db module_id = Some module →
    Module_.total_lessons module = Some total →
    lessons_in db module_id ≤ total.

(** A module-progress row is consistent when its counter does not exceed
    the user's completed lessons of the module, its [total_lessons] is the
    module's, and its flag is raised exactly when the two are equal. *)
Definition row_ok (db : DB) (user_id module_id : Z)
    (p : UserModuleProgress.t) : Prop :=
  ∃ count total module,
    UserModuleProgress.completed_lessons p = Some count
    ∧ UserModuleProgress.total_lessons p = Some total
    ∧ get_module db module_id = Some module
    ∧ Module_.total_lessons module = Some total
    ∧ count ≤ count_completed_lessons db user_id module_id
    ∧ (truthy (UserModuleProgress.is_completed p) = true ↔ count = total).

Definition counters_ok (db : DB) : Prop :=
  ∀ user_id module_id p,
    module_progress db !! (user_id, module_id) = Some p →
    row_ok db user_id module_id p.

(** ** The XP policy as the specification words it

    The request's [xp_earned] if it is positive; otherwise the lesson's
    [xp_reward] if it is positive; otherwise 50. *)
Definition claimed_xp (data : Data.t) (lesson : Lesson.t) : Z :=
  let requested := default JNull (Data.xp_earned data) in
  if is_number requested && gt_zero requested then py_int requested
  else match Lesson.xp_reward lesson with
       | Some reward => if 0 <? reward then reward else 50
       | None => 50
       end.

(** ** Sample data *)

(** An environment in which nothing interferes and the hooks return. *)
Definition quiet : Env := mkEnv (λ _, 0) Succeeds Succeeds (λ _, true).

(** User 1, and module 2 with its three lessons 5, 6 and 7; nothing has
    been completed yet. *)
Definition demo_db : DB :=
  mkDB [Lesson.mk 5 2 "Intro" 1 (Some 20);
        Lesson.mk 6 2 "Practice" 2 (Some 0);
        Lesson.mk 7 2 "Quiz" 3 None]
       [Module_.mk 2 1 (Some 3)]
       {[1 := User.mk (Some 0)]} ∅ ∅ [].

(** [demo_db] once user 1 has completed lesson 5, with the counter of
    module 2 left behind at 0. *)
Definition stale_db : DB :=
  mkDB (lessons demo_db) (modules demo_db) (users demo_db)
       {[(1, 5) := mark_lesson_completed quiet Data.empty
                     (new_lesson_progress quiet 1 5)]}
       {[(1, 2) := new_module_progress quiet 1 2 (Some 3)]} [].

(** Module 2 as the admin routes leave it when [total_lessons] is not
    kept up: the column still holds its default 0. *)
Definition uncounted_db : DB :=
  mkDB (lessons demo_db) [Module_.mk 2 1 (Some 0)] (users demo_db) ∅ ∅ [].

(** [demo_db] once user 1 has opened lesson 5 and left it half way: the
    pair has its progress row, in progress, and the module has its own. *)
Definition started_db : DB :=
  mkDB (lessons demo_db) (modules demo_db) (users demo_db)
       {[(1, 5) := UserLessonProgress.mk 1 5 "in_progress" 40 (Some false)
                     JNull 1 (JInt 120) (JInt 0) 0 0 None]}
       {[(1, 2) := new_module_progress quiet 1 2 (Some 3)]} [].

(** A lesson whose [xp_reward] was set below zero. *)
Definition penalty_db : DB :=
  mkDB [Lesson.mk 5 2 "Intro" 1 (Some (-5))] (modules demo_db)
       (users demo_db) ∅ ∅ [].

(** The same environment with other hooks. *)
Definition with_hooks (hooks : nat → bool) (env : Env) : Env :=
  mkEnv (utcnow env) (flush_outcome env) (commit_outcome env) hooks.

(** The delay slept after failed attempt [k], in seconds. *)
Definition backoff (k : nat) : Q :=
  ModulesPy.retry_delay * inject_Z (2 ^ Z.of_nat k).

(** ** Whose request, and the ledger of a user *)

(** The user a request acts for. *)
Definition request_user (r : request) : Z :=
  match r with
  | ViaModules _ u _ _ _ | ViaLessons _ u _ _ | ViaNumbers _ u _ _ _ => u
  end.

(** The sum of the amounts that the transactions credit to [user_id]. *)
Definition xp_of (user_id : Z) (txs : list XPTransaction.t) : Z :=
  foldr (λ tx acc, if XPTransaction.user_id tx =? user_id
                   then XPTransaction.amount tx + acc else acc) 0 txs.

(** What a request answers and commits, for the pair it aims at: an error
    and nothing committed; or the completed row as it was; or the rows it
    has just stored, the second of them for a module that exists. *)
Definition answers (db : DB) (u l : Z) (o : result response * Session)
  : Prop :=
  (∃ message status_code error_code details,
     o.1 = Returns (Error message status_code error_code details)
     ∧ committed o.2 = db)
  ∨ (∃ p, lesson_progress db !! (u, l) = Some p
          ∧ truthy (UserLessonProgress.is_completed p) = true
          ∧ o.1 = Returns (Success (mkPayload p None 0 true)
                                   "Lesson already completed")
          ∧ committed o.2 = db)
  ∨ (∃ row mrow xp m,
       completed db u l = false
       ∧ o.1 = Returns (Success (mkPayload row (Some mrow) xp false)
                                "Lesson completed successfully")
       ∧ lesson_progress (committed o.2) !! (u, l) = Some row
       ∧ UserLessonProgress.is_completed row = Some true
       ∧ module_progress (committed o.2) !! (u, m) = Some mrow
       ∧ is_Some (get_module (committed o.2) m)).

(** ** [utils/responses.py]

    [APIResponse.success(data, message)] and
    [APIResponse.error(message, status_code, error_code)] for the routes
    below, whose [data] differ from route to route, and
    [APIResponse.paginated]. *)
Module APIResponse.

Inductive t (A : Type) : Type :=
| success (data : A) (message : string)
| error (message : string) (status_code : Z) (error_code : string).
Arguments success {A} data message.
Arguments error {A} message status_code error_code.

(** The [pagination] dictionary. *)
Record pagination : Type := mkPagination {
  page : Z;
  per_page : Z;
  total : Z;
  total_pages : Z;
  has_next : bool;
  has_prev : bool;
  next_page : option Z;
  prev_page : option Z
}.

(** [APIResponse.paginated(data, page, per_page, total, message)], without
    [additional_data]: the items and the pagination.  [//] is floor
    division, which is [Z.div]; it raises [ZeroDivisionError] for
    [per_page = 0], which is [None] here. *)
Definition paginated {A} (data : list A) (page per_page total : Z)
    (message : string) : option (t (list A * pagination)) :=
  if per_page =? 0 then None
  else
    let total_pages := (total + per_page - 1) / per_page in
    let has_next := page <? total_pages in
    let has_prev := 1 <? page in
    let pagination :=
      mkPagination page per_page total total_pages has_next has_prev
        (if has_next then Some (page + 1) else None)
        (if has_prev then Some (page - 1) else None) in
    Some (success (data, pagination) message).

End APIResponse.

(** ** The lessons of a module, with their locks

    [Lesson.status] and [Lesson.order_index] are columns that the completion
    code never reads; a row of the lessons table with them is a
    [LessonRow.t].  [active] tells whether the database matches the row's
    [status] against ['active']. *)
Module LessonRow.
Record t : Type := mk {
  columns : Lesson.t;
  active : bool;
  order_index : option Z
}.
Definition id (r : t) : Z := Lesson.id (columns r).
End LessonRow.

(** [ORDER BY order_index]: ascending, [NULL] first (as MySQL, the one
    database the configuration accepts, sorts it).  Rows with equal keys
    are left in scan order; nothing below depends on how ties fall. *)
Definition order_le (a b : option Z) : bool :=
  match a, b with
  | None, _ => true
  | Some _, None => false
  | Some x, Some y => x <=? y
  end.

Fixpoint insert_by_order (r : LessonRow.t) (sorted : list LessonRow.t)
  : list LessonRow.t :=
  match sorted with
  | [] => [r]
  | r' :: rest =>
    if order_le (LessonRow.order_index r) (LessonRow.order_index r')
    then r :: sorted
    else r' :: insert_by_order r rest
  end.

Definition order_by_order_index (rows : list LessonRow.t)
  : list LessonRow.t :=
  foldr insert_by_order [] rows.

(** [Lesson.query.filter_by(module_id=module_id, status='active')
      .order_by(Lesson.order_index).all()] *)
Definition active_lessons (rows : list LessonRow.t) (module_id : Z)
  : list LessonRow.t :=
  order_by_order_index
    (List.filter (λ r, (Lesson.module_id (LessonRow.columns r) =? module_id)
                       && LessonRow.active r) rows).

(** [if current_user_id:] -- the identity of the token, when there is one
    and it is not 0. *)
Definition authenticated (current_user_id : option Z) : option Z :=
  match current_user_id with
  | Some user_id => if user_id =? 0 then None else Some user_id
  | None => None
  end.

(** [UserLessonProgress.query.filter(user_id == current_user_id,
      lesson_id.in_(lesson_ids)).all()], each row with its [lesson_id].
    The query leaves the order of the rows to the database; here they come
    in the order of their keys. *)
Definition user_progress_records (db : DB) (current_user_id : Z)
    (lesson_ids : list Z) : list (Z * UserLessonProgress.t) :=
  (λ kv : Z * Z * UserLessonProgress.t, (kv.1.2, kv.2))
    <$> map_to_list
          (filter (λ kv : Z * Z * UserLessonProgress.t,
                     kv.1.1 = current_user_id ∧ kv.1.2 ∈ lesson_ids)
                  (lesson_progress db)).

(** An element of [lessons_with_status]: [lesson.to_dict()] with the two
    flags. *)
Module LessonData.
Record t : Type := mk {
  lesson : LessonRow.t;
  is_completed : bool;
  is_locked : bool
}.
End LessonData.

(** The body of the [for lesson_index, lesson in enumerate(active_lessons)]
    loop.  [active_lessons[lesson_index - 1]] exists whenever
    [lesson_index > 0]. *)
Definition lesson_with_status (active_lessons : list LessonRow.t)
    (completed_lesson_ids : list Z) (lesson_index : nat)
    (lesson : LessonRow.t) : LessonData.t :=
  let is_completed :=
    bool_decide (LessonRow.id lesson ∈ completed_lesson_ids) in
  let is_locked :=
    if (0 <? lesson_index)%nat then
      match active_lessons !! (lesson_index - 1)%nat with
      | Some previous_lesson =>
        bool_decide (LessonRow.id previous_lesson ∉ completed_lesson_ids)
      | None => false
      end
    else false in
  LessonData.mk lesson is_completed is_locked.

Definition lessons_with_status (active_lessons : list LessonRow.t)
    (completed_lesson_ids : list Z) : list LessonData.t :=
  imap (lesson_with_status active_lessons completed_lesson_ids)
       active_lessons.

(** [module_info]: [requested_module.to_dict()] with the three keys that
    the route adds. *)
Module ModuleInfo.
Record t : Type := mk {
  module : Module_.t;
  completed_lessons_count : Z;
  progress_percentage : Q;
  is_completed : option bool
}.
End ModuleInfo.

(** The [data] of [get_module_lessons]. *)
Module ModuleLessons.
Record t : Type := mk {
  lessons : list LessonData.t;
  user_progress : list (Z * UserLessonProgress.t);
  module_info : ModuleInfo.t;
  completed_lessons : list Z
}.
End ModuleLessons.

(** The [data] of [get_module_progress]: the default dictionary, which has
    no [user_id] and no timestamps, or the row's [to_dict()]. *)
Module ModuleProgressData.
Record t : Type := mk {
  user_id : option Z;
  module_id : Z;
  progress_percentage : Q;
  completed_lessons : option Z;
  total_lessons : option Z;
  is_completed : option bool;
  started_at : option Z;
  last_accessed : option Z;
  completed_at : option Z
}.
Definition to_dict (p : UserModuleProgress.t) : t :=
  mk (Some (UserModuleProgress.user_id p))
     (UserModuleProgress.module_id p)
     (UserModuleProgress.progress_percentage p)
     (UserModuleProgress.completed_lessons p)
     (UserModuleProgress.total_lessons p)
     (UserModuleProgress.is_completed p)
     (Some (UserModuleProgress.started_at p))
     (Some (UserModuleProgress.last_accessed p))
     (UserModuleProgress.completed_at p).
End ModuleProgressData.

(** A JSON object posted to [POST /<module_id>/progress]: the three keys
    the route looks at, [None] for an absent key, and [other_keys] telling
    whether it has further keys.  A present value is taken to have the type
    of the column it is assigned to. *)
Module ProgressUpdate.
Record t : Type := mk {
  progress_percentage : option Q;
  completed_lessons : option Z;
  is_completed : option bool;
  other_keys : bool
}.
(** [not update_data] for an object: it is empty. *)
Definition is_empty (d : t) : bool :=
  match progress_percentage d, completed_lessons d, is_completed d with
  | None, None, None => negb (other_keys d)
  | _, _, _ => false
  end.
End ProgressUpdate.

(** What [request.get_json()] makes of the request.  For a request that
    does not declare a JSON body, or whose body does not parse, it raises
    an [HTTPException] (415, 400); otherwise it returns the decoded value,
    which need not be an object. *)
Module Body.

Inductive value : Type :=
| null
| boolean (b : bool)
| integer (n : Z)
| real (x : Q)
| text (s : string)
| array (items : list json)
| object (d : ProgressUpdate.t).

Inductive t : Type :=
| not_json (message : string)
| parsed (v : value).

(** [not update_data] *)
Definition falsy (update_data : value) : bool :=
  match update_data with
  | null => true
  | boolean b => negb b
  | integer n => n =? 0
  | real x => Qnum x =? 0
  | text s => match s with EmptyString => true | String _ _ => false end
  | array items => match items with [] => true | _ :: _ => false end
  | object d => ProgressUpdate.is_empty d
  end.

(** [item == key] for an item of an array. *)
Definition is_text (key : string) (item : json) : bool :=
  match item with
  | JString s => String.eqb s key
  | _ => false
  end.

End Body.

(** The [data] of the update's response: the row's dictionary under the
    key [progress]. *)
Module UpdatedProgress.
Record t : Type := mk {
  progress : ModuleProgressData.t
}.
End UpdatedProgress.

(** The [data] of [get_lesson_progress]: the four keys of the default
    dictionary, and the row for the keys that only [to_dict()] has. *)
Module LessonProgressData.
Record t : Type := mk {
  lesson_id : Z;
  progress_percentage : Q;
  is_completed : option bool;
  status : string;
  row : option UserLessonProgress.t
}.
Definition to_dict (p : UserLessonProgress.t) : t :=
  mk (UserLessonProgress.lesson_id p)
     (UserLessonProgress.progress_percentage p)
     (UserLessonProgress.is_completed p)
     (UserLessonProgress.status p)
     (Some p).
End LessonProgressData.

(** Clock call sites of [update_module_progress]. *)
Definition at_progress_started : nat := 8.
Definition at_progress_completed : nat := 9.
Definition at_progress_accessed : nat := 10.

(** [UserModuleProgress(user_id=..., module_id=...)] with the column
    defaults; [total_lessons] defaults to 0, whatever the module says. *)
Definition blank_module_progress (env : Env) (user_id module_id : Z)
  : UserModuleProgress.t :=
  UserModuleProgress.mk user_id module_id 0 (Some 0) (Some 0) (Some false)
    (utcnow env at_progress_started) (utcnow env at_progress_accessed) None.

(** The assignments of [update_module_progress], from
    [# Update progress fields if provided] to [last_accessed]. *)
Definition apply_update (env : Env) (update_data : ProgressUpdate.t)
    (p : UserModuleProgress.t) : UserModuleProgress.t :=
  UserModuleProgress.mk
    (UserModuleProgress.user_id p) (UserModuleProgress.module_id p)
    (default (UserModuleProgress.progress_percentage p)
             (ProgressUpdate.progress_percentage update_data))
    (match ProgressUpdate.completed_lessons update_data with
     | Some n => Some n
     | None => UserModuleProgress.completed_lessons p
     end)
    (UserModuleProgress.total_lessons p)
    (match ProgressUpdate.is_completed update_data with
     | Some b => Some b
     | None => UserModuleProgress.is_completed p
     end)
    (UserModuleProgress.started_at p)
    (utcnow env at_progress_accessed)
    (match ProgressUpdate.is_completed update_data with
     | Some true =>
       match UserModuleProgress.completed_at p with
       | Some at_ => Some at_
       | None => Some (utcnow env at_progress_completed)
       end
     | _ => UserModuleProgress.completed_at p
     end).

(** ** [modules.py]: the read routes and the progress update *)
Module ModulesApi.

(** [GET /<module_id>/lessons].  [rows] is the lessons table as this route
    reads it, with the columns [status] and [order_index] that the
    completion routes neither read nor write. *)
Definition get_module_lessons (rows : list LessonRow.t)
    (current_user_id : option Z) (module_id : Z)
  : M (APIResponse.t ModuleLessons.t) :=
  let* r := attempt (
    let* requested_module := query (λ db, get_module db module_id) in
    match requested_module with
    | None => raise (NotFoundError "Module not found")
    | Some requested_module =>
      let active_lessons := active_lessons rows module_id in
      let* user_progress_records :=
        match authenticated current_user_id with
        | Some current_user_id =>
          let lesson_ids := LessonRow.id <$> active_lessons in
          match lesson_ids with
          | [] => ret []
          | _ :: _ =>
            query (λ db, user_progress_records db current_user_id lesson_ids)
          end
        | None => ret []
        end in
      let user_lesson_progress := user_progress_records in
      let completed_lesson_ids :=
        fst <$> List.filter
                  (λ progress, truthy (UserLessonProgress.is_completed
                                         progress.2))
                  user_progress_records in
      let lessons_with_status :=
        lessons_with_status active_lessons completed_lesson_ids in
      let total_lessons_count := Z.of_nat (length active_lessons) in
      let completed_lessons_count :=
        Z.of_nat (length completed_lesson_ids) in
      let completion_percentage :=
        (if 0 <? total_lessons_count
         then inject_Z completed_lessons_count
              / inject_Z total_lessons_count * 100
         else 0)%Q in
      let* user_module_progress :=
        match authenticated current_user_id with
        | Some current_user_id =>
          query (λ db, module_progress db !! (current_user_id, module_id))
        | None => ret None
        end in
      let module_response_data :=
        ModuleInfo.mk requested_module completed_lessons_count
          completion_percentage
          (match user_module_progress with
           | Some user_module_progress =>
             UserModuleProgress.is_completed user_module_progress
           | None => Some false
           end) in
      ret (APIResponse.success
             (ModuleLessons.mk lessons_with_status user_lesson_progress
                               module_response_data completed_lesson_ids)
             "Module lessons retrieved successfully")
    end) in
  match r with
  | Returns response => ret response
  | Raises (NotFoundError message) =>
    ret (APIResponse.error message 404 "MODULE_NOT_FOUND")
  | Raises _ =>
    ret (APIResponse.error "Failed to get module lessons" 500
                           "INTERNAL_ERROR")
  end.

(** [GET /<module_id>/progress] *)
Definition get_module_progress (current_user_id module_id : Z)
  : M (APIResponse.t ModuleProgressData.t) :=
  let* r := attempt (
    let* requested_module := query (λ db, get_module db module_id) in
    match requested_module with
    | None => raise (NotFoundError "Module not found")
    | Some requested_module =>
      let* user_module_progress :=
        query (λ db, module_progress db !! (current_user_id, module_id)) in
      match user_module_progress with
      | None =>
        ret (APIResponse.success
               (ModuleProgressData.mk None module_id 0 (Some 0)
                  (Module_.total_lessons requested_module) (Some false)
                  None None None)
               "Module progress retrieved successfully")
      | Some user_module_progress =>
        ret (APIResponse.success
               (ModuleProgressData.to_dict user_module_progress)
               "Module progress retrieved successfully")
      end
    end) in
  match r with
  | Returns response => ret response
  | Raises (NotFoundError message) =>
    ret (APIResponse.error message 404 "MODULE_NOT_FOUND")
  | Raises _ =>
    ret (APIResponse.error "Failed to get module progress" 500
                           "INTERNAL_ERROR")
  end.

(** [request.get_json()] *)
Definition get_json (body : Body.t) : M Body.value :=
  match body with
  | Body.not_json message => raise (HTTPException message)
  | Body.parsed update_data => ret update_data
  end.

(** [if key in update_data: ... = update_data[key]] for a body that is not
    an object.  A string has the key when the key is a part of it, an
    array when the key is one of its items, and neither can be subscripted
    by a string; anything else cannot be searched.  The messages are
    CPython's; the route only logs them. *)
Definition assign_if_posted (key : string) (update_data : Body.value)
  : M unit :=
  match update_data with
  | Body.text s =>
    if contains key s
    then raise (TypeError "string indices must be integers")
    else ret tt
  | Body.array items =>
    if existsb (Body.is_text key) items
    then raise (TypeError
                  "list indices must be integers or slices, not str")
    else ret tt
  | Body.null =>
    raise (TypeError "argument of type 'NoneType' is not iterable")
  | Body.boolean _ =>
    raise (TypeError "argument of type 'bool' is not iterable")
  | Body.integer _ =>
    raise (TypeError "argument of type 'int' is not iterable")
  | Body.real _ =>
    raise (TypeError "argument of type 'float' is not iterable")
  | Body.object _ => ret tt
  end.

(** [POST /<module_id>/progress].  For an object the three conditional
    assignments are [apply_update]; for any other body they assign nothing
    or raise. *)
Definition update_module_progress (env : Env) (current_user_id module_id : Z)
    (body : Body.t) : M (APIResponse.t UpdatedProgress.t) :=
  let* r := attempt (
    let* update_data := get_json body in
    if Body.falsy update_data
    then raise (ValidationError "Request data is required")
    else
      let* requested_module := query (λ db, get_module db module_id) in
      match requested_module with
      | None => raise (NotFoundError "Module not found")
      | Some _ =>
        let* found :=
          query (λ db, module_progress db !! (current_user_id, module_id)) in
        let* user_module_progress :=
          match found with
          | Some user_module_progress => ret user_module_progress
          | None =>
            let user_module_progress :=
              blank_module_progress env current_user_id module_id in
            save_module_progress current_user_id module_id
                                 user_module_progress ;;;
            ret user_module_progress
          end in
        let* posted :=
          match update_data with
          | Body.object posted => ret posted
          | _ =>
            assign_if_posted "progress_percentage" update_data ;;;
            assign_if_posted "completed_lessons" update_data ;;;
            assign_if_posted "is_completed" update_data ;;;
            ret (ProgressUpdate.mk None None None true)
          end in
        let user_module_progress :=
          apply_update env posted user_module_progress in
        save_module_progress current_user_id module_id
                             user_module_progress ;;;
        commit env ;;;
        ret (APIResponse.success
               (UpdatedProgress.mk
                  (ModuleProgressData.to_dict user_module_progress))
               "Progress updated successfully")
      end) in
  match r with
  | Returns response => ret response
  | Raises (ValidationError message) =>
    rollback ;;; ret (APIResponse.error message 400 "VALIDATION_ERROR")
  | Raises (NotFoundError message) =>
    rollback ;;; ret (APIResponse.error message 404 "MODULE_NOT_FOUND")
  | Raises _ =>
    rollback ;;;
    ret (APIResponse.error "Failed to update progress" 500
                           "INTERNAL_ERROR")
  end.

(** [GET /<module_id>] *)
Definition get_module (user_id : option Z) (module_id : Z)
  : M (APIResponse.t (Module_.t * option UserModuleProgress.t)) :=
  let* r := attempt (
    let* module := query (λ db, get_module db module_id) in
    match module with
    | None => raise (NotFoundError "Module not found")
    | Some module =>
      let* user_progress :=
        match authenticated user_id with
        | Some user_id =>
          query (λ db, module_progress db !! (user_id, module_id))
        | None => ret None
        end in
      ret (APIResponse.success (module, user_progress)
                               "Module retrieved successfully")
    end) in
  match r with
  | Returns response => ret response
  | Raises (NotFoundError message) =>
    ret (APIResponse.error message 404 "MODULE_NOT_FOUND")
  | Raises _ =>
    ret (APIResponse.error "Failed to get module" 500 "INTERNAL_ERROR")
  end.

End ModulesApi.

(** ** [utils/auth_decorators.py] and the routes of [lessons.py] it guards

    [User.is_active] is a column that the completion code never reads;
    [is_active user_id] is its value in the row of [user_id].  [error] is
    [APIResponse.error] for the response type of the route. *)
Definition require_auth {A} (error : string → Z → string → A)
    (is_active : Z → option bool) (user_id : Z) (f : M A) : M A :=
  let* r := attempt (
    let* user := query (λ db, users db !! user_id) in
    match user with
    | None => ret (error "User not found" 401 "INVALID_CREDENTIALS")
    | Some _ =>
      if negb (truthy (is_active user_id))
      then ret (error "Account is disabled" 401 "ACCOUNT_DISABLED")
      else
        let* fresh_user := query (λ db, users db !! user_id) in
        match fresh_user with
        | None =>
          ret (error "Account is disabled or not found" 401
                     "ACCOUNT_DISABLED")
        | Some _ =>
          if negb (truthy (is_active user_id))
          then ret (error "Account is disabled or not found" 401
                          "ACCOUNT_DISABLED")
          else f
        end
    end) in
  match r with
  | Returns response => ret response
  | Raises _ => ret (error "Authentication failed" 401 "TOKEN_INVALID")
  end.

Module LessonsApi.

(** [POST /api/v1/lessons/<lesson_id>/complete] as it is registered:
    behind [@require_auth]. *)
Definition complete_lesson (is_active : Z → option bool) (env : Env)
    (user_id lesson_id : Z) (data : Data.t) : M response :=
  require_auth (λ message status_code error_code,
                  Error message status_code error_code None)
               is_active user_id
               (LessonsPy.complete_lesson env user_id lesson_id data).

(** The body of [get_lesson_progress]. *)
Definition lesson_progress_of (user_id lesson_id : Z)
  : M (APIResponse.t LessonProgressData.t) :=
  let* progress := query (λ db, lesson_progress db !! (user_id, lesson_id)) in
  match progress with
  | None =>
    ret (APIResponse.success
           (LessonProgressData.mk lesson_id 0 (Some false) "not_started" None)
           "Lesson progress retrieved successfully")
  | Some progress =>
    ret (APIResponse.success (LessonProgressData.to_dict progress)
                             "Lesson progress retrieved successfully")
  end.

(** [GET /api/v1/lessons/<lesson_id>/progress], behind [@require_auth]. *)
Definition get_lesson_progress (is_active : Z → option bool)
    (user_id lesson_id : Z) : M (APIResponse.t LessonProgressData.t) :=
  require_auth APIResponse.error is_active user_id
    (let* r := attempt (lesson_progress_of user_id lesson_id) in
     match r with
     | Returns response => ret response
     | Raises _ =>
       ret (APIResponse.error "Failed to get lesson progress" 500
                              "INTERNAL_ERROR")
     end).

(** [GET /api/v1/lessons/<lesson_id>] *)
Definition get_lesson (lesson_id : Z) : M (APIResponse.t Lesson.t) :=
  let* r := attempt (
    let* lesson := query (λ db, get_lesson db lesson_id) in
    match lesson with
    | None => ret (APIResponse.error "Lesson not found" 404
                                     "LESSON_NOT_FOUND")
    | Some lesson =>
      ret (APIResponse.success lesson "Lesson retrieved successfully")
    end) in
  match r with
  | Returns response => ret response
  | Raises _ =>
    ret (APIResponse.error "Failed to get lesson" 500 "INTERNAL_ERROR")
  end.

End LessonsApi.

(** ** What [get_module_lessons] lists: closed forms *)

(** The progress rows that the route fetches for the listed lessons. *)
Definition listed_records (db : DB) (current_user_id : option Z)
    (active : list LessonRow.t) : list (Z * UserLessonProgress.t) :=
  match authenticated current_user_id with
  | Some user_id =>
    user_progress_records db user_id (LessonRow.id <$> active)
  | None => []
  end.

(** [completed_lesson_ids] *)
Definition listed_completed_ids (db : DB) (current_user_id : option Z)
    (active : list LessonRow.t) : list Z :=
  fst <$> List.filter
            (λ progress, truthy (UserLessonProgress.is_completed progress.2))
            (listed_records db current_user_id active).

(** Whether the listing shows [lesson_id] as completed. *)
Definition shown_completed (db : DB) (current_user_id : option Z)
    (lesson_id : Z) : bool :=
  match authenticated current_user_id with
  | Some user_id => completed db user_id lesson_id
  | None => false
  end.

(** ** Running the routes *)

Lemma post_commit_hooks_run env attempts s :
  ModulesPy.post_commit_hooks env attempts s
  = (Returns tt,
     mkSession (committed s) (pending s)
               (trace s ++ hook_events env attempts)).
Proof.
  revert s. induction attempts as [|attempt rest IH]; intros [c p t]; simpl.
  - unfold ret. by rewrite app_nil_r.
  - unfold bind, emit, ret; simpl.
    destruct (hooks_return env attempt); simpl; [done|].
    destruct (_ <? _)%nat; simpl; rewrite IH; simpl;
      by rewrite <- ?app_assoc.
Qed.

Arguments ModulesPy.post_commit_hooks : simpl never.

(** Symbolic execution: [exec] opens the routes and the session
    operations, [step] pushes the session through what has become
    decidable. *)
Ltac step :=
  cbv beta iota;
  cbn [pending committed trace lessons modules users lesson_progress
       module_progress xp_transactions negb andb app].

Ltac exec :=
  cbv [ModulesPy._complete_lesson_internal ModulesPy.complete_progress
       ModulesPy.on_commit_integrity_error ModulesPy.complete_lesson
       ModulesPy.respond ModulesPy.complete_lesson_by_number
       LessonsPy.complete_lesson LessonsPy.transaction
       LessonsPy.complete_progress LessonsPy.session_begin
       save_lesson_progress save_module_progress add_transaction
       sql_increment_total_xp orm_increment_total_xp
       bind ret raise attempt query write rollback flush commit fail_with
       start set_lesson_progress set_module_progress set_users
       set_xp_transactions get_module get_lesson negb andb];
  step.

Ltac outcome :=
  unfold after_modules_py, lesson_row, module_row, incremented,
    credited_transactions, marked_row, module_row0, lesson_row0.

Lemma modules_first env u m l data db lesson module t :
  sequential env →
  get_lesson db l = Some lesson →
  Lesson.module_id lesson = m →
  completed db u l = false →
  get_module db m = Some module →
  Module_.total_lessons module = Some t →
  ModulesPy._complete_lesson_internal env u m l data (start db)
  = (Returns (lesson_row env u l data lesson db true,
              Some (module_row env u m t db (incremented env u m t db)),
              resolve_xp data lesson, false),
     let db' := after_modules_py env u m l data lesson t db in
     mkSession db' db' (hook_events env (seq 0 ModulesPy.max_retries))).
Proof.
  intros [Hf Hc] Hl Hm Hd Hmod Ht.
  unfold completed in Hd. outcome.
  unfold get_lesson, get_module in Hl, Hmod. exec.
  rewrite Hl; step. rewrite Hm, Z.eqb_refl; step.
  destruct (lesson_progress db !! (u, l)) as [p|] eqn:Hp; step;
    rewrite ?Hd, ?Hf; step;
    (destruct (module_progress db !! (u, m)) as [mp|] eqn:Hmp; step;
     repeat (first [rewrite Hmod | rewrite Ht]; step);
     destruct (0 <? resolve_xp data lesson) eqn:Hx; step; rewrite Hc; step;
     rewrite post_commit_hooks_run; step; rewrite ?insert_insert_eq; done).
Qed.

Lemma modules_route_first env u m l data db lesson module t :
  sequential env →
  get_lesson db l = Some lesson →
  Lesson.module_id lesson = m →
  completed db u l = false →
  get_module db m = Some module →
  Module_.total_lessons module = Some t →
  ModulesPy.complete_lesson env u m l data (start db)
  = (Returns (Success
       (mkPayload (lesson_row env u l data lesson db true)
          (Some (module_row env u m t db (incremented env u m t db)))
          (resolve_xp data lesson) false)
       "Lesson completed successfully"),
     let db' := after_modules_py env u m l data lesson t db in
     mkSession db' db' (hook_events env (seq 0 ModulesPy.max_retries))).
Proof.
  intros. unfold ModulesPy.complete_lesson, bind, attempt.
  by erewrite modules_first.
Qed.

(** [lessons.py]: the transaction block is not entered, and the route
    answers 500 after a rollback, whatever the request. *)
Lemma lessons_route_fails env u l data s :
  LessonsPy.complete_lesson env u l data s
  = (Returns (Error "Failed to complete lesson" 500 "INTERNAL_ERROR" None),
     mkSession (committed s) (committed s) (trace s)).
Proof. done. Qed.

(** Nor would the block get past its imports in a session that has begun
    no transaction. *)
Lemma lessons_block_fails env u l data s :
  LessonsPy.session_begin env false (LessonsPy.transaction env u l data) s
  = (Raises (ImportError
               "cannot import name 'with_for_update' from 'sqlalchemy.orm'"),
     mkSession (committed s) (committed s) (trace s)).
Proof. done. Qed.

(** A completed pair: the internal function returns at once, whatever the
    environment and whatever the session holds. *)
Lemma modules_duplicate env u m l data s lesson p :
  get_lesson (pending s) l = Some lesson →
  Lesson.module_id lesson = m →
  lesson_progress (pending s) !! (u, l) = Some p →
  truthy (UserLessonProgress.is_completed p) = true →
  ModulesPy._complete_lesson_internal env u m l data s
  = (Returns (p, None, 0, true), s).
Proof.
  intros Hl Hm Hp Hd. unfold get_lesson in Hl. exec.
  rewrite Hl; step. rewrite Hm, Z.eqb_refl; step.
  rewrite Hp; step. by rewrite Hd.
Qed.

Lemma find_id_module db m module :
  get_module db m = Some module → Module_.id module = m.
Proof.
  unfold get_module. intros H. apply find_some in H as [_ H]. lia.
Qed.

Lemma find_id_lesson db l lesson :
  get_lesson db l = Some lesson → Lesson.id lesson = l.
Proof.
  unfold get_lesson. intros H. apply find_some in H as [_ H]. lia.
Qed.

(** The scenario of the specification: user 1 completes lesson 5 of
    module 2 (reward 20, three lessons, none completed), then asks again. *)
Example first_completion_then_repeat :
  let r := ViaModules quiet 1 2 5 Data.empty in
  let once := handle r (start demo_db) in
  let twice := handle r (start (serve demo_db r)) in
  (∃ row mrow,
     once.1 = Returns (Success (mkPayload row (Some mrow) 20 false)
                               "Lesson completed successfully")
     ∧ UserModuleProgress.completed_lessons mrow = Some 1
     ∧ UserModuleProgress.total_lessons mrow = Some 3
     ∧ UserModuleProgress.is_completed mrow = Some false)
  ∧ users (serve demo_db r) !! 1 = Some (User.mk (Some 20))
  ∧ (∃ row,
       twice.1 = Returns (Success (mkPayload row None 0 true)
                                  "Lesson already completed"))
  ∧ committed twice.2 = serve demo_db r.
Proof.
  split; [|split; [|split]].
  - eexists _, _. split; [vm_compute; reflexivity|]. by repeat split.
  - by vm_compute.
  - eexists. vm_compute. reflexivity.
  - by vm_compute.
Qed.

(** ** What one request can do, when nothing interferes *)

Lemma modules_cases env u m l data db :
  sequential env →
  let s' := (ModulesPy.complete_lesson env u m l data (start db)).2 in
  (committed s' = db ∧ pending s' = db)
  ∨ (first_completion db u m l (committed s') ∧ pending s' = committed s').
Proof.
  intros Hseq.
  destruct (get_lesson db l) as [lesson|] eqn:Hl; cycle 1.
  { left. unfold get_lesson in Hl. exec. by rewrite Hl. }
  destruct (Lesson.module_id lesson =? m) eqn:Hm; cycle 1.
  { left. unfold get_lesson in Hl. exec. rewrite Hl; step. by rewrite Hm. }
  apply Z.eqb_eq in Hm.
  destruct (completed db u l) eqn:Hd.
  { left. unfold completed in Hd.
    destruct (lesson_progress db !! (u, l)) as [p|] eqn:Hp; [|done].
    unfold ModulesPy.complete_lesson, bind, attempt.
    by erewrite modules_duplicate. }
  destruct (get_module db m) as [module|] eqn:Hmod; cycle 1.
  { left. destruct Hseq as [Hf Hc]. unfold completed in Hd.
    unfold get_lesson, get_module in Hl, Hmod. exec.
    rewrite Hl; step. rewrite Hm, Z.eqb_refl; step.
    destruct (lesson_progress db !! (u, l)) as [p|] eqn:Hp; step;
      rewrite ?Hd, ?Hf; step;
      destruct (module_progress db !! (u, m)) as [mp|] eqn:Hmp; step;
      rewrite Hmod; step; done. }
  destruct (Module_.total_lessons module) as [t|] eqn:Ht; cycle 1.
  { left. destruct Hseq as [Hf Hc]. unfold completed in Hd.
    unfold get_lesson, get_module in Hl, Hmod. exec.
    rewrite Hl; step. rewrite Hm, Z.eqb_refl; step.
    destruct (lesson_progress db !! (u, l)) as [p|] eqn:Hp; step;
      rewrite ?Hd, ?Hf; step;
      destruct (module_progress db !! (u, m)) as [mp|] eqn:Hmp; step;
      repeat (first [rewrite Hmod | rewrite Ht]; step); done. }
  right. erewrite modules_route_first by done. simpl. split; [|done].
  by eapply FirstCompletion.
Qed.

Lemma lessons_cases env u l data db :
  let s' := (LessonsPy.complete_lesson env u l data (start db)).2 in
  committed s' = db ∧ pending s' = db.
Proof. by rewrite lessons_route_fails. Qed.

(** ** The by-number route *)

Lemma by_number_resolved env u mn ln data s m l :
  resolve (pending s) mn ln = Some (m, l) →
  ModulesPy.complete_lesson_by_number env u mn ln data s
  = ModulesPy.complete_lesson env u m l data s.
Proof.
  unfold resolve, ModulesPy.complete_lesson_by_number,
    ModulesPy.complete_lesson, bind, attempt, query.
  destruct (first_module_by_number (pending s) mn) as [module|]; [|done].
  simpl.
  destruct (first_lesson_by_number (pending s) (Module_.id module) ln)
    as [lesson|]; [|done].
  by intros [= <- <-].
Qed.

Lemma by_number_unresolved env u mn ln data s :
  resolve (pending s) mn ln = None →
  ∃ message,
    ModulesPy.complete_lesson_by_number env u mn ln data s
    = (Returns (Error message 404 "LESSON_NOT_FOUND" None),
       mkSession (committed s) (committed s) (trace s))
    ∧ (message = "Module " +:+ pretty mn +:+ " not found"
       ∨ message = "Lesson " +:+ pretty ln +:+ " in module "
                   +:+ pretty mn +:+ " not found").
Proof.
  unfold resolve, ModulesPy.complete_lesson_by_number, ModulesPy.respond,
    bind, attempt, query, raise, rollback, ret.
  destruct (first_module_by_number (pending s) mn) as [module|]; simpl.
  - destruct (first_lesson_by_number (pending s) (Module_.id module) ln)
      as [lesson|]; [done|].
    intros _. eexists. split; [done|]. by right.
  - intros _. eexists. split; [done|]. by left.
Qed.

Lemma serve_cases db r :
  sequential (request_env r) →
  serve db r = db
  ∨ ∃ u m l, aims_at db r u l ∧ first_completion db u m l (serve db r).
Proof.
  intros Hseq. unfold serve. destruct r as [env u m l data|env u l data|env u mn ln data]; simpl in *.
  - destruct (modules_cases env u m l data db Hseq) as [[H _]|[H _]]; [by left|].
    right. by exists u, m, l.
  - left. apply (lessons_cases env u l data db).
  - destruct (resolve db mn ln) as [[m l]|] eqn:Hr.
    + rewrite (by_number_resolved env u mn ln data (start db) m l Hr).
      destruct (modules_cases env u m l data db Hseq) as [[H _]|[H _]]; [by left|].
      right. exists u, m, l. split; [|done]. split; [done|]. by exists m.
    + destruct (by_number_unresolved env u mn ln data (start db) Hr) as (msg & -> & _).
      by left.
Qed.

(** ** The completed-lessons scan *)

Lemma counts_for_content db db' u m kv :
  lessons db' = lessons db →
  counts_for db' u m kv ↔ counts_for db u m kv.
Proof.
  intros H. unfold counts_for, lesson_in_module, get_lesson. by rewrite H.
Qed.

Lemma count_content db db' u m :
  lessons db' = lessons db →
  lesson_progress db' = lesson_progress db →
  count_completed_lessons db' u m = count_completed_lessons db u m.
Proof.
  intros Hl Hp. unfold count_completed_lessons. rewrite Hp.
  f_equal. f_equal. apply map_filter_ext. intros i x _.
  by apply (counts_for_content db db' u m (i, x)).
Qed.

(** Marking a pair that was not completed adds one to the scan of the
    lesson's module, for that user. *)
Lemma count_marked db u m l p :
  completed db u l = false →
  lesson_in_module db l m = true →
  UserLessonProgress.is_completed p = Some true →
  count_completed_lessons (set_lesson_progress <[(u, l) := p]> db) u m
  = count_completed_lessons db u m + 1.
Proof.
  intros Hd Hin Hp. unfold count_completed_lessons. simpl.
  set (db' := set_lesson_progress _ db).
  assert (filter (counts_for db' u m) (<[(u, l) := p]> (lesson_progress db))
          = filter (counts_for db u m) (<[(u, l) := p]> (lesson_progress db)))
    as -> by (apply map_filter_ext; intros i x _;
              by apply (counts_for_content db db' u m (i, x))).
  rewrite map_filter_insert_True by done.
  rewrite map_size_insert_None; [lia|].
  apply map_lookup_filter_None. unfold completed in Hd.
  destruct (lesson_progress db !! (u, l)) as [q|] eqn:Hq; [right|by left].
  intros q' [= <-] (_ & Hq' & _). simpl in Hq'. rewrite Hq' in Hd. done.
Qed.

(** It changes no other scan. *)
Lemma count_unmarked db u m l p u' m' lesson :
  completed db u l = false →
  get_lesson db l = Some lesson →
  Lesson.module_id lesson = m →
  (u', m') ≠ (u, m) →
  count_completed_lessons (set_lesson_progress <[(u, l) := p]> db) u' m'
  = count_completed_lessons db u' m'.
Proof.
  intros Hd Hl Hm Hne. unfold count_completed_lessons. simpl.
  set (db' := set_lesson_progress _ db).
  assert (filter (counts_for db' u' m')
                 (<[(u, l) := p]> (lesson_progress db))
          = filter (counts_for db u' m')
                   (<[(u, l) := p]> (lesson_progress db)))
    as -> by (apply map_filter_ext; intros i x _;
              by apply (counts_for_content db db' u' m' (i, x))).
  assert (Hnot : ∀ q, ¬ counts_for db u' m' ((u, l), q)).
  { intros q (Hu & _ & Hin). simpl in *.
    unfold lesson_in_module in Hin. rewrite Hl in Hin.
    apply Z.eqb_eq in Hin. congruence. }
  rewrite map_filter_insert_False by apply Hnot.
  rewrite map_filter_delete, delete_id; [done|].
  apply map_lookup_filter_None.
  destruct (lesson_progress db !! (u, l)) as [q|] eqn:Hq; [right|by left].
  intros q' [= <-]. apply Hnot.
Qed.
(** ** What a first completion changes *)

Lemma marked_is_completed env data p :
  UserLessonProgress.is_completed (mark_lesson_completed env data p)
  = Some true.
Proof. done. Qed.

Lemma lesson_row_is_completed env u l data lesson db recorded :
  UserLessonProgress.is_completed (lesson_row env u l data lesson db recorded)
  = Some true.
Proof. unfold lesson_row. by destruct (_ && _). Qed.

Lemma first_completion_content db u m l db' :
  first_completion db u m l db' →
  lessons db' = lessons db ∧ modules db' = modules db.
Proof. intros [env data lesson module t Hl Hm Hd Hmod Ht ->]; done. Qed.

Lemma first_completion_progress db u m l db' :
  first_completion db u m l db' →
  ∃ p, lesson_progress db' = <[(u, l) := p]> (lesson_progress db)
       ∧ UserLessonProgress.is_completed p = Some true.
Proof.
  intros [env data lesson module t Hl Hm Hd Hmod Ht ->]; simpl;
    eexists; split; try done; apply lesson_row_is_completed.
Qed.

Lemma first_completion_completed db u m l db' u0 l0 :
  first_completion db u m l db' →
  completed db' u0 l0
  = if bool_decide ((u0, l0) = (u, l)) then true else completed db u0 l0.
Proof.
  intros H. destruct (first_completion_progress _ _ _ _ _ H) as (p & Hp & Hc).
  unfold completed. rewrite Hp. case_bool_decide as Hk.
  - rewrite Hk, lookup_insert_eq. by rewrite Hc.
  - by rewrite lookup_insert_ne.
Qed.

Lemma first_completion_before db u m l db' :
  first_completion db u m l db' → completed db u l = false.
Proof. by intros [env data lesson module t Hl Hm Hd Hmod Ht ->]. Qed.

Lemma first_completion_in_module db u m l db' :
  first_completion db u m l db' → lesson_in_module db l m = true.
Proof.
  intros [env data lesson module t Hl Hm Hd Hmod Ht ->].
  unfold lesson_in_module. rewrite Hl. lia.
Qed.

Lemma first_completion_count db u m l db' u0 m0 :
  first_completion db u m l db' →
  count_completed_lessons db' u0 m0
  = count_completed_lessons db u0 m0
    + (if bool_decide ((u0, m0) = (u, m)) then 1 else 0).
Proof.
  intros H.
  destruct (first_completion_progress _ _ _ _ _ H) as (p & Hp & Hc).
  destruct (first_completion_content _ _ _ _ _ H) as [HL _].
  rewrite (count_content (set_lesson_progress <[(u, l) := p]> db) db')
    by done.
  pose proof (first_completion_before _ _ _ _ _ H) as Hd.
  case_bool_decide as Hk.
  - injection Hk as -> ->. apply count_marked; try done.
    by eapply first_completion_in_module.
  - destruct H as [env data lesson module t Hl Hm _ Hmod Ht _].
    rewrite (count_unmarked db u m l p u0 m0 lesson) by done. lia.
Qed.

Lemma first_completion_transactions db u m l db' :
  first_completion db u m l db' →
  xp_transactions db' = xp_transactions db
  ∨ ∃ tx, xp_transactions db' = (xp_transactions db ++ [tx])%list
          ∧ XPTransaction.user_id tx = u
          ∧ XPTransaction.extra_metadata tx = (m, l)
          ∧ 0 < XPTransaction.amount tx.
Proof.
  intros [env data lesson module t Hl Hm Hd Hmod Ht ->]; simpl;
    unfold credited_transactions;
    (destruct (0 <? resolve_xp data lesson) eqn:Hx; [right|by left]);
    eexists; (split; [done|]); simpl; repeat split; lia.
Qed.

Lemma first_completion_credit_count db u m l db' u0 l0 :
  first_completion db u m l db' →
  (credit_count db u0 l0 ≤ credit_count db' u0 l0
   ≤ credit_count db u0 l0
     + (if bool_decide ((u0, l0) = (u, l)) then 1 else 0))%nat.
Proof.
  intros H. unfold credit_count.
  destruct (first_completion_transactions _ _ _ _ _ H)
    as [->|(tx & -> & Hu & Hmeta & _)]; [lia|].
  rewrite List.filter_app, length_app. simpl.
  destruct (credits_pair u0 l0 tx) eqn:Hcp; simpl; case_bool_decide as Hk;
    try lia.
  unfold credits_pair in Hcp. rewrite Hu, Hmeta in Hcp. simpl in Hcp.
  apply andb_true_iff in Hcp as [Hu0 Hl0].
  apply Z.eqb_eq in Hu0, Hl0. congruence.
Qed.

Lemma first_completion_users db u m l db' u0 :
  first_completion db u m l db' → u0 ≠ u →
  users db' !! u0 = users db !! u0.
Proof.
  intros [env data lesson module t Hl Hm Hd Hmod Ht ->] Hne; simpl;
    destruct (0 <? resolve_xp data lesson); try done;
    by rewrite lookup_alter_ne.
Qed.

(** The module-progress row it writes: the counter is one more than the
    old counter, [total_lessons] is the module's, and the flag is raised
    when the counter has reached it. *)
Lemma first_completion_module_progress db u m l db' :
  first_completion db u m l db' →
  ∃ mp module t n,
    module_progress db' = <[(u, m) := mp]> (module_progress db)
    ∧ get_module db m = Some module
    ∧ Module_.total_lessons module = Some t
    ∧ UserModuleProgress.completed_lessons mp = Some n
    ∧ UserModuleProgress.total_lessons mp = Some t
    ∧ n = match module_progress db !! (u, m) with
          | Some old => default 0 (UserModuleProgress.completed_lessons old)
          | None => 0
          end + 1
    ∧ UserModuleProgress.is_completed mp
      = if t <=? n then Some true
        else match module_progress db !! (u, m) with
             | Some old => UserModuleProgress.is_completed old
             | None => Some false
             end.
Proof.
  intros [env data lesson module t Hl Hm Hd Hmod Ht ->]; simpl.
  exists (module_row env u m t db (incremented env u m t db)), module, t,
    (incremented env u m t db).
  repeat split; try done.
  - unfold incremented, module_row0.
    by destruct (module_progress db !! (u, m)).
  - unfold module_row, module_row0. simpl.
    by destruct (module_progress db !! (u, m)).
Qed.
(** ** The scan is bounded by the module's lessons *)

Lemma count_le_lessons db u m :
  count_completed_lessons db u m ≤ lessons_in db m.
Proof.
  unfold count_completed_lessons, lessons_in.
  set (A := filter (counts_for db u m) (lesson_progress db)).
  set (T := List.filter (λ l, Lesson.module_id l =? m) (lessons db)).
  apply inj_le.
  rewrite <- (length_map_to_list A).
  rewrite <- (length_fmap fst (map_to_list A)).
  rewrite <- (length_fmap snd ((map_to_list A).*1)).
  rewrite <- (length_fmap Lesson.id T).
  apply submseteq_length, NoDup_submseteq.
  - apply NoDup_fmap_2_strong; [|apply NoDup_fst_map_to_list].
    intros [u1 l1] [u2 l2] H1 H2 Heq. simpl in Heq. subst l2.
    apply list_elem_of_fmap in H1 as ([k1 p1] & E1 & H1).
    apply list_elem_of_fmap in H2 as ([k2 p2] & E2 & H2).
    simpl in E1, E2. subst k1 k2.
    apply elem_of_map_to_list in H1, H2.
    apply map_lookup_filter_Some in H1 as (_ & Hu1 & _).
    apply map_lookup_filter_Some in H2 as (_ & Hu2 & _).
    simpl in *. congruence.
  - intros l Hl.
    apply list_elem_of_fmap in Hl as ([u' l'] & -> & Hl).
    apply list_elem_of_fmap in Hl as ([k p] & Hk & Hl). simpl in Hk. subst k.
    apply elem_of_map_to_list, map_lookup_filter_Some in Hl
      as (_ & _ & _ & Hin).
    simpl in Hin. unfold lesson_in_module in Hin.
    destruct (get_lesson db l') as [lesson|] eqn:Hget; [|done].
    apply list_elem_of_fmap. exists lesson. split.
    + simpl. symmetry. by eapply find_id_lesson.
    + apply list_elem_of_In, List.filter_In. split; [|done].
      unfold get_lesson in Hget. by apply find_some in Hget as [? _].
Qed.

Lemma count_nonneg db u m : 0 ≤ count_completed_lessons db u m.
Proof. unfold count_completed_lessons. lia. Qed.

(** ** The counters stay consistent *)

Lemma content_ok_step db u m l db' :
  first_completion db u m l db' → content_ok db → content_ok db'.
Proof.
  intros H Hok m0 module t.
  destruct (first_completion_content _ _ _ _ _ H) as [HL HM].
  unfold get_module, lessons_in. rewrite HL, HM. apply Hok.
Qed.

Lemma counters_ok_step db u m l db' :
  first_completion db u m l db' →
  content_ok db → counters_ok db → counters_ok db'.
Proof.
  intros H Hcontent Hok u0 m0 mp0 Hlook.
  destruct (first_completion_content _ _ _ _ _ H) as [HL HM].
  destruct (first_completion_module_progress _ _ _ _ _ H)
    as (mp & module & t & n & HMP & Hmod & Ht & Hn & Htot & Hrule & Hflag).
  pose proof (first_completion_count _ _ _ _ _ u0 m0 H) as Hcount.
  rewrite HMP in Hlook.
  destruct (decide ((u0, m0) = (u, m))) as [Hk|Hk].
  - injection Hk as -> ->. rewrite lookup_insert_eq in Hlook.
    injection Hlook as <-.
    rewrite bool_decide_true in Hcount by done.
    pose proof (count_le_lessons db' u m) as Hle.
    assert (lessons_in db' m = lessons_in db m) as Hin
      by (unfold lessons_in; by rewrite HL).
    pose proof (Hcontent m module t Hmod Ht) as Hbound.
    pose proof (count_nonneg db u m) as Hpos.
    assert (n ≤ count_completed_lessons db' u m
            ∧ match module_progress db !! (u, m) with
              | Some old =>
                truthy (UserModuleProgress.is_completed old) = true → t < n
              | None => True
              end) as [Hnle Hold].
    { destruct (module_progress db !! (u, m)) as [old|] eqn:Hold.
      - destruct (Hok u m old Hold)
          as (c & t' & module' & Hc & _ & Hmod' & Ht' & Hcle & Hiff).
        rewrite Hc in Hrule. simpl in Hrule.
        assert (t' = t) as -> by congruence.
        split; [lia|]. intros Htrue. apply Hiff in Htrue. lia.
      - split; [lia|done]. }
    exists n, t, module. repeat split; try done.
    + unfold get_module. rewrite HM. apply Hmod.
    + rewrite Hflag. destruct (t <=? n) eqn:Htn; [lia|].
      destruct (module_progress db !! (u, m)) as [old|]; [|done].
      intros Htrue. apply Hold in Htrue. lia.
    + intros ->. rewrite Hflag. by rewrite Z.leb_refl.
  - rewrite lookup_insert_ne in Hlook by done.
    rewrite bool_decide_false in Hcount by done.
    destruct (Hok u0 m0 mp0 Hlook)
      as (c & t' & module' & Hc & Htot' & Hmod' & Ht' & Hcle & Hiff).
    exists c, t', module'. repeat split; try done; try apply Hiff.
    + unfold get_module. rewrite HM. apply Hmod'.
    + lia.
Qed.

Lemma consistent_serve db r :
  sequential (request_env r) →
  content_ok db → counters_ok db →
  content_ok (serve db r) ∧ counters_ok (serve db r).
Proof.
  intros Hseq Hc Hk.
  destruct (serve_cases db r Hseq) as [->|(u & m & l & _ & H)]; [done|].
  split; [by eapply content_ok_step|by eapply counters_ok_step].
Qed.

Lemma consistent_serve_all rs db :
  Forall (λ r, sequential (request_env r)) rs →
  content_ok db → counters_ok db →
  content_ok (serve_all db rs) ∧ counters_ok (serve_all db rs).
Proof.
  revert db. induction rs as [|r rs IH]; intros db Hseq Hc Hk; [done|].
  inversion Hseq as [|?? Hr Hrs]; subst. simpl.
  destruct (consistent_serve db r Hr Hc Hk). by apply IH.
Qed.
(** ** Crediting happens once *)

Lemma aims_at_unique db r u l u' l' :
  aims_at db r u l → aims_at db r u' l' → u' = u ∧ l' = l.
Proof.
  destruct r; simpl.
  - by intros [<- <-] [<- <-].
  - by intros [<- <-] [<- <-].
  - intros [<- [m Hm]] [<- [m' Hm']]. split; [done|]. congruence.
Qed.

Lemma serve_duplicate db r u l :
  sequential (request_env r) →
  aims_at db r u l → completed db u l = true → serve db r = db.
Proof.
  intros Hseq Haim Hdone.
  destruct (serve_cases db r Hseq) as [->|(u' & m' & l' & Haim' & H)];
    [done|].
  destruct (aims_at_unique _ _ _ _ _ _ Haim Haim') as [-> ->].
  apply first_completion_before in H. congruence.
Qed.

Lemma serve_completed db r u l :
  sequential (request_env r) →
  completed db u l = true → completed (serve db r) u l = true.
Proof.
  intros Hseq Hdone.
  destruct (serve_cases db r Hseq) as [->|(u' & m' & l' & _ & H)]; [done|].
  rewrite (first_completion_completed _ _ _ _ _ u l H).
  by case_bool_decide.
Qed.

Lemma credit_budget_serve db r u l :
  sequential (request_env r) →
  (credit_budget (serve db r) u l ≤ credit_budget db u l)%nat
  ∧ (credit_count db u l ≤ credit_count (serve db r) u l)%nat.
Proof.
  intros Hseq. unfold credit_budget.
  destruct (serve_cases db r Hseq) as [->|(u' & m' & l' & _ & H)]; [lia|].
  pose proof (first_completion_credit_count _ _ _ _ _ u l H) as Hcount.
  rewrite (first_completion_completed _ _ _ _ _ u l H).
  case_bool_decide as Hk.
  - injection Hk as -> ->. rewrite (first_completion_before _ _ _ _ _ H). lia.
  - destruct (completed db u l); lia.
Qed.

Lemma credit_budget_serve_all rs db u l :
  Forall (λ r, sequential (request_env r)) rs →
  (credit_budget (serve_all db rs) u l ≤ credit_budget db u l)%nat
  ∧ (credit_count db u l ≤ credit_count (serve_all db rs) u l)%nat.
Proof.
  revert db. induction rs as [|r rs IH]; intros db Hseq; [done|].
  inversion Hseq as [|?? Hr Hrs]; subst. simpl.
  destruct (credit_budget_serve db r u l Hr).
  destruct (IH (serve db r) Hrs). lia.
Qed.

(** Any number of requests for one pair, the first of them through
    [modules.py] with a positive amount: exactly one transaction is added
    and the user's [total_xp] grows by exactly that amount. *)
Lemma repeated_requests_credit_once
    env u l data db lesson module t x (rest : list request) :
  sequential env →
  Forall (λ r, sequential (request_env r)) rest →
  Forall (λ r, ∀ db0, aims_at db0 r u l) rest →
  get_lesson db l = Some lesson →
  completed db u l = false →
  get_module db (Lesson.module_id lesson) = Some module →
  Module_.total_lessons module = Some t →
  users db !! u = Some (User.mk (Some x)) →
  0 < resolve_xp data lesson →
  let first := ViaModules env u (Lesson.module_id lesson) l data in
  let final := serve_all db (first :: rest) in
  credit_count final u l = S (credit_count db u l)
  ∧ users final !! u = Some (User.mk (Some (x + resolve_xp data lesson))).
Proof.
  intros Hseq Hrest Haims Hl Hd Hmod Ht Hu Hx first final.
  subst final first. simpl.
  set (db1 := serve db _).
  assert (db1 = after_modules_py env u (Lesson.module_id lesson) l data
                                 lesson t db) as Hdb1.
  { subst db1. unfold serve, handle.
    by rewrite (modules_route_first env u _ l data db lesson module t
                  Hseq Hl eq_refl Hd Hmod Ht). }
  assert (completed db1 u l = true) as Hdone.
  { rewrite Hdb1. unfold completed. simpl. rewrite lookup_insert_eq.
    by rewrite lesson_row_is_completed. }
  assert (serve_all db1 rest = db1) as ->.
  { clear Hdb1. induction rest as [|r rest IH]; [done|].
    inversion Hrest; inversion Haims; subst. simpl.
    rewrite (serve_duplicate db1 r u l) by auto. auto. }
  rewrite Hdb1. apply Z.ltb_lt in Hx. split.
  - unfold credit_count. simpl. unfold credited_transactions. rewrite Hx.
    rewrite List.filter_app, length_app. simpl.
    unfold credits_pair at 2. simpl. rewrite !Z.eqb_refl. simpl. lia.
  - simpl. rewrite Hx, lookup_alter_eq, Hu. done.
Qed.

(** Served one after the other, requests to any of the routes credit a
    pair [(user_id, lesson_id)] at most once: whatever the requests, at most
    one transaction for the pair is added, and none if the pair was already
    completed; a request for a completed pair leaves the transactions and
    every [total_xp] as they were; and a request that does add a transaction
    or change a [total_xp] is one that takes its own pair from not completed
    to completed. *)
Lemma sequential_requests_credit_once (db : DB) (rs : list request) (u l : Z) :
  Forall (λ r, sequential (request_env r)) rs →
  (credit_count (serve_all db rs) u l ≤ credit_count db u l + 1)%nat
  ∧ (completed db u l = true →
     credit_count (serve_all db rs) u l = credit_count db u l)
  ∧ (∀ r db0, r ∈ rs → aims_at db0 r u l → completed db0 u l = true →
     xp_transactions (serve db0 r) = xp_transactions db0
     ∧ users (serve db0 r) = users db0)
  ∧ (∀ r db0, r ∈ rs →
     xp_transactions (serve db0 r) ≠ xp_transactions db0
     ∨ users (serve db0 r) ≠ users db0 →
     ∃ u' l', aims_at db0 r u' l'
              ∧ completed db0 u' l' = false
              ∧ completed (serve db0 r) u' l' = true).
Proof.
  intros Hseq.
  destruct (credit_budget_serve_all rs db u l Hseq) as [Hb Hc].
  unfold credit_budget in Hb.
  split; [|split; [|split]].
  - destruct (completed (serve_all db rs) u l), (completed db u l); lia.
  - intros Hdone. rewrite Hdone in Hb.
    destruct (completed (serve_all db rs) u l); lia.
  - intros r db0 Hr Haim Hdone.
    rewrite (serve_duplicate db0 r u l); try done.
    eapply (proj1 (Forall_forall _ _) Hseq); eauto.
  - intros r db0 Hr Hchanged.
    assert (sequential (request_env r)) as Hs
      by (eapply (proj1 (Forall_forall _ _) Hseq); eauto).
    destruct (serve_cases db0 r Hs) as [Heq|(u' & m' & l' & Haim & H)].
    + rewrite Heq in Hchanged. by destruct Hchanged.
    + exists u', l'. repeat split; try done.
      * by eapply first_completion_before.
      * rewrite (first_completion_completed _ _ _ _ _ u' l' H).
        by rewrite bool_decide_true.
Qed.

(** ** Two requests at once for a pair in progress *)

(** A request for a pair whose progress row exists and is not completed,
    in a module whose progress row exists too: it reads the two rows,
    writes to them and commits.  It never flushes, so the outcome of the
    flush plays no part. *)
Lemma modules_started env u m l data db lesson module t p mp :
  get_lesson db l = Some lesson →
  Lesson.module_id lesson = m →
  lesson_progress db !! (u, l) = Some p →
  truthy (UserLessonProgress.is_completed p) = false →
  module_progress db !! (u, m) = Some mp →
  get_module db m = Some module →
  Module_.total_lessons module = Some t →
  commit_outcome env = Succeeds →
  ModulesPy.complete_lesson env u m l data (start db)
  = (Returns (Success
       (mkPayload (lesson_row env u l data lesson db true)
          (Some (module_row env u m t db (incremented env u m t db)))
          (resolve_xp data lesson) false)
       "Lesson completed successfully"),
     let db' := after_modules_py env u m l data lesson t db in
     mkSession db' db' (hook_events env (seq 0 ModulesPy.max_retries))).
Proof.
  intros Hl Hm Hp Hd Hmp Hmod Ht Hc. outcome.
  unfold get_lesson, get_module in Hl, Hmod. exec.
  rewrite Hl; step. rewrite Hm, Z.eqb_refl; step.
  rewrite Hp; step. rewrite Hd; step. rewrite Hmp; step.
  repeat (first [rewrite Hmod | rewrite Ht]; step).
  destruct (0 <? resolve_xp data lesson) eqn:Hx; step; rewrite Hc; step;
    rewrite post_commit_hooks_run; step; rewrite ?insert_insert_eq; done.
Qed.

(** C1.  The code credits a pair twice when two requests for it run at
    once and the pair is in progress.  Let the progress row of the pair
    exist, not completed, and the module's progress row exist, and let the
    lesson carry a positive reward [x].  A request that reads this state
    answers [already_completed = false] with [xp_earned = x], adds its own
    transaction of [x] to the ledger and adds [x] to the balance, whatever
    its flush would do; and it commits no new key in either progress table,
    so that no unique constraint can stop its commit.  This holds of each of
    two requests [a] and [b] that have both read the state before either
    commits: both credit. *)
Theorem racing_completions_both_credit
    (env_a env_b : Env) (u m l x : Z) (db : DB) (lesson : Lesson.t)
    (module : Module_.t) (t : Z) (p : UserLessonProgress.t)
    (mp : UserModuleProgress.t) :
  get_lesson db l = Some lesson →
  Lesson.module_id lesson = m →
  Lesson.xp_reward lesson = Some x →
  0 < x →
  lesson_progress db !! (u, l) = Some p →
  truthy (UserLessonProgress.is_completed p) = false →
  module_progress db !! (u, m) = Some mp →
  get_module db m = Some module →
  Module_.total_lessons module = Some t →
  commit_outcome env_a = Succeeds →
  commit_outcome env_b = Succeeds →
  let credits (env : Env) :=
    let o := ModulesPy.complete_lesson env u m l Data.empty (start db) in
    (∃ row mrow,
       o.1 = Returns (Success (mkPayload row (Some mrow) x false)
                              "Lesson completed successfully"))
    ∧ xp_transactions (committed o.2)
      = (xp_transactions db ++ [lesson_completion_tx env u m l lesson x])%list
    ∧ (∀ y, users db !! u = Some (User.mk (Some y)) →
            users (committed o.2) !! u = Some (User.mk (Some (y + x))))
    ∧ dom (lesson_progress (committed o.2)) = dom (lesson_progress db)
    ∧ dom (module_progress (committed o.2)) = dom (module_progress db) in
  credits env_a ∧ credits env_b.
Proof.
  intros Hl Hm Hx Hpos Hp Hd Hmp Hmod Ht Ha Hb credits.
  assert (resolve_xp Data.empty lesson = x) as Hxp
    by (unfold resolve_xp; simpl; by rewrite Hx).
  assert (∀ env, commit_outcome env = Succeeds → credits env) as Hone.
  { intros env Hc. subst credits. cbv beta zeta.
    rewrite (modules_started env u m l Data.empty db lesson module t p mp
               Hl Hm Hp Hd Hmp Hmod Ht Hc).
    cbn [fst snd committed]. unfold after_modules_py, credited_transactions.
    cbn [xp_transactions users lesson_progress module_progress].
    rewrite Hxp. apply Z.ltb_lt in Hpos as Hpos'. rewrite Hpos'.
    split; [by eexists _, _|]. split; [done|]. split.
    - intros y Hy. by rewrite lookup_alter_eq, Hy.
    - split; by apply dom_insert_lookup_L. }
  split; by apply Hone.
Qed.

Lemma racing_completions_both_credit_witness :
  let env_b := mkEnv (λ _, 1) (RaisesIntegrityError "Duplicate entry" demo_db)
                     Succeeds (λ _, false) in
  let lesson := Lesson.mk 5 2 "Intro" 1 (Some 20) in
  let a := ModulesPy.complete_lesson quiet 1 2 5 Data.empty
             (start started_db) in
  let b := ModulesPy.complete_lesson env_b 1 2 5 Data.empty
             (start started_db) in
  (get_lesson started_db 5 = Some lesson
   ∧ completed started_db 1 5 = false
   ∧ is_Some (lesson_progress started_db !! (1, 5))
   ∧ is_Some (module_progress started_db !! (1, 2))
   ∧ users started_db !! 1 = Some (User.mk (Some 0)))
  ∧ xp_transactions (committed a.2)
    = [lesson_completion_tx quiet 1 2 5 lesson 20]
  ∧ xp_transactions (committed b.2)
    = [lesson_completion_tx env_b 1 2 5 lesson 20]
  ∧ users (committed a.2) !! 1 = Some (User.mk (Some 20))
  ∧ users (committed b.2) !! 1 = Some (User.mk (Some 20)).
Proof.
  intros env_b lesson a b.
  split; [repeat split; try reflexivity; by eexists|].
  destruct (racing_completions_both_credit quiet env_b 1 2 5 20 started_db
              lesson (Module_.mk 2 1 (Some 3)) 3
              (UserLessonProgress.mk 1 5 "in_progress" 40 (Some false)
                 JNull 1 (JInt 120) (JInt 0) 0 0 None)
              (new_module_progress quiet 1 2 (Some 3))
              eq_refl eq_refl eq_refl eq_refl eq_refl eq_refl eq_refl
              eq_refl eq_refl eq_refl eq_refl)
    as ((_ & Ha & Hua & _) & (_ & Hb & Hub & _)).
  split; [exact Ha|]. split; [exact Hb|].
  split; [exact (Hua 0 eq_refl)|exact (Hub 0 eq_refl)].
Defined.
(** ** A completed pair is left alone *)

(** C2.  When the pair's progress row is completed (and the lesson exists
    in the module addressed), [modules.py] answers
    [already_completed = true] with [xp_earned = 0] and no module progress,
    and the session is exactly what it was: no table is touched, in any
    environment and any session.  [lessons.py] does not: it answers 500,
    as it does every request, and rolls the session back. *)
Theorem completed_pair_is_inert
    (env : Env) (u m l : Z) (data : Data.t) (s : Session)
    (lesson : Lesson.t) (p : UserLessonProgress.t) :
  get_lesson (pending s) l = Some lesson →
  Lesson.module_id lesson = m →
  lesson_progress (pending s) !! (u, l) = Some p →
  truthy (UserLessonProgress.is_completed p) = true →
  ModulesPy._complete_lesson_internal env u m l data s
  = (Returns (p, None, 0, true), s)
  ∧ ModulesPy.complete_lesson env u m l data s
    = (Returns (Success (mkPayload p None 0 true)
                        "Lesson already completed"), s)
  ∧ LessonsPy.complete_lesson env u l data s
    = (Returns (Error "Failed to complete lesson" 500 "INTERNAL_ERROR"
                      None),
       mkSession (committed s) (committed s) (trace s)).
Proof.
  intros Hl Hm Hp Hd.
  pose proof (modules_duplicate env u m l data s lesson p Hl Hm Hp Hd) as H.
  split; [done|]. split.
  - unfold ModulesPy.complete_lesson, bind, attempt. by rewrite H.
  - apply lessons_route_fails.
Qed.

Lemma completed_pair_is_inert_witness :
  let p := mark_lesson_completed quiet Data.empty
             (new_lesson_progress quiet 1 5) in
  let s := start stale_db in
  (get_lesson (pending s) 5 = Some (Lesson.mk 5 2 "Intro" 1 (Some 20))
   ∧ lesson_progress (pending s) !! (1, 5) = Some p
   ∧ truthy (UserLessonProgress.is_completed p) = true)
  ∧ ModulesPy.complete_lesson quiet 1 2 5 Data.empty s
    = (Returns (Success (mkPayload p None 0 true)
                        "Lesson already completed"), s)
  ∧ LessonsPy.complete_lesson quiet 1 5 Data.empty s
    = (Returns (Error "Failed to complete lesson" 500 "INTERNAL_ERROR"
                      None), s).
Proof.
  intros p s. split; [repeat split; reflexivity|].
  refine (proj2 (completed_pair_is_inert quiet 1 2 5 Data.empty s
           (Lesson.mk 5 2 "Intro" 1 (Some 20)) p _ _ _ _)); reflexivity.
Defined.

(** ** The XP amount *)

(** C3.  The code does not fall back to 50 for a lesson whose [xp_reward]
    is 0.  Lesson 6 of [demo_db] has the reward 0 and the request carries
    no [xp_earned]: the stated order gives 50, the code resolves 0, answers
    [xp_earned = 0], records no transaction and leaves the balance where it
    was.  The branch under [# Default XP if none specified] is reached only
    for a reward that is [NULL]. *)
Theorem zero_reward_is_not_defaulted :
  let lesson := Lesson.mk 6 2 "Practice" 2 (Some 0) in
  get_lesson demo_db 6 = Some lesson
  ∧ resolve_xp Data.empty lesson = 0
  ∧ claimed_xp Data.empty lesson = 50
  ∧ ∃ row mrow s',
      ModulesPy.complete_lesson quiet 1 2 6 Data.empty (start demo_db)
      = (Returns (Success (mkPayload row mrow 0 false)
                          "Lesson completed successfully"), s')
      ∧ xp_transactions (committed s') = []
      ∧ users (committed s') !! 1 = Some (User.mk (Some 0)).
Proof.
  repeat split; try reflexivity.
  eexists _, _, _. split; [vm_compute; reflexivity|]. split; reflexivity.
Qed.

(** Where the code and the stated order agree: whenever the lesson's
    reward is positive or not set. *)
Lemma resolve_xp_as_claimed data lesson :
  match Lesson.xp_reward lesson with
  | Some reward => 0 < reward
  | None => True
  end →
  resolve_xp data lesson = claimed_xp data lesson.
Proof.
  unfold resolve_xp, claimed_xp.
  destruct (is_number _ && gt_zero _); [done|].
  destruct (Lesson.xp_reward lesson) as [reward|]; [|done].
  intros H. apply Z.ltb_lt in H. by rewrite H.
Qed.

(** The three examples of the resolution order: 30 requested over a reward
    of 10; nothing requested and a reward of 10; neither. *)
Example xp_resolution_examples :
  resolve_xp (Data.mk None None (Some (JInt 30)))
             (Lesson.mk 5 2 "Intro" 1 (Some 10)) = 30
  ∧ resolve_xp Data.empty (Lesson.mk 5 2 "Intro" 1 (Some 10)) = 10
  ∧ resolve_xp Data.empty (Lesson.mk 5 2 "Intro" 1 None) = 50.
Proof. done. Qed.

(** ** The module counter *)

(** C4.  The code lets the counter pass [total_lessons].
    [Module.total_lessons] is a column of its own that no route derives
    from the module's lessons; in [uncounted_db] it still holds its default
    0 for a module of three lessons, and one completion leaves the progress
    row at 1 of 0, flagged completed. *)
Theorem counter_exceeds_stale_total :
  ∃ p count total,
    module_progress (serve uncounted_db (ViaModules quiet 1 2 5 Data.empty))
      !! (1, 2) = Some p
    ∧ UserModuleProgress.completed_lessons p = Some count
    ∧ UserModuleProgress.total_lessons p = Some total
    ∧ total < count
    ∧ UserModuleProgress.is_completed p = Some true
    ∧ count ≠ total.
Proof.
  eexists _, 1, 0. split; [vm_compute; reflexivity|].
  repeat split; try reflexivity; try lia.
Qed.

(** What keeps the counter within bounds is the content, not the code:
    from a database in which no module has more lessons than its
    [total_lessons] says and every module-progress row is consistent, any
    requests served one after the other leave every module-progress row
    with [completed_lessons <= total_lessons], and with [is_completed] true
    exactly when the two are equal. *)
Lemma module_counter_bounded
    (db : DB) (rs : list request) (u m : Z) (p : UserModuleProgress.t) :
  content_ok db →
  counters_ok db →
  Forall (λ r, sequential (request_env r)) rs →
  module_progress (serve_all db rs) !! (u, m) = Some p →
  ∃ count total,
    UserModuleProgress.completed_lessons p = Some count
    ∧ UserModuleProgress.total_lessons p = Some total
    ∧ count ≤ total
    ∧ (truthy (UserModuleProgress.is_completed p) = true ↔ count = total).
Proof.
  intros Hcontent Hcounters Hseq Hp.
  destruct (consistent_serve_all rs db Hseq Hcontent Hcounters) as [Hc Hk].
  destruct (Hk u m p Hp)
    as (count & total & module & Hcount & Htotal & Hmod & Ht & Hle & Hiff).
  exists count, total. repeat split; try done; try apply Hiff.
  pose proof (count_le_lessons (serve_all db rs) u m).
  pose proof (Hc m module total Hmod Ht). lia.
Qed.

(** On a first completion [modules.py] sets the module's counter to its
    previous value (0 for a new row or a [NULL]) plus one, whatever a scan
    would count; a request for a pair that is already completed leaves the
    module-progress table as it is. *)
Lemma counter_is_bumped (env : Env) (u l : Z) (data : Data.t) (db : DB) :
  sequential env →
  (∀ lesson module t,
     get_lesson db l = Some lesson →
     completed db u l = false →
     get_module db (Lesson.module_id lesson) = Some module →
     Module_.total_lessons module = Some t →
     let m := Lesson.module_id lesson in
     let previous :=
       match module_progress db !! (u, m) with
       | Some p => default 0 (UserModuleProgress.completed_lessons p)
       | None => 0
       end in
     (UserModuleProgress.completed_lessons
        <$> module_progress (serve db (ViaModules env u m l data)) !! (u, m))
     = Some (Some (previous + 1)))
  ∧ (∀ r, request_env r = env → aims_at db r u l →
     completed db u l = true →
     module_progress (serve db r) = module_progress db).
Proof.
  intros Hseq. split.
  - intros lesson module t Hl Hd Hmod Ht m previous.
    unfold serve, handle.
    rewrite (modules_route_first env u m l data db lesson module t
               Hseq Hl eq_refl Hd Hmod Ht).
    simpl. rewrite lookup_insert_eq. simpl.
    unfold incremented, module_row0. subst previous.
    by destruct (module_progress db !! (u, m)).
  - intros r <- Haim Hdone. by rewrite (serve_duplicate db r u l).
Qed.

(** C5.  The counter is neither recomputed for a duplicate nor incremented
    atomically.  In [stale_db] lesson 5 is completed and the counter of
    module 2 is behind at 0: a repeated completion leaves it at 0, although
    a scan counts 1 -- the branch that would recompute it is behind
    [already_completed], which is false wherever it is reached.  And the
    increment is computed from the row as the request has read it: once
    user 1 has completed lesson 5, two requests that complete lessons 6
    and 7 and have both read the counter at 1 both store 2, where served
    one after the other they store 3. *)
Theorem counter_is_neither_rescanned_nor_atomic :
  let counter db :=
    UserModuleProgress.completed_lessons <$> module_progress db !! (1, 2) in
  let again := serve stale_db (ViaModules quiet 1 2 5 Data.empty) in
  let one := serve demo_db (ViaModules quiet 1 2 5 Data.empty) in
  let a := serve one (ViaModules quiet 1 2 6 Data.empty) in
  let b := serve one (ViaModules quiet 1 2 7 Data.empty) in
  (counter stale_db = Some (Some 0)
   ∧ count_completed_lessons again 1 2 = 1
   ∧ counter again = Some (Some 0))
  ∧ (counter one = Some (Some 1)
     ∧ counter a = Some (Some 2)
     ∧ counter b = Some (Some 2)
     ∧ counter (serve a (ViaModules quiet 1 2 7 Data.empty)) = Some (Some 3)).
Proof. repeat split; vm_compute; reflexivity. Qed.

(** ** Not found *)

(** C6.  [modules.py] answers 404 and rolls the session back, in any
    environment, when [lesson_id] names no lesson of the module addressed;
    with the foreign key from a lesson to its module in force, that is also
    what it answers when the module addressed does not exist.  Were a
    lesson left without its module, the request for a pair that is not
    completed would add the progress row, miss the module, answer 404
    "Module not found" and roll the row back.  In each case the session
    ends with the committed database untouched and nothing pending. *)
Theorem not_found_rolls_back
    (env : Env) (u m l : Z) (data : Data.t) (s : Session) :
  let rolled_back := mkSession (committed s) (committed s) (trace s) in
  let foreign_key :=
    ∀ lesson, get_lesson (pending s) l = Some lesson →
              is_Some (get_module (pending s) (Lesson.module_id lesson)) in
  (match get_lesson (pending s) l with
   | Some lesson => Lesson.module_id lesson ≠ m
   | None => True
   end →
   ModulesPy.complete_lesson env u m l data s
   = (Returns (Error "Lesson not found" 404 "LESSON_NOT_FOUND" None),
      rolled_back))
  ∧ (foreign_key →
     get_module (pending s) m = None →
     ModulesPy.complete_lesson env u m l data s
     = (Returns (Error "Lesson not found" 404 "LESSON_NOT_FOUND" None),
        rolled_back))
  ∧ (∀ lesson,
       get_lesson (pending s) l = Some lesson →
       Lesson.module_id lesson = m →
       get_module (pending s) m = None →
       completed (pending s) u l = false →
       flush_outcome env = Succeeds →
       ModulesPy.complete_lesson env u m l data s
       = (Returns (Error "Module not found" 404 "LESSON_NOT_FOUND" None),
          rolled_back)).
Proof.
  intros rolled_back foreign_key. subst rolled_back foreign_key.
  assert (match get_lesson (pending s) l with
          | Some lesson => Lesson.module_id lesson ≠ m
          | None => True
          end →
          ModulesPy.complete_lesson env u m l data s
          = (Returns (Error "Lesson not found" 404 "LESSON_NOT_FOUND" None),
             mkSession (committed s) (committed s) (trace s))) as Habsent.
  { intros Hl. unfold get_lesson in Hl. exec.
    destruct (find _ (lessons (pending s))) as [lesson|]; step; [|done].
    destruct (Z.eqb_spec (Lesson.module_id lesson) m); [done|]. by step. }
  split; [exact Habsent|]. split.
  - intros Hfk Hmod. apply Habsent.
    destruct (get_lesson (pending s) l) as [lesson|] eqn:Hl; [|done].
    intros <-. destruct (Hfk lesson eq_refl) as [module Hsome]. congruence.
  - intros lesson Hl Hm Hmod Hd Hf. unfold completed in Hd.
    unfold get_lesson, get_module in Hl, Hmod. exec.
    rewrite Hl; step. rewrite Hm, Z.eqb_refl; step.
    destruct (lesson_progress (pending s) !! (u, l)) as [p|]; step;
      rewrite ?Hd, ?Hf; step;
      destruct (module_progress (pending s) !! (u, m)); step;
      rewrite Hmod; step; done.
Qed.

Lemma not_found_rolls_back_witness :
  (match get_lesson (pending (start demo_db)) 99 with
   | Some lesson => Lesson.module_id lesson ≠ 2
   | None => True
   end
   ∧ get_module (pending (start demo_db)) 9 = None)
  ∧ ModulesPy.complete_lesson quiet 1 2 99 Data.empty (start demo_db)
    = (Returns (Error "Lesson not found" 404 "LESSON_NOT_FOUND" None),
       start demo_db)
  ∧ ModulesPy.complete_lesson quiet 1 9 5 Data.empty (start demo_db)
    = (Returns (Error "Lesson not found" 404 "LESSON_NOT_FOUND" None),
       start demo_db).
Proof.
  split; [by split|]. split.
  - refine (proj1 (not_found_rolls_back quiet 1 2 99 Data.empty
                     (start demo_db)) _).
    exact I.
  - refine (proj1 (proj2 (not_found_rolls_back quiet 1 9 5 Data.empty
                            (start demo_db))) _ _).
    + intros lesson [= <-]. by eexists.
    + reflexivity.
Defined.
(** ** Completion by number *)

(** C9.  [complete_lesson_by_number] is [complete_lesson] at the ids that
    the two numbers resolve to: same response, same session.  When the
    module number or the lesson number does not resolve, it answers 404
    with one of its two messages and rolls the session back. *)
Theorem by_number_delegates
    (env : Env) (u module_number lesson_number : Z) (data : Data.t)
    (s : Session) :
  match resolve (pending s) module_number lesson_number with
  | Some (m, l) =>
    ModulesPy.complete_lesson_by_number env u module_number lesson_number
                                        data s
    = ModulesPy.complete_lesson env u m l data s
  | None =>
    ∃ message,
      ModulesPy.complete_lesson_by_number env u module_number lesson_number
                                          data s
      = (Returns (Error message 404 "LESSON_NOT_FOUND" None),
         mkSession (committed s) (committed s) (trace s))
      ∧ (message = "Module " +:+ pretty module_number +:+ " not found"
         ∨ message = "Lesson " +:+ pretty lesson_number +:+ " in module "
                     +:+ pretty module_number +:+ " not found")
  end.
Proof.
  destruct (resolve (pending s) module_number lesson_number) as [[m l]|]
    eqn:Hr.
  - by apply by_number_resolved.
  - by apply by_number_unresolved.
Qed.

(** ** A first completion that credits nothing *)

(** What holds of a first completion through [modules.py] whose resolved
    amount is not positive: the lesson is marked completed, the answer says
    [already_completed = false], no transaction is added and no [total_xp]
    changes; the [xp_earned] reported is the resolved amount. *)
Lemma uncredited_first_completion
    (env : Env) (u l : Z) (data : Data.t) (db : DB)
    (lesson : Lesson.t) (module : Module_.t) (t : Z) :
  sequential env →
  get_lesson db l = Some lesson →
  completed db u l = false →
  get_module db (Lesson.module_id lesson) = Some module →
  Module_.total_lessons module = Some t →
  resolve_xp data lesson ≤ 0 →
  ∃ row mrow s',
    ModulesPy.complete_lesson env u (Lesson.module_id lesson) l data
                              (start db)
    = (Returns (Success (mkPayload row mrow (resolve_xp data lesson) false)
                        "Lesson completed successfully"), s')
    ∧ lesson_progress (committed s') !! (u, l) = Some row
    ∧ UserLessonProgress.is_completed row = Some true
    ∧ xp_transactions (committed s') = xp_transactions db
    ∧ users (committed s') = users db.
Proof.
  intros Hseq Hl Hd Hmod Ht Hx.
  assert ((0 <? resolve_xp data lesson) = false) as Hx' by lia.
  rewrite (modules_route_first env u _ l data db lesson module t
             Hseq Hl eq_refl Hd Hmod Ht).
  eexists _, _, _. split; [done|]. simpl.
  unfold credited_transactions. rewrite Hx', lookup_insert_eq.
  repeat split. apply lesson_row_is_completed.
Qed.

(** C10.  For a lesson whose [xp_reward] is -5 and a request without
    [xp_earned], a first completion through [modules.py] marks the lesson
    completed, answers [already_completed = false], adds no transaction and
    leaves [total_xp] as it was, but reports [xp_earned = -5], not 0: the
    amount returned is the amount resolved, not the amount credited. *)
Theorem negative_reward_is_reported :
  let lesson := Lesson.mk 5 2 "Intro" 1 (Some (-5)) in
  get_lesson penalty_db 5 = Some lesson
  ∧ resolve_xp Data.empty lesson = -5
  ∧ ∃ row mrow s',
      ModulesPy.complete_lesson quiet 1 2 5 Data.empty (start penalty_db)
      = (Returns (Success (mkPayload row mrow (-5) false)
                          "Lesson completed successfully"), s')
      ∧ lesson_progress (committed s') !! (1, 5) = Some row
      ∧ UserLessonProgress.is_completed row = Some true
      ∧ UserLessonProgress.xp_earned row = JInt 0
      ∧ xp_transactions (committed s') = []
      ∧ users (committed s') = users penalty_db.
Proof.
  split; [done|]. split; [done|].
  eexists _, _, _. (split; [vm_compute; reflexivity|]); repeat split.
Qed.

(** ** Losing a race *)

(** The insert of a new progress row fails at flush because another session
    has inserted, and completed, the row: the call rolls back, reads that
    row and reports it as already completed; nothing of its own remains. *)
Lemma race_lost_at_flush env u m l data db lesson message visible p :
  get_lesson db l = Some lesson →
  Lesson.module_id lesson = m →
  lesson_progress db !! (u, l) = None →
  flush_outcome env = RaisesIntegrityError message visible →
  lesson_progress visible !! (u, l) = Some p →
  truthy (UserLessonProgress.is_completed p) = true →
  ModulesPy._complete_lesson_internal env u m l data (start db)
  = (Returns (p, None, 0, true), mkSession visible visible []).
Proof.
  intros Hl Hm Hnone Hf Hp Hd. unfold get_lesson in Hl. exec.
  rewrite Hl; step. rewrite Hm, Z.eqb_refl; step.
  rewrite Hnone; step. rewrite Hf; step. rewrite Hp; step.
  by rewrite Hd.
Qed.

(** The same failure with no row to be found afterwards is raised again. *)
Lemma flush_failure_without_row env u m l data db lesson message visible :
  get_lesson db l = Some lesson →
  Lesson.module_id lesson = m →
  lesson_progress db !! (u, l) = None →
  flush_outcome env = RaisesIntegrityError message visible →
  lesson_progress visible !! (u, l) = None →
  ModulesPy._complete_lesson_internal env u m l data (start db)
  = (Raises (IntegrityError message), mkSession visible visible []).
Proof.
  intros Hl Hm Hnone Hf Hp. unfold get_lesson in Hl. exec.
  rewrite Hl; step. rewrite Hm, Z.eqb_refl; step.
  rewrite Hnone; step. rewrite Hf; step. by rewrite Hp.
Qed.

(** ** Integrity errors at commit *)

Lemma prefix_lower n h :
  String.prefix n h = true → String.prefix (lower n) (lower h) = true.
Proof.
  revert h. induction n as [|a n IH]; intros [|b h]; simpl; try done.
  destruct (ascii_dec a b) as [->|]; [|done].
  intros H. destruct (ascii_dec (lower_ascii b) (lower_ascii b)); [|done].
  by apply IH.
Qed.

Lemma contains_lower n h :
  contains n h = true → contains (lower n) (lower h) = true.
Proof.
  induction h as [|b h IH]; simpl.
  - rewrite !orb_false_r. apply (prefix_lower n "").
  - intros [H|H]%orb_true_iff; apply orb_true_iff.
    + left. apply (prefix_lower n (String b h) H).
    + right. by apply IH.
Qed.

Lemma prefix_shorter n1 n2 h :
  String.prefix (n1 +:+ n2) h = true → String.prefix n1 h = true.
Proof.
  revert h. induction n1 as [|a n1 IH]; intros [|b h]; simpl; try done.
  destruct (ascii_dec a b); [|done]. apply IH.
Qed.

Lemma contains_shorter n1 n2 h :
  contains (n1 +:+ n2) h = true → contains n1 h = true.
Proof.
  induction h as [|b h IH]; simpl.
  - rewrite !orb_false_r. apply (prefix_shorter n1 n2 "").
  - intros [H|H]%orb_true_iff; apply orb_true_iff.
    + left. apply (prefix_shorter n1 n2 (String b h) H).
    + right. by apply IH.
Qed.

(** The third test of [is_unique_violation] adds nothing to the first. *)
Lemma is_unique_violation_lower message :
  ModulesPy.is_unique_violation message
  = contains "unique" (lower message)
    || contains "duplicate" (lower message).
Proof.
  unfold ModulesPy.is_unique_violation.
  destruct (contains "unique" (lower message)) eqn:H1; [done|].
  destruct (contains "duplicate" (lower message)); [done|]. simpl.
  destruct (contains "UNIQUE constraint" message) eqn:H3; [|done].
  apply contains_lower in H3.
  apply (contains_shorter "unique" " constraint") in H3. congruence.
Qed.

(** C7.  A completion that reaches its commit, where the commit raises an
    [IntegrityError]: if the lower-cased message contains neither "unique"
    nor "duplicate", the very same error leaves the internal function,
    after a rollback, and the route answers 500, not "already completed";
    only when the message does contain one of the two is the progress row
    read again and the result taken from it. *)
Theorem foreign_integrity_error_is_reraised
    (env : Env) (u m l : Z) (data : Data.t) (db : DB)
    (lesson : Lesson.t) (module : Module_.t) (t : Z)
    (message : string) (visible : DB) :
  get_lesson db l = Some lesson →
  Lesson.module_id lesson = m →
  completed db u l = false →
  get_module db m = Some module →
  Module_.total_lessons module = Some t →
  flush_outcome env = Succeeds →
  commit_outcome env = RaisesIntegrityError message visible →
  let rolled_back := mkSession visible visible [] in
  (contains "unique" (lower message) = false →
   contains "duplicate" (lower message) = false →
   ModulesPy._complete_lesson_internal env u m l data (start db)
   = (Raises (IntegrityError message), rolled_back)
   ∧ ModulesPy.complete_lesson env u m l data (start db)
     = (Returns (Error "Failed to complete lesson" 500
                       "LESSON_COMPLETION_ERROR" (Some message)),
        rolled_back))
  ∧ (contains "unique" (lower message) = true
     ∨ contains "duplicate" (lower message) = true →
     ModulesPy._complete_lesson_internal env u m l data (start db)
     = (match lesson_progress visible !! (u, l) with
        | Some p =>
          Returns (p, None, 0, truthy (UserLessonProgress.is_completed p))
        | None => Raises (IntegrityError message)
        end, rolled_back)).
Proof.
  intros Hl Hm Hd Hmod Ht Hf Hc rolled_back. subst rolled_back.
  pose proof (is_unique_violation_lower message) as Huv.
  unfold completed in Hd. unfold get_lesson, get_module in Hl, Hmod.
  assert (∀ verdict, ModulesPy.is_unique_violation message = verdict →
    ModulesPy._complete_lesson_internal env u m l data (start db)
    = (if verdict
       then match lesson_progress visible !! (u, l) with
            | Some p =>
              Returns (p, None, 0,
                       truthy (UserLessonProgress.is_completed p))
            | None => Raises (IntegrityError message)
            end
       else Raises (IntegrityError message),
       mkSession visible visible [])) as Hrun.
  { intros verdict Hv. exec.
    rewrite Hl; step. rewrite Hm, Z.eqb_refl; step.
    destruct (lesson_progress db !! (u, l)) as [p|] eqn:Hp; step;
      rewrite ?Hd, ?Hf; step;
      (destruct (module_progress db !! (u, m)) as [mp|] eqn:Hmp; step;
       repeat (first [rewrite Hmod | rewrite Ht]; step);
       destruct (0 <? resolve_xp data lesson) eqn:Hx; step;
       rewrite Hc; step; rewrite Hv; destruct verdict; step; try done;
       destruct (lesson_progress visible !! (u, l)) as [q|]; step;
       try done;
       by destruct (truthy (UserLessonProgress.is_completed q))). }
  split.
  - intros H1 H2. rewrite H1, H2 in Huv.
    pose proof (Hrun false Huv) as Hint. split; [done|].
    unfold ModulesPy.complete_lesson, bind, attempt. by rewrite Hint.
  - intros H. apply (Hrun true). rewrite Huv. apply orb_true_iff.
    destruct H as [-> | ->]; auto.
Qed.

Lemma foreign_integrity_error_is_reraised_witness :
  let message := "NOT NULL constraint failed: xp_transactions.user_id" in
  let env := mkEnv (λ _, 0) Succeeds (RaisesIntegrityError message demo_db)
                   (λ _, true) in
  (contains "unique" (lower message) = false
   ∧ contains "duplicate" (lower message) = false)
  ∧ ModulesPy._complete_lesson_internal env 1 2 5 Data.empty (start demo_db)
    = (Raises (IntegrityError message), start demo_db).
Proof.
  intros message env. split; [by split|].
  refine (proj1 (proj1 (foreign_integrity_error_is_reraised env 1 2 5
            Data.empty demo_db (Lesson.mk 5 2 "Intro" 1 (Some 20))
            (Module_.mk 2 1 (Some 3)) 3 message demo_db _ _ _ _ _ _ _)
            _ _)); reflexivity.
Defined.
(** ** The post-commit hooks *)

(** Open every [match] whose scrutinee holds no other [match], pushing the
    session through after each. *)
Ltac crunch :=
  repeat (step; rewrite ?post_commit_hooks_run; step;
          match goal with
          | |- context [match ?x with _ => _ end] =>
            lazymatch x with
            | context [match _ with _ => _ end] => fail
            | _ => destruct x eqn:?
            end
          end);
  step; rewrite ?post_commit_hooks_run; step.

(** The rows and transactions that are built do not look at the hooks. *)
Lemma rows_ignore_hooks env hooks :
  mark_lesson_completed (with_hooks hooks env) = mark_lesson_completed env
  ∧ new_lesson_progress (with_hooks hooks env) = new_lesson_progress env
  ∧ new_module_progress (with_hooks hooks env) = new_module_progress env
  ∧ with_percentage (with_hooks hooks env) = with_percentage env
  ∧ lesson_completion_tx (with_hooks hooks env) = lesson_completion_tx env.
Proof. done. Qed.

Ltac forget_hooks :=
  match goal with
  | |- context [with_hooks ?hooks ?env] =>
    let H1 := fresh in let H2 := fresh in let H3 := fresh in
    let H4 := fresh in let H5 := fresh in
    destruct (rows_ignore_hooks env hooks) as (H1 & H2 & H3 & H4 & H5);
    rewrite ?H1, ?H2, ?H3, ?H4, ?H5; clear H1 H2 H3 H4 H5
  end;
  unfold with_hooks;
  cbn [utcnow flush_outcome commit_outcome hooks_return].

Lemma complete_progress_hooks env hooks u m l lesson data p ac s :
  let o := ModulesPy.complete_progress env u m l lesson data p ac s in
  let o' := ModulesPy.complete_progress (with_hooks hooks env) u m l lesson
                                        data p ac s in
  o'.1 = o.1 ∧ committed o'.2 = committed o.2 ∧ pending o'.2 = pending o.2
  ∧ (trace o'.2 = trace s
     ∨ trace o'.2
       = (trace s ++ hook_events (with_hooks hooks env)
                                 (seq 0 ModulesPy.max_retries))%list).
Proof.
  cbv zeta. exec. forget_hooks.
  crunch; simpl; auto.
Qed.

Lemma internal_hooks env hooks u m l data s :
  let o := ModulesPy._complete_lesson_internal env u m l data s in
  let o' := ModulesPy._complete_lesson_internal (with_hooks hooks env)
                                                u m l data s in
  o'.1 = o.1 ∧ committed o'.2 = committed o.2 ∧ pending o'.2 = pending o.2
  ∧ (trace o'.2 = trace s
     ∨ trace o'.2
       = (trace s ++ hook_events (with_hooks hooks env)
                                 (seq 0 ModulesPy.max_retries))%list).
Proof.
  cbv zeta.
  cbv [ModulesPy._complete_lesson_internal save_lesson_progress
       bind ret raise attempt query write rollback flush fail_with
       set_lesson_progress get_lesson negb].
  forget_hooks.
  crunch; simpl; auto;
    match goal with
    | |- context [ModulesPy.complete_progress _ _ _ _ _ _ ?p ?ac ?s] =>
      apply (complete_progress_hooks env hooks u m l _ data p ac s)
    end.
Qed.

(** C8.  Whatever the hooks do, the internal function returns the same
    tuple and leaves the same committed and pending database, and the route
    gives the same response, as with hooks that return at once.  When the
    hooks are reached they are tried at most three times: the loop stops at
    the first attempt that returns, sleeps 0.1 s after a first failure and
    0.2 s after a second, and gives up silently after the third. *)
Theorem hooks_never_change_the_outcome
    (env : Env) (hooks : nat → bool) (u m l : Z) (data : Data.t)
    (s : Session) :
  let env' := with_hooks hooks env in
  let o := ModulesPy._complete_lesson_internal env u m l data s in
  let o' := ModulesPy._complete_lesson_internal env' u m l data s in
  let r := ModulesPy.complete_lesson env u m l data s in
  let r' := ModulesPy.complete_lesson env' u m l data s in
  let events := hook_events env' (seq 0 ModulesPy.max_retries) in
  (o'.1 = o.1 ∧ committed o'.2 = committed o.2 ∧ pending o'.2 = pending o.2)
  ∧ (r'.1 = r.1 ∧ committed r'.2 = committed r.2
     ∧ pending r'.2 = pending r.2)
  ∧ (trace o'.2 = trace s ∨ trace o'.2 = (trace s ++ events)%list)
  ∧ (events = [HookAttempt 0 true]
     ∨ events = [HookAttempt 0 false; Sleep (backoff 0); HookAttempt 1 true]
     ∨ events = [HookAttempt 0 false; Sleep (backoff 0);
                 HookAttempt 1 false; Sleep (backoff 1); HookAttempt 2 true]
     ∨ events = [HookAttempt 0 false; Sleep (backoff 0);
                 HookAttempt 1 false; Sleep (backoff 1);
                 HookAttempt 2 false])
  ∧ (backoff 0 == 1 # 10)%Q ∧ (backoff 1 == 2 # 10)%Q.
Proof.
  cbv zeta.
  destruct (internal_hooks env hooks u m l data s) as (Hr & Hc & Hp & Ht).
  split; [done|]. split; [|split; [done|split]].
  - unfold ModulesPy.complete_lesson, bind, attempt.
    destruct (ModulesPy._complete_lesson_internal env u m l data s)
      as [r1 s1].
    destruct (ModulesPy._complete_lesson_internal (with_hooks hooks env)
                                                  u m l data s) as [r2 s2].
    simpl in Hr, Hc, Hp. subst r2. unfold ModulesPy.respond.
    destruct r1 as [[[[row mrow] xp] []]|[]]; simpl; auto.
  - simpl. unfold backoff.
    destruct (hooks 0%nat), (hooks 1%nat), (hooks 2%nat); simpl; auto.
  - done.
Qed.


(** * Around the completion: the ledger, the listing, the progress routes *)

(** ** What one request can touch *)

Lemma aims_at_user db r u l : aims_at db r u l → u = request_user r.
Proof. destruct r; simpl; intros H; by destruct H. Qed.

Lemma serve_cases_user db r :
  sequential (request_env r) →
  serve db r = db
  ∨ ∃ m l, first_completion db (request_user r) m l (serve db r).
Proof.
  intros Hs. destruct (serve_cases db r Hs) as [H|(u & m & l & Ha & H)].
  - by left.
  - right. exists m, l. by rewrite <- (aims_at_user _ _ _ _ Ha).
Qed.

Lemma first_completion_module_key db u m l db' k :
  first_completion db u m l db' → k ≠ (u, m) →
  module_progress db' !! k = module_progress db !! k.
Proof.
  intros H Hk.
  destruct (first_completion_module_progress _ _ _ _ _ H)
    as (mp & _ & _ & _ & -> & _).
  by rewrite lookup_insert_ne.
Qed.

Lemma first_completion_lesson_key db u m l db' k :
  first_completion db u m l db' → k ≠ (u, l) →
  lesson_progress db' !! k = lesson_progress db !! k.
Proof.
  intros H Hk.
  destruct (first_completion_progress _ _ _ _ _ H) as (p & -> & _).
  by rewrite lookup_insert_ne.
Qed.

(** X1.  A sequential request to any of the completion routes leaves the
    content tables as they are and leaves every row of every other user as
    it is (balance, lesson progress, module progress); for its own user it
    changes at most one lesson-progress row and one module-progress row. *)
Theorem completion_leaves_other_rows (db : DB) (r : request) :
  sequential (request_env r) →
  let db' := serve db r in
  let u := request_user r in
  lessons db' = lessons db ∧ modules db' = modules db
  ∧ (∀ u', u' ≠ u →
       users db' !! u' = users db !! u'
       ∧ (∀ l, lesson_progress db' !! (u', l) = lesson_progress db !! (u', l))
       ∧ (∀ m, module_progress db' !! (u', m)
               = module_progress db !! (u', m)))
  ∧ ∃ m l,
      (∀ l', l' ≠ l →
         lesson_progress db' !! (u, l') = lesson_progress db !! (u, l'))
      ∧ (∀ m', m' ≠ m →
           module_progress db' !! (u, m') = module_progress db !! (u, m')).
Proof.
  intros Hs db' u. subst db' u.
  destruct (serve_cases_user db r Hs) as [->|(m & l & H)].
  { repeat split; try done. by exists 0, 0. }
  destruct (first_completion_content _ _ _ _ _ H) as [Hl Hm].
  split; [done|]. split; [done|]. split.
  - intros u' Hu. split; [by eapply first_completion_users|]. split.
    + intros l'. eapply first_completion_lesson_key; [done|]. congruence.
    + intros m'. eapply first_completion_module_key; [done|]. congruence.
  - exists m, l. split.
    + intros l' Hl'. eapply first_completion_lesson_key; [done|]. congruence.
    + intros m' Hm'. eapply first_completion_module_key; [done|]. congruence.
Qed.

Lemma completion_leaves_other_rows_witness :
  let r := ViaModules quiet 1 2 5 Data.empty in
  sequential (request_env r)
  ∧ lessons (serve demo_db r) = lessons demo_db.
Proof.
  split.
  - by split.
  - refine (proj1 (completion_leaves_other_rows demo_db _ _)). by split.
Defined.


(** ** The ledger *)

Lemma xp_of_app u txs tx :
  xp_of u (txs ++ [tx])%list
  = xp_of u txs + (if XPTransaction.user_id tx =? u
                   then XPTransaction.amount tx else 0).
Proof.
  induction txs as [|tx' txs IH]; simpl.
  - destruct (_ =? _); lia.
  - rewrite IH. destruct (XPTransaction.user_id tx' =? u); lia.
Qed.

(** What a first completion does to the ledger and to the balances. *)
Lemma first_completion_ledger db u m l db' :
  first_completion db u m l db' →
  (xp_transactions db' = xp_transactions db ∧ users db' = users db)
  ∨ ∃ tx,
      xp_transactions db' = (xp_transactions db ++ [tx])%list
      ∧ XPTransaction.user_id tx = u
      ∧ XPTransaction.source tx = "lesson_completion"
      ∧ XPTransaction.extra_metadata tx = (m, l)
      ∧ 0 < XPTransaction.amount tx
      ∧ (∀ x, users db !! u = Some (User.mk (Some x)) →
              users db' !! u
              = Some (User.mk (Some (x + XPTransaction.amount tx))))
      ∧ (∀ u', u' ≠ u → users db' !! u' = users db !! u').
Proof.
  intros [env data lesson module t Hl Hm Hd Hmod Ht ->].
  destruct (0 <? resolve_xp data lesson) eqn:Hx.
  - right. apply Z.ltb_lt in Hx as Hx'.
    exists (lesson_completion_tx env u m l lesson (resolve_xp data lesson)).
    simpl; unfold credited_transactions; rewrite Hx;
      (repeat split; try done;
       [intros x Hu; by rewrite lookup_alter_eq, Hu
       |intros u' Hu'; by rewrite lookup_alter_ne]).
  - left. simpl; unfold credited_transactions; by rewrite Hx.
Qed.

Lemma serve_all_snoc db rs r :
  serve_all db (rs ++ [r])%list = serve (serve_all db rs) r.
Proof. unfold serve_all. by rewrite fold_left_app. Qed.

(** X2.  Requests served one after the other only ever append to the XP
    ledger: the transactions that were there stay in place, at most one is
    added per request, and each added one has the source
    [lesson_completion], a positive amount and the user of one of the
    requests. *)
Theorem ledger_is_append_only (rs : list request) (db : DB) :
  Forall (λ r, sequential (request_env r)) rs →
  ∃ added,
    xp_transactions (serve_all db rs) = (xp_transactions db ++ added)%list
    ∧ (length added ≤ length rs)%nat
    ∧ Forall (λ tx, XPTransaction.source tx = "lesson_completion"
                    ∧ 0 < XPTransaction.amount tx
                    ∧ ∃ r, r ∈ rs ∧ XPTransaction.user_id tx = request_user r)
             added.
Proof.
  induction rs as [|r rs IH] using rev_ind; intros Hseq.
  { exists []. simpl. by rewrite app_nil_r. }
  apply Forall_app in Hseq as [Hrs Hr].
  rewrite Forall_singleton in Hr.
  destruct (IH Hrs) as (added & Heq & Hlen & Hall).
  assert (Forall (λ tx, XPTransaction.source tx = "lesson_completion"
                    ∧ 0 < XPTransaction.amount tx
                    ∧ ∃ r0, r0 ∈ (rs ++ [r])%list
                            ∧ XPTransaction.user_id tx = request_user r0)
                 added) as Hall'.
  { eapply Forall_impl; [exact Hall|]. intros tx (? & ? & r0 & ? & ?).
    repeat split; try done. exists r0. split; [|done].
    apply elem_of_app. by left. }
  rewrite serve_all_snoc, length_app. simpl.
  destruct (serve_cases_user (serve_all db rs) r Hr) as [->|(m & l & H)].
  { exists added. split; [done|]. split; [lia|done]. }
  destruct (first_completion_ledger _ _ _ _ _ H)
    as [[-> _]|(tx & -> & Hu & Hsrc & _ & Hpos & _)].
  { exists added. split; [done|]. split; [lia|done]. }
  exists (added ++ [tx])%list. rewrite Heq, <- app_assoc, length_app. simpl.
  split; [done|]. split; [lia|].
  apply Forall_app. split; [done|]. apply Forall_singleton.
  repeat split; try done. exists r. split; [|done].
  apply elem_of_app. right. by apply list_elem_of_singleton.
Qed.

Lemma ledger_is_append_only_witness :
  let rs := [ViaModules quiet 1 2 5 Data.empty;
             ViaLessons quiet 1 5 Data.empty] in
  Forall (λ r, sequential (request_env r)) rs
  ∧ ∃ added,
      xp_transactions (serve_all demo_db rs)
      = (xp_transactions demo_db ++ added)%list
      ∧ (length added ≤ length rs)%nat.
Proof.
  intros rs.
  assert (Forall (λ r, sequential (request_env r)) rs) as Hseq
    by repeat constructor.
  split; [exact Hseq|].
  destruct (ledger_is_append_only rs demo_db Hseq) as (added & H1 & H2 & _).
  by exists added.
Defined.

Lemma first_completion_balance db u m l db' u0 x :
  first_completion db u m l db' →
  users db !! u0 = Some (User.mk (Some x)) →
  users db' !! u0
  = Some (User.mk (Some (x + (xp_of u0 (xp_transactions db')
                              - xp_of u0 (xp_transactions db))))).
Proof.
  intros H Hu0.
  destruct (first_completion_ledger _ _ _ _ _ H)
    as [[-> ->]|(tx & -> & Hu & _ & _ & _ & Hsame & Hother)].
  { rewrite Hu0. do 3 f_equal. lia. }
  rewrite xp_of_app, Hu. destruct (u =? u0) eqn:E.
  - apply Z.eqb_eq in E as ->. rewrite (Hsame x Hu0). do 3 f_equal. lia.
  - apply Z.eqb_neq in E. rewrite Hother by done. rewrite Hu0.
    do 3 f_equal. lia.
Qed.

(** X3.  For a user whose [total_xp] is not [NULL], the balance moves with
    the ledger: after any sequence of sequential requests it has grown by
    exactly the amounts of the transactions added for that user. *)
Theorem total_xp_follows_the_ledger
    (rs : list request) (db : DB) (u x : Z) :
  Forall (λ r, sequential (request_env r)) rs →
  users db !! u = Some (User.mk (Some x)) →
  users (serve_all db rs) !! u
  = Some (User.mk (Some (x + (xp_of u (xp_transactions (serve_all db rs))
                              - xp_of u (xp_transactions db))))).
Proof.
  induction rs as [|r rs IH] using rev_ind; intros Hseq Hu.
  { simpl. rewrite Hu. do 3 f_equal. lia. }
  apply Forall_app in Hseq as [Hrs Hr].
  rewrite Forall_singleton in Hr.
  specialize (IH Hrs Hu). rewrite serve_all_snoc.
  destruct (serve_cases_user (serve_all db rs) r Hr) as [->|(m & l & H)];
    [done|].
  rewrite (first_completion_balance _ _ _ _ _ _ _ H IH). do 3 f_equal. lia.
Qed.

Lemma total_xp_follows_the_ledger_witness :
  let rs := [ViaModules quiet 1 2 5 Data.empty;
             ViaLessons quiet 1 7 Data.empty;
             ViaModules quiet 1 2 5 Data.empty] in
  (Forall (λ r, sequential (request_env r)) rs
   ∧ users demo_db !! 1 = Some (User.mk (Some 0)))
  ∧ users (serve_all demo_db rs) !! 1
    = Some (User.mk (Some (0 + (xp_of 1 (xp_transactions
                                           (serve_all demo_db rs))
                                - xp_of 1 (xp_transactions demo_db))))).
Proof.
  intros rs.
  assert (Forall (λ r, sequential (request_env r)) rs) as Hseq
    by repeat constructor.
  assert (users demo_db !! 1 = Some (User.mk (Some 0))) as Hu
    by (vm_compute; reflexivity).
  split; [by split|].
  exact (total_xp_follows_the_ledger rs demo_db 1 0 Hseq Hu).
Defined.

(** X4.  No request deletes a progress row, of a lesson or of a module,
    and a lesson-progress row that is completed is never written again:
    after any sequence of sequential requests it is the very same row. *)
Theorem progress_rows_persist (rs : list request) (db : DB) :
  Forall (λ r, sequential (request_env r)) rs →
  let final := serve_all db rs in
  (∀ k, is_Some (lesson_progress db !! k) →
        is_Some (lesson_progress final !! k))
  ∧ (∀ k, is_Some (module_progress db !! k) →
          is_Some (module_progress final !! k))
  ∧ (∀ u l p, lesson_progress db !! (u, l) = Some p →
              truthy (UserLessonProgress.is_completed p) = true →
              lesson_progress final !! (u, l) = Some p).
Proof.
  induction rs as [|r rs IH] using rev_ind; intros Hseq final; subst final.
  { done. }
  apply Forall_app in Hseq as [Hrs Hr].
  rewrite Forall_singleton in Hr.
  destruct (IH Hrs) as (IH1 & IH2 & IH3). rewrite serve_all_snoc.
  destruct (serve_cases_user (serve_all db rs) r Hr) as [->|(m & l & H)];
    [done|].
  destruct (first_completion_progress _ _ _ _ _ H) as (p' & -> & _).
  destruct (first_completion_module_progress _ _ _ _ _ H)
    as (mp & _ & _ & _ & -> & _).
  split; [|split].
  - intros k Hk. destruct (decide (k = (request_user r, l))) as [->|Hne].
    + rewrite lookup_insert_eq. by eexists.
    + rewrite lookup_insert_ne by done. auto.
  - intros k Hk. destruct (decide (k = (request_user r, m))) as [->|Hne].
    + rewrite lookup_insert_eq. by eexists.
    + rewrite lookup_insert_ne by done. auto.
  - intros u0 l0 p Hp Hc. specialize (IH3 u0 l0 p Hp Hc).
    rewrite lookup_insert_ne; [done|].
    intros [= <- <-].
    pose proof (first_completion_before _ _ _ _ _ H) as Hb.
    unfold completed in Hb. rewrite IH3 in Hb. congruence.
Qed.

Lemma progress_rows_persist_witness :
  let rs := [ViaModules quiet 1 2 6 Data.empty;
             ViaLessons quiet 1 5 Data.empty] in
  let p := mark_lesson_completed quiet Data.empty
             (new_lesson_progress quiet 1 5) in
  Forall (λ r, sequential (request_env r)) rs
  ∧ lesson_progress (serve_all stale_db rs) !! (1, 5) = Some p.
Proof.
  intros rs p.
  assert (Forall (λ r, sequential (request_env r)) rs) as Hseq
    by repeat constructor.
  split; [exact Hseq|].
  refine (proj2 (proj2 (progress_rows_persist rs stale_db Hseq)) 1 5 p _ _);
    vm_compute; reflexivity.
Defined.

Lemma first_completion_module_flag db u m l db' k p :
  first_completion db u m l db' →
  module_progress db !! k = Some p →
  ∃ p', module_progress db' !! k = Some p'
        ∧ UserModuleProgress.started_at p' = UserModuleProgress.started_at p
        ∧ (UserModuleProgress.is_completed p = Some true →
           UserModuleProgress.is_completed p' = Some true)
        ∧ (∀ t, UserModuleProgress.completed_at p = Some t →
                UserModuleProgress.completed_at p' = Some t).
Proof.
  intros [env data lesson module t Hl Hm Hd Hmod Ht ->] Hp.
  destruct (decide (k = (u, m))) as [->|Hne]; cycle 1.
  { exists p. simpl; by rewrite lookup_insert_ne. }
  assert (∀ n, let p' := module_row env u m t db n in
            UserModuleProgress.started_at p' = UserModuleProgress.started_at p
            ∧ (UserModuleProgress.is_completed p = Some true →
               UserModuleProgress.is_completed p' = Some true)
            ∧ (∀ t, UserModuleProgress.completed_at p = Some t →
                    UserModuleProgress.completed_at p' = Some t)) as Hrow.
  { intros n. unfold module_row, module_row0. rewrite Hp. simpl.
    split; [done|]. split.
    - intros ->. by destruct (t <=? n).
    - intros t0 ->. by destruct (t <=? n). }
  simpl; rewrite lookup_insert_eq; eexists; (split; [done|]);
    apply Hrow.
Qed.

(** X5.  Through any sequence of sequential completion requests a
    module-progress row keeps its [started_at]; once [is_completed] is true
    it stays true, and once [completed_at] is set it keeps its value. *)
Theorem module_completion_is_kept
    (rs : list request) (db : DB) (u m : Z) (p : UserModuleProgress.t) :
  Forall (λ r, sequential (request_env r)) rs →
  module_progress db !! (u, m) = Some p →
  ∃ p', module_progress (serve_all db rs) !! (u, m) = Some p'
        ∧ UserModuleProgress.started_at p' = UserModuleProgress.started_at p
        ∧ (UserModuleProgress.is_completed p = Some true →
           UserModuleProgress.is_completed p' = Some true)
        ∧ (∀ t, UserModuleProgress.completed_at p = Some t →
                UserModuleProgress.completed_at p' = Some t).
Proof.
  induction rs as [|r rs IH] using rev_ind; intros Hseq Hp.
  { by exists p. }
  apply Forall_app in Hseq as [Hrs Hr].
  rewrite Forall_singleton in Hr.
  destruct (IH Hrs Hp) as (p1 & Hp1 & Hs1 & Hc1 & Ht1).
  rewrite serve_all_snoc.
  destruct (serve_cases_user (serve_all db rs) r Hr) as [->|(m' & l & H)].
  { by exists p1. }
  destruct (first_completion_module_flag _ _ _ _ _ _ _ H Hp1)
    as (p2 & Hp2 & Hs2 & Hc2 & Ht2).
  exists p2. split; [done|]. split; [congruence|]. split; auto.
Qed.

Lemma module_completion_is_kept_witness :
  let rs := [ViaModules quiet 1 2 6 Data.empty;
             ViaLessons quiet 1 7 Data.empty] in
  let p := new_module_progress quiet 1 2 (Some 3) in
  (Forall (λ r, sequential (request_env r)) rs
   ∧ module_progress stale_db !! (1, 2) = Some p)
  ∧ ∃ p', module_progress (serve_all stale_db rs) !! (1, 2) = Some p'
          ∧ UserModuleProgress.started_at p'
            = UserModuleProgress.started_at p.
Proof.
  intros rs p.
  assert (Forall (λ r, sequential (request_env r)) rs) as Hseq
    by repeat constructor.
  assert (module_progress stale_db !! (1, 2) = Some p) as Hp
    by (vm_compute; reflexivity).
  split; [by split|].
  destruct (module_completion_is_kept rs stale_db 1 2 p Hseq Hp)
    as (p' & H1 & H2 & _).
  by exists p'.
Defined.

(** X6.  A balance that is [NULL] stays [NULL].  [modules.py] increments
    [total_xp] in SQL, where [NULL + n] is [NULL]: a first completion that
    posts no [xp_earned], of a lesson whose reward (50 for a [NULL] one) is
    positive, records its transaction, so that the ledger of the user
    grows by the reward, and completes the pair, while the balance is left
    at [NULL]. *)
Theorem null_total_xp_stays_null
    (env : Env) (u l : Z) (db : DB)
    (lesson : Lesson.t) (module : Module_.t) (t : Z) :
  sequential env →
  get_lesson db l = Some lesson →
  completed db u l = false →
  get_module db (Lesson.module_id lesson) = Some module →
  Module_.total_lessons module = Some t →
  users db !! u = Some (User.mk None) →
  let m := Lesson.module_id lesson in
  let reward := default 50 (Lesson.xp_reward lesson) in
  let by_modules := serve db (ViaModules env u m l Data.empty) in
  0 < reward →
  users by_modules !! u = Some (User.mk None)
  ∧ xp_transactions by_modules
    = (xp_transactions db
       ++ [lesson_completion_tx env u m l lesson reward])%list
  ∧ xp_of u (xp_transactions by_modules)
    = xp_of u (xp_transactions db) + reward
  ∧ completed by_modules u l = true.
Proof.
  intros Hseq Hl Hd Hmod Ht Hu m reward by_modules Hx.
  assert (resolve_xp Data.empty lesson = reward) as Hxp.
  { unfold resolve_xp. subst reward. simpl.
    by destruct (Lesson.xp_reward lesson). }
  subst by_modules m. unfold serve, handle.
  rewrite (modules_route_first _ _ _ _ _ _ _ _ _ Hseq Hl eq_refl Hd Hmod Ht).
  apply Z.ltb_lt in Hx. cbn [snd committed]. cbv zeta. cbn [committed].
  unfold completed, after_modules_py, credited_transactions.
  cbn [users xp_transactions lesson_progress]. rewrite Hxp, Hx.
  rewrite lookup_alter_eq, Hu, lookup_insert_eq, lesson_row_is_completed.
  split; [done|]. split; [done|]. split; [|done].
  rewrite xp_of_app. simpl. by rewrite Z.eqb_refl.
Qed.

Lemma null_total_xp_stays_null_witness :
  let db := mkDB (lessons demo_db) (modules demo_db) {[1 := User.mk None]}
                 ∅ ∅ [] in
  let lesson := Lesson.mk 5 2 "Intro" 1 (Some 20) in
  let by_modules := serve db (ViaModules quiet 1 2 5 Data.empty) in
  (sequential quiet ∧ get_lesson db 5 = Some lesson
   ∧ completed db 1 5 = false
   ∧ users db !! 1 = Some (User.mk None))
  ∧ users by_modules !! 1 = Some (User.mk None)
  ∧ xp_of 1 (xp_transactions by_modules) = 20.
Proof.
  intros db lesson by_modules.
  assert (sequential quiet) as Hseq by (by split).
  assert (get_lesson db 5 = Some lesson) as Hl by reflexivity.
  assert (completed db 1 5 = false) as Hd by reflexivity.
  assert (get_module db (Lesson.module_id lesson)
          = Some (Module_.mk 2 1 (Some 3))) as Hmod by reflexivity.
  assert (users db !! 1 = Some (User.mk None)) as Hu
    by (vm_compute; reflexivity).
  split; [done|].
  destruct (null_total_xp_stays_null quiet 1 5 db lesson _ 3
              Hseq Hl Hd Hmod eq_refl Hu ltac:(done)) as (H1 & _ & H3 & _).
  split; [exact H1|exact H3].
Defined.

(** X7.  The completion route of [lessons.py] completes nothing.
    Whatever the request, the environment and the session, the function
    answers 500 [INTERNAL_ERROR] after a rollback; behind [@require_auth]
    the route answers 401 for a user that is missing or not active and that
    500 otherwise.  A request to it leaves the database as it is, alone or
    at the end of any sequence of requests. *)
Theorem lessons_route_never_completes
    (is_active : Z → option bool) (env : Env) (u l : Z) (data : Data.t)
    (s : Session) :
  let rolled_back := mkSession (committed s) (committed s) (trace s) in
  let failed :=
    Returns (Error "Failed to complete lesson" 500 "INTERNAL_ERROR" None) in
  LessonsPy.complete_lesson env u l data s = (failed, rolled_back)
  ∧ LessonsApi.complete_lesson is_active env u l data s
    = match users (pending s) !! u with
      | None =>
        (Returns (Error "User not found" 401 "INVALID_CREDENTIALS" None), s)
      | Some _ =>
        if truthy (is_active u) then (failed, rolled_back)
        else (Returns (Error "Account is disabled" 401 "ACCOUNT_DISABLED"
                             None), s)
      end
  ∧ (∀ db, serve db (ViaLessons env u l data) = db)
  ∧ (∀ db rs,
       serve_all db (rs ++ [ViaLessons env u l data])%list
       = serve_all db rs).
Proof.
  cbv zeta. split; [apply lessons_route_fails|]. split; [|split].
  - cbv [LessonsApi.complete_lesson require_auth bind ret attempt query].
    cbv beta iota.
    destruct (users (pending s) !! u) eqn:Hu; [|done].
    destruct (truthy (is_active u)); [|done].
    cbn [negb]. cbv beta iota. rewrite Hu, lessons_route_fails. done.
  - intros db. unfold serve, handle. by rewrite lessons_route_fails.
  - intros db rs. rewrite serve_all_snoc.
    unfold serve, handle. by rewrite lessons_route_fails.
Qed.

Lemma modules_without_total env u l data db lesson module :
  flush_outcome env = Succeeds →
  get_lesson db l = Some lesson →
  completed db u l = false →
  get_module db (Lesson.module_id lesson) = Some module →
  Module_.total_lessons module = None →
  ModulesPy.complete_lesson env u (Lesson.module_id lesson) l data (start db)
  = (Returns (Error "Failed to complete lesson" 500 "LESSON_COMPLETION_ERROR"
        (Some "'>' not supported between instances of 'NoneType' and 'int'")),
     start db).
Proof.
  intros Hf Hl Hd Hmod Ht. unfold completed in Hd.
  unfold get_lesson, get_module in Hl, Hmod.
  exec. rewrite Hl; step. rewrite Z.eqb_refl; step.
  destruct (lesson_progress db !! (u, l)) as [p|] eqn:Hp; step;
    rewrite ?Hd, ?Hf; step;
    destruct (module_progress db !! (u, Lesson.module_id lesson))
      as [mp|] eqn:Hmp; step;
    repeat (first [rewrite Hmod | rewrite Ht]; step); done.
Qed.

(** X8.  A lesson of a module whose [total_lessons] is [NULL] cannot be
    completed: in [modules.py], [module.total_lessons > 0] raises
    [TypeError].  Both routes answer 500 -- [LESSON_COMPLETION_ERROR] with
    the message as details in [modules.py], [INTERNAL_ERROR] in
    [lessons.py], as for every request -- and the session is back where it
    started. *)
Theorem null_total_lessons_blocks_completion
    (env : Env) (u l : Z) (data : Data.t) (db : DB)
    (lesson : Lesson.t) (module : Module_.t) :
  flush_outcome env = Succeeds →
  get_lesson db l = Some lesson →
  completed db u l = false →
  get_module db (Lesson.module_id lesson) = Some module →
  Module_.total_lessons module = None →
  ModulesPy.complete_lesson env u (Lesson.module_id lesson) l data (start db)
  = (Returns (Error "Failed to complete lesson" 500 "LESSON_COMPLETION_ERROR"
        (Some "'>' not supported between instances of 'NoneType' and 'int'")),
     start db)
  ∧ LessonsPy.complete_lesson env u l data (start db)
    = (Returns (Error "Failed to complete lesson" 500 "INTERNAL_ERROR" None),
       start db).
Proof.
  intros Hf Hl Hd Hmod Ht. split.
  - by eapply modules_without_total.
  - apply lessons_route_fails.
Qed.

Lemma null_total_lessons_blocks_completion_witness :
  let db := mkDB (lessons demo_db) [Module_.mk 2 1 None] (users demo_db)
                 ∅ ∅ [] in
  (get_lesson db 5 = Some (Lesson.mk 5 2 "Intro" 1 (Some 20))
   ∧ get_module db 2 = Some (Module_.mk 2 1 None))
  ∧ LessonsPy.complete_lesson quiet 1 5 Data.empty (start db)
    = (Returns (Error "Failed to complete lesson" 500 "INTERNAL_ERROR" None),
       start db).
Proof.
  intros db. split; [by split|].
  refine (proj2 (null_total_lessons_blocks_completion quiet 1 5 Data.empty db
                   (Lesson.mk 5 2 "Intro" 1 (Some 20)) (Module_.mk 2 1 None)
                   _ _ _ _ _)); reflexivity.
Defined.

(** X9.  The flush of a new progress row fails with an [IntegrityError]
    when another session has inserted the pair first.  [modules.py] rolls
    back and looks again: if the other session's row is completed, the
    answer is [already completed] and nothing is written; if there is no
    row after all, the answer is 500 with the message as details; and if
    the row is there but not completed (the lessons table being what it
    was), the request goes on exactly as one that had started on the
    database it now sees. *)
Theorem race_at_flush
    (env : Env) (u m l : Z) (data : Data.t) (db : DB) (lesson : Lesson.t)
    (message : string) (visible : DB) :
  get_lesson db l = Some lesson →
  Lesson.module_id lesson = m →
  lesson_progress db !! (u, l) = None →
  flush_outcome env = RaisesIntegrityError message visible →
  match lesson_progress visible !! (u, l) with
  | None =>
    ModulesPy.complete_lesson env u m l data (start db)
    = (Returns (Error "Failed to complete lesson" 500
                      "LESSON_COMPLETION_ERROR" (Some message)),
       start visible)
  | Some p =>
    if truthy (UserLessonProgress.is_completed p)
    then ModulesPy.complete_lesson env u m l data (start db)
         = (Returns (Success (mkPayload p None 0 true)
                             "Lesson already completed"),
            start visible)
    else get_lesson visible l = Some lesson →
         ModulesPy.complete_lesson env u m l data (start db)
         = ModulesPy.complete_lesson env u m l data (start visible)
  end.
Proof.
  intros Hl Hm Hp Hf. apply Z.eqb_eq in Hm. unfold get_lesson in Hl.
  destruct (lesson_progress visible !! (u, l)) as [p|] eqn:Hv.
  - destruct (truthy (UserLessonProgress.is_completed p)) eqn:Hc.
    + exec. rewrite Hl; step. rewrite Hm; step. rewrite Hp; step.
      rewrite Hf; step. rewrite Hv; step. rewrite Hc; step. done.
    + intros Hl'. unfold get_lesson in Hl'.
      exec. rewrite Hl, Hl'; step. rewrite Hm; step. rewrite Hp; step.
      rewrite Hf; step. rewrite Hv; step. rewrite Hc; step. done.
  - exec. rewrite Hl; step. rewrite Hm; step. rewrite Hp; step.
    rewrite Hf; step. rewrite Hv; step. done.
Qed.

Lemma race_at_flush_witness :
  let env := mkEnv (λ _, 0) (RaisesIntegrityError "Duplicate entry" stale_db)
                   Succeeds (λ _, true) in
  let p := mark_lesson_completed quiet Data.empty
             (new_lesson_progress quiet 1 5) in
  (get_lesson demo_db 5 = Some (Lesson.mk 5 2 "Intro" 1 (Some 20))
   ∧ lesson_progress demo_db !! (1, 5) = None)
  ∧ ModulesPy.complete_lesson env 1 2 5 Data.empty (start demo_db)
    = (Returns (Success (mkPayload p None 0 true)
                        "Lesson already completed"),
       start stale_db).
Proof.
  intros env p. split; [by split|].
  exact (race_at_flush env 1 2 5 Data.empty demo_db
           (Lesson.mk 5 2 "Intro" 1 (Some 20)) "Duplicate entry" stale_db
           eq_refl eq_refl eq_refl eq_refl).
Defined.

(** ** What a request answers *)

(** The three ways a sequential request to [modules.py] can end. *)
Lemma modules_outcome env u m l data db :
  sequential env →
  let o := ModulesPy.complete_lesson env u m l data (start db) in
  (∃ message status_code error_code details,
     o = (Returns (Error message status_code error_code details), start db))
  ∨ (∃ p, lesson_progress db !! (u, l) = Some p
          ∧ truthy (UserLessonProgress.is_completed p) = true
          ∧ o = (Returns (Success (mkPayload p None 0 true)
                                  "Lesson already completed"), start db))
  ∨ (∃ lesson module t,
       get_lesson db l = Some lesson
       ∧ Lesson.module_id lesson = m
       ∧ completed db u l = false
       ∧ get_module db m = Some module
       ∧ Module_.total_lessons module = Some t
       ∧ o = (Returns (Success
                (mkPayload (lesson_row env u l data lesson db true)
                   (Some (module_row env u m t db (incremented env u m t db)))
                   (resolve_xp data lesson) false)
                "Lesson completed successfully"),
              let db' := after_modules_py env u m l data lesson t db in
              mkSession db' db'
                        (hook_events env (seq 0 ModulesPy.max_retries)))).
Proof.
  intros Hseq.
  destruct (get_lesson db l) as [lesson|] eqn:Hl; cycle 1.
  { left. unfold get_lesson in Hl. do 4 eexists. exec. by rewrite Hl. }
  destruct (Lesson.module_id lesson =? m) eqn:Hm; cycle 1.
  { left. unfold get_lesson in Hl. do 4 eexists. exec. rewrite Hl; step.
    by rewrite Hm. }
  apply Z.eqb_eq in Hm.
  destruct (completed db u l) eqn:Hd.
  { right; left. unfold completed in Hd.
    destruct (lesson_progress db !! (u, l)) as [p|] eqn:Hp; [|done].
    exists p. split; [done|]. split; [done|].
    unfold ModulesPy.complete_lesson, bind, attempt.
    by erewrite modules_duplicate. }
  destruct (get_module db m) as [module|] eqn:Hmod; cycle 1.
  { left. destruct Hseq as [Hf Hc]. unfold completed in Hd.
    unfold get_lesson, get_module in Hl, Hmod. do 4 eexists. exec.
    rewrite Hl; step. rewrite Hm, Z.eqb_refl; step.
    destruct (lesson_progress db !! (u, l)) as [p|] eqn:Hp; step;
      rewrite ?Hd, ?Hf; step;
      destruct (module_progress db !! (u, m)) as [mp|] eqn:Hmp; step;
      rewrite Hmod; step; done. }
  destruct (Module_.total_lessons module) as [t|] eqn:Ht; cycle 1.
  { left. subst m. destruct Hseq as [Hf Hc]. do 4 eexists.
    by eapply modules_without_total. }
  right; right. exists lesson, module, t. repeat (split; [done|]).
  by erewrite modules_route_first.
Qed.

Lemma modules_answers env u m l data db :
  sequential env →
  answers db u l (ModulesPy.complete_lesson env u m l data (start db)).
Proof.
  intros Hseq.
  destruct (modules_outcome env u m l data db Hseq)
    as [(msg & st & code & det & ->)
       |[(p & Hp & Hc & ->)
        |(lesson & module & t & Hl & Hm & Hd & Hmod & Ht & ->)]].
  - left. by exists msg, st, code, det.
  - right; left. by exists p.
  - right; right. do 3 eexists. exists m. split; [done|]. split; [done|].
    cbn [snd committed]. cbv zeta. cbn [committed].
    unfold after_modules_py, get_module.
    cbn [lesson_progress module_progress modules].
    rewrite !lookup_insert_eq. split; [done|].
    split; [apply lesson_row_is_completed|]. split; [done|].
    unfold get_module in Hmod. by rewrite Hmod.
Qed.

Lemma lessons_answers env u l data db :
  answers db u l (LessonsPy.complete_lesson env u l data (start db)).
Proof. left. rewrite lessons_route_fails. by do 4 eexists. Qed.

Lemma handle_answers db r u l :
  sequential (request_env r) →
  aims_at db r u l →
  answers db u l (handle r (start db)).
Proof.
  intros Hseq Haim. destruct r as [env u' m l' data|env u' l' data
                                  |env u' mn ln data]; simpl in *.
  - destruct Haim as [-> ->]. by apply modules_answers.
  - destruct Haim as [-> ->]. apply lessons_answers.
  - destruct Haim as [-> [m Hres]].
    rewrite (by_number_resolved env u mn ln data (start db) m l Hres).
    by apply modules_answers.
Qed.

(** X10.  A success response reports what is stored.  The lesson-progress
    row in the response is the row of the pair in the committed database,
    and it is completed; [already_completed] tells whether the pair was
    completed before the request; with a module-progress row in the
    response the request was a first completion and that row is stored for
    the user; without one the request was a repeat, [xp_earned] is 0 and
    the database is unchanged. *)
Theorem response_reports_stored_rows
    (db : DB) (r : request) (u l : Z)
    (row : UserLessonProgress.t) (mrow : option UserModuleProgress.t)
    (xp : Z) (already_completed : bool) (message : string) :
  sequential (request_env r) →
  aims_at db r u l →
  (handle r (start db)).1
  = Returns (Success (mkPayload row mrow xp already_completed) message) →
  lesson_progress (serve db r) !! (u, l) = Some row
  ∧ truthy (UserLessonProgress.is_completed row) = true
  ∧ already_completed = completed db u l
  ∧ match mrow with
    | Some mp =>
      already_completed = false
      ∧ ∃ m, module_progress (serve db r) !! (u, m) = Some mp
    | None => already_completed = true ∧ xp = 0 ∧ serve db r = db
    end.
Proof.
  intros Hseq Haim Hresp. unfold serve.
  destruct (handle_answers db r u l Hseq Haim)
    as [(msg & st & code & det & H1 & H2)
       |[(p & Hp & Hc & H1 & H2)
        |(row' & mrow' & xp' & m & Hd & H1 & Hrow & Hc & Hmrow & Hm)]];
    rewrite H1 in Hresp; [done| |];
    injection Hresp as <- <- <- <- <-.
  - rewrite H2. unfold completed. rewrite Hp. by rewrite Hc.
  - rewrite Hd. split; [done|]. split; [by rewrite Hc|].
    split; [done|]. split; [done|]. by exists m.
Qed.

Lemma response_reports_stored_rows_witness :
  let r := ViaModules quiet 1 2 5 Data.empty in
  let row := lesson_row quiet 1 5 Data.empty
               (Lesson.mk 5 2 "Intro" 1 (Some 20)) demo_db true in
  (sequential (request_env r) ∧ aims_at demo_db r 1 5)
  ∧ lesson_progress (serve demo_db r) !! (1, 5) = Some row.
Proof.
  intros r row. split; [by split|].
  refine (proj1 (response_reports_stored_rows demo_db r 1 5 row
                   (Some (module_row quiet 1 2 3 demo_db 1)) 20 false
                   "Lesson completed successfully" _ _ _)).
  - by split.
  - by split.
  - vm_compute. reflexivity.
Defined.

(** X11.  A sequential request is always answered, never left with an
    exception, and one that is answered with an error has committed
    nothing. *)
Theorem failed_request_commits_nothing (db : DB) (r : request) :
  sequential (request_env r) →
  (∃ response, (handle r (start db)).1 = Returns response)
  ∧ ∀ message status_code error_code details,
      (handle r (start db)).1
      = Returns (Error message status_code error_code details) →
      serve db r = db.
Proof.
  intros Hseq.
  assert (∀ u l, answers db u l (handle r (start db)) →
    (∃ response, (handle r (start db)).1 = Returns response)
    ∧ ∀ message status_code error_code details,
        (handle r (start db)).1
        = Returns (Error message status_code error_code details) →
        serve db r = db) as Hgen.
  { intros u l [(msg & st & code & det & H1 & H2)
               |[(p & Hp & Hc & H1 & H2)
                |(row' & mrow' & xp' & m & Hd & H1 & Hrow & Hc & Hmrow & Hm)]];
      rewrite H1; (split; [by eexists|]); try done. }
  destruct r as [env u m l data|env u l data|env u mn ln data];
    simpl in Hseq.
  - apply (Hgen u l). by apply modules_answers.
  - apply (Hgen u l). apply lessons_answers.
  - destruct (resolve db mn ln) as [[m l]|] eqn:Hres.
    + apply (Hgen u l). apply handle_answers; [done|].
      simpl. split; [done|]. by exists m.
    + unfold serve, handle.
      destruct (by_number_unresolved env u mn ln data (start db) Hres)
        as (msg & -> & _). split; [by eexists|]. done.
Qed.

Lemma failed_request_commits_nothing_witness :
  let r := ViaNumbers quiet 1 1 9 Data.empty in
  sequential (request_env r) ∧ serve demo_db r = demo_db.
Proof.
  intros r.
  assert (sequential (request_env r)) as Hseq by (by split).
  split; [exact Hseq|].
  refine (proj2 (failed_request_commits_nothing demo_db r Hseq)
            "Lesson 9 in module 1 not found" 404 "LESSON_NOT_FOUND" None _).
  vm_compute. reflexivity.
Defined.
(** ** The lessons of a module *)

Ltac run_api :=
  cbv [ModulesApi.get_module_lessons ModulesApi.get_module_progress
       ModulesApi.update_module_progress ModulesApi.get_module
       ModulesApi.get_json ModulesApi.assign_if_posted Body.falsy
       LessonsApi.complete_lesson LessonsApi.lesson_progress_of
       LessonsApi.get_lesson_progress LessonsApi.get_lesson require_auth
       save_module_progress
       bind ret raise attempt query write rollback commit fail_with
       start set_module_progress get_module get_lesson negb andb];
  step.

Lemma elem_of_user_progress_records db u ids l p :
  (l, p) ∈ user_progress_records db u ids
  ↔ lesson_progress db !! (u, l) = Some p ∧ l ∈ ids.
Proof.
  unfold user_progress_records. rewrite list_elem_of_fmap. split.
  - intros ([[u' l'] p'] & [= -> ->] & H).
    apply elem_of_map_to_list, map_lookup_filter_Some in H as [H [Hu Hl]].
    simpl in *. by subst.
  - intros [H Hl]. exists ((u, l), p). split; [done|].
    by apply elem_of_map_to_list, map_lookup_filter_Some.
Qed.

Lemma user_progress_records_nil db u : user_progress_records db u [] = [].
Proof.
  apply elem_of_nil_inv. intros [l p] H.
  apply elem_of_user_progress_records in H as [_ H]. by apply elem_of_nil in H.
Qed.

Lemma elem_of_listed_completed_ids db cu active l :
  l ∈ listed_completed_ids db cu active
  ↔ shown_completed db cu l = true ∧ l ∈ LessonRow.id <$> active.
Proof.
  unfold listed_completed_ids, listed_records, shown_completed, completed.
  rewrite list_elem_of_fmap. split.
  - intros ([l' p] & -> & H). apply list_elem_of_In, List.filter_In in H.
    destruct H as [H Hc]. apply list_elem_of_In in H.
    destruct (authenticated cu) as [u|]; [|by apply elem_of_nil in H].
    apply elem_of_user_progress_records in H as [H Hl]. simpl in *.
    by rewrite H.
  - intros [Hc Hl]. destruct (authenticated cu) as [u|]; [|done].
    destruct (lesson_progress db !! (u, l)) as [p|] eqn:Hp; [|done].
    exists (l, p). split; [done|].
    apply list_elem_of_In, List.filter_In. split; [|done].
    apply list_elem_of_In. by apply elem_of_user_progress_records.
Qed.

(** The listing, in closed form. *)
Lemma module_lessons_run rows cu m s module :
  get_module (pending s) m = Some module →
  let active := active_lessons rows m in
  let ids := listed_completed_ids (pending s) cu active in
  ModulesApi.get_module_lessons rows cu m s
  = (Returns (APIResponse.success
       (ModuleLessons.mk
          (lessons_with_status active ids)
          (listed_records (pending s) cu active)
          (ModuleInfo.mk module (Z.of_nat (length ids))
             (if 0 <? Z.of_nat (length active)
              then inject_Z (Z.of_nat (length ids))
                   / inject_Z (Z.of_nat (length active)) * 100
              else 0)%Q
             (match authenticated cu with
              | Some u =>
                match module_progress (pending s) !! (u, m) with
                | Some p => UserModuleProgress.is_completed p
                | None => Some false
                end
              | None => Some false
              end))
          ids)
       "Module lessons retrieved successfully"), s).
Proof.
  intros Hmod active ids. subst ids. unfold get_module in Hmod.
  unfold listed_completed_ids, listed_records.
  run_api. rewrite Hmod; step. fold (active_lessons rows m). fold active.
  destruct (authenticated cu) as [u|]; step; [|done].
  destruct (LessonRow.id <$> active) as [|i ids] eqn:Hids; step.
  - rewrite user_progress_records_nil. simpl.
    by destruct (module_progress (pending s) !! (u, m)).
  - by destruct (module_progress (pending s) !! (u, m)).
Qed.

Lemma lookup_lessons_with_status active ids i :
  lessons_with_status active ids !! i
  = lesson_with_status active ids i <$> active !! i.
Proof. unfold lessons_with_status. apply list_lookup_imap. Qed.

Lemma listed_lessons active ids :
  LessonData.lesson <$> lessons_with_status active ids = active.
Proof.
  apply list_eq. intros i.
  rewrite list_lookup_fmap, lookup_lessons_with_status.
  by destruct (active !! i).
Qed.

(** X12.  [get_module_lessons] lists the active lessons of the module in
    the order of the query.  The first lesson is never locked, and every
    other lesson is locked exactly when the lesson listed right before it
    is not shown as completed; lessons further back play no part. *)
Theorem lessons_unlock_in_sequence
    (rows : list LessonRow.t) (current_user_id : option Z) (m : Z)
    (s : Session) (module : Module_.t) :
  get_module (pending s) m = Some module →
  ∃ data,
    ModulesApi.get_module_lessons rows current_user_id m s
    = (Returns (APIResponse.success data
                  "Module lessons retrieved successfully"), s)
    ∧ LessonData.lesson <$> ModuleLessons.lessons data = active_lessons rows m
    ∧ (∀ d, ModuleLessons.lessons data !! 0%nat = Some d →
            LessonData.is_locked d = false)
    ∧ (∀ i d d',
         ModuleLessons.lessons data !! i = Some d →
         ModuleLessons.lessons data !! S i = Some d' →
         LessonData.is_locked d' = negb (LessonData.is_completed d)).
Proof.
  intros Hmod. eexists. split; [by apply module_lessons_run|].
  cbn [ModuleLessons.lessons].
  set (active := active_lessons rows m).
  set (ids := listed_completed_ids (pending s) current_user_id active).
  split; [apply listed_lessons|]. split.
  - intros d. rewrite lookup_lessons_with_status.
    destruct (active !! 0%nat); [|done]. by intros [= <-].
  - intros i d d'. rewrite !lookup_lessons_with_status.
    destruct (active !! i) as [row|] eqn:Hi; [|done].
    destruct (active !! S i) as [row'|] eqn:Hi'; [|done].
    intros [= <-] [= <-]. unfold lesson_with_status.
    cbn [LessonData.is_locked LessonData.is_completed].
    replace (S i - 1)%nat with i by lia. rewrite Hi. simpl.
    by repeat case_bool_decide.
Qed.

Lemma lessons_unlock_in_sequence_witness :
  let rows := [LessonRow.mk (Lesson.mk 5 2 "Intro" 1 (Some 20)) true (Some 1);
               LessonRow.mk (Lesson.mk 6 2 "Practice" 2 (Some 0)) true
                            (Some 2)] in
  get_module (pending (start stale_db)) 2 = Some (Module_.mk 2 1 (Some 3))
  ∧ ∃ data,
      ModulesApi.get_module_lessons rows (Some 1) 2 (start stale_db)
      = (Returns (APIResponse.success data
                    "Module lessons retrieved successfully"), start stale_db)
      ∧ LessonData.lesson <$> ModuleLessons.lessons data
        = active_lessons rows 2.
Proof.
  intros rows. split; [reflexivity|].
  destruct (lessons_unlock_in_sequence rows (Some 1) 2 (start stale_db)
              (Module_.mk 2 1 (Some 3)) eq_refl) as (data & H1 & H2 & _).
  by exists data.
Defined.

Lemma shown_completed_anonymous db cu l :
  authenticated cu = None → shown_completed db cu l = false.
Proof. unfold shown_completed. by intros ->. Qed.

(** X13.  In the listing a lesson is shown as completed exactly when the
    caller is authenticated and the caller's progress row for that lesson
    is completed; [completed_lessons] holds exactly the listed lessons of
    that kind.  Without a token, or with the identity 0, nothing is
    completed, no progress is reported, and every lesson but the first is
    locked. *)
Theorem listing_shows_completed_lessons
    (rows : list LessonRow.t) (current_user_id : option Z) (m : Z)
    (s : Session) (module : Module_.t) :
  get_module (pending s) m = Some module →
  ∃ data,
    ModulesApi.get_module_lessons rows current_user_id m s
    = (Returns (APIResponse.success data
                  "Module lessons retrieved successfully"), s)
    ∧ (∀ d, d ∈ ModuleLessons.lessons data →
            LessonData.is_completed d
            = match authenticated current_user_id with
              | Some u => completed (pending s) u
                                    (LessonRow.id (LessonData.lesson d))
              | None => false
              end)
    ∧ (∀ l, l ∈ ModuleLessons.completed_lessons data
            ↔ (∃ u, authenticated current_user_id = Some u
                    ∧ completed (pending s) u l = true)
              ∧ l ∈ LessonRow.id <$> active_lessons rows m)
    ∧ (authenticated current_user_id = None →
       ModuleLessons.completed_lessons data = []
       ∧ ModuleLessons.user_progress data = []
       ∧ ∀ i d, ModuleLessons.lessons data !! i = Some d →
                LessonData.is_completed d = false
                ∧ LessonData.is_locked d = negb (i =? 0)%nat).
Proof.
  intros Hmod. eexists. split; [by apply module_lessons_run|].
  cbn [ModuleLessons.lessons ModuleLessons.completed_lessons
       ModuleLessons.user_progress].
  set (active := active_lessons rows m).
  set (ids := listed_completed_ids (pending s) current_user_id active).
  assert (∀ i row, active !! i = Some row →
            bool_decide (LessonRow.id row ∈ ids)
            = shown_completed (pending s) current_user_id (LessonRow.id row))
    as Hflag.
  { intros i row Hi.
    destruct (shown_completed _ _ _) eqn:Hc.
    - apply bool_decide_true, elem_of_listed_completed_ids. split; [done|].
      apply list_elem_of_fmap. exists row. split; [done|].
      by eapply list_elem_of_lookup_2.
    - apply bool_decide_false. intros H.
      apply elem_of_listed_completed_ids in H as [H _]. congruence. }
  split; [|split].
  - intros d Hd. apply list_elem_of_lookup_1 in Hd as [i Hd].
    rewrite lookup_lessons_with_status in Hd.
    destruct (active !! i) as [row|] eqn:Hi; [|done].
    injection Hd as <-. cbn [LessonData.is_completed LessonData.lesson].
    exact (Hflag i row Hi).
  - intros l. subst ids. rewrite elem_of_listed_completed_ids.
    unfold shown_completed. split.
    + intros [Hc Hl]. split; [|done].
      destruct (authenticated current_user_id) as [u|]; [|done]. by exists u.
    + intros [(u & -> & Hc) Hl]. done.
  - intros Hanon.
    assert (ids = []) as Hids.
    { subst ids. unfold listed_completed_ids, listed_records.
      by rewrite Hanon. }
    split; [done|]. split.
    { unfold listed_records. by rewrite Hanon. }
    intros i d. rewrite lookup_lessons_with_status.
    destruct (active !! i) as [row|] eqn:Hi; [|done].
    intros [= <-]. unfold lesson_with_status.
    cbn [LessonData.is_locked LessonData.is_completed]. rewrite Hids.
    split.
    + apply bool_decide_false. apply not_elem_of_nil.
    + destruct i as [|i]; [done|]. simpl.
      replace (i - 0)%nat with i by lia.
      destruct (active !! i) as [prev|] eqn:Hp.
      * done.
      * apply lookup_lt_Some in Hi. apply lookup_ge_None in Hp. lia.
Qed.

Lemma listing_shows_completed_lessons_witness :
  let rows := [LessonRow.mk (Lesson.mk 5 2 "Intro" 1 (Some 20)) true (Some 1);
               LessonRow.mk (Lesson.mk 6 2 "Practice" 2 (Some 0)) true
                            (Some 2)] in
  get_module (pending (start stale_db)) 2 = Some (Module_.mk 2 1 (Some 3))
  ∧ ∃ data,
      ModulesApi.get_module_lessons rows (Some 1) 2 (start stale_db)
      = (Returns (APIResponse.success data
                    "Module lessons retrieved successfully"), start stale_db)
      ∧ (5 ∈ ModuleLessons.completed_lessons data
         ↔ (∃ u, authenticated (Some 1) = Some u
                 ∧ completed (pending (start stale_db)) u 5 = true)
           ∧ 5 ∈ LessonRow.id <$> active_lessons rows 2).
Proof.
  intros rows. split; [reflexivity|].
  destruct (listing_shows_completed_lessons rows (Some 1) 2 (start stale_db)
              (Module_.mk 2 1 (Some 3)) eq_refl) as (data & H1 & _ & H2 & _).
  exists data. split; [exact H1|exact (H2 5)].
Defined.

Lemma listed_flag db cu active i row :
  active !! i = Some row →
  bool_decide (LessonRow.id row ∈ listed_completed_ids db cu active)
  = shown_completed db cu (LessonRow.id row).
Proof.
  intros Hi. destruct (shown_completed _ _ _) eqn:Hc.
  - apply bool_decide_true, elem_of_listed_completed_ids. split; [done|].
    apply list_elem_of_fmap. exists row. split; [done|].
    by eapply list_elem_of_lookup_2.
  - apply bool_decide_false. intros H.
    apply elem_of_listed_completed_ids in H as [H _]. congruence.
Qed.

(** An entry of the listing, by the progress of its lesson and of the one
    before it. *)
Lemma listing_entry db cu active i row :
  active !! i = Some row →
  lessons_with_status active (listed_completed_ids db cu active) !! i
  = Some (LessonData.mk row
            (shown_completed db cu (LessonRow.id row))
            (match i with
             | O => false
             | S j =>
               match active !! j with
               | Some previous =>
                 negb (shown_completed db cu (LessonRow.id previous))
               | None => false
               end
             end)).
Proof.
  intros Hi. rewrite lookup_lessons_with_status, Hi. simpl.
  unfold lesson_with_status. rewrite (listed_flag db cu active i row Hi).
  f_equal. f_equal. destruct i as [|j]; [done|]. simpl.
  replace (j - 0)%nat with j by lia.
  destruct (active !! j) as [prev|] eqn:Hj; [|done].
  rewrite <- (listed_flag db cu active j prev Hj).
  by repeat case_bool_decide.
Qed.

Lemma NoDup_fmap_List_filter {A B} (f : A → B) (g : A → bool) l :
  NoDup (f <$> l) → NoDup (f <$> List.filter g l).
Proof.
  induction l as [|a l IH]; simpl; [done|].
  rewrite NoDup_cons. intros [Ha Hl]. destruct (g a); [|auto].
  simpl. apply NoDup_cons. split; [|auto].
  intros H. apply Ha. apply list_elem_of_fmap in H as (x & -> & Hx).
  apply list_elem_of_fmap. exists x. split; [done|].
  apply list_elem_of_In, List.filter_In in Hx as [Hx _].
  by apply list_elem_of_In.
Qed.

Lemma NoDup_listed_completed_ids db cu active :
  NoDup (listed_completed_ids db cu active).
Proof.
  unfold listed_completed_ids. apply NoDup_fmap_List_filter.
  unfold listed_records.
  destruct (authenticated cu) as [u|]; [|constructor].
  unfold user_progress_records. rewrite <- list_fmap_compose.
  apply NoDup_fmap_2_strong; [|apply NoDup_map_to_list].
  intros [[u1 l1] p1] [[u2 l2] p2] H1 H2 Heq. simpl in Heq. subst l2.
  apply elem_of_map_to_list, map_lookup_filter_Some in H1 as (H1 & Hu1 & _).
  apply elem_of_map_to_list, map_lookup_filter_Some in H2 as (H2 & Hu2 & _).
  simpl in *. subst. congruence.
Qed.

Lemma length_listed_completed_ids db cu active :
  (length (listed_completed_ids db cu active) ≤ length active)%nat.
Proof.
  rewrite <- (length_fmap LessonRow.id active).
  apply submseteq_length, NoDup_submseteq.
  - apply NoDup_listed_completed_ids.
  - intros l Hl. by apply elem_of_listed_completed_ids in Hl as [_ Hl].
Qed.

Lemma percentage_bounded c t :
  0 ≤ c ≤ t →
  (0 <= (if 0 <? t then inject_Z c / inject_Z t * 100 else 0) <= 100)%Q.
Proof.
  intros Hct. destruct (0 <? t) eqn:Ht.
  - apply Z.ltb_lt in Ht. destruct t as [|p|p]; try lia.
    unfold Qle, Qdiv, Qmult, Qinv, inject_Z. simpl. split; nia.
  - split; [apply Qle_refl|]. by compute.
Qed.

(** X14.  The statistics of the listing: [completed_lessons] has no
    repetition, its length is [completed_lessons_count], which does not
    exceed the number of listed lessons, so that [progress_percentage] lies
    between 0 and 100; it is 0 for a module without active lessons. *)
Theorem listing_progress_is_bounded
    (rows : list LessonRow.t) (current_user_id : option Z) (m : Z)
    (s : Session) (module : Module_.t) :
  get_module (pending s) m = Some module →
  ∃ data,
    ModulesApi.get_module_lessons rows current_user_id m s
    = (Returns (APIResponse.success data
                  "Module lessons retrieved successfully"), s)
    ∧ let info := ModuleLessons.module_info data in
      NoDup (ModuleLessons.completed_lessons data)
      ∧ ModuleInfo.completed_lessons_count info
        = Z.of_nat (length (ModuleLessons.completed_lessons data))
      ∧ 0 ≤ ModuleInfo.completed_lessons_count info
          ≤ Z.of_nat (length (ModuleLessons.lessons data))
      ∧ (0 <= ModuleInfo.progress_percentage info <= 100)%Q
      ∧ (ModuleLessons.lessons data = [] →
         ModuleInfo.progress_percentage info = 0%Q).
Proof.
  intros Hmod. eexists. split; [by apply module_lessons_run|].
  cbn [ModuleLessons.lessons ModuleLessons.completed_lessons
       ModuleLessons.module_info ModuleInfo.completed_lessons_count
       ModuleInfo.progress_percentage].
  set (active := active_lessons rows m).
  set (ids := listed_completed_ids (pending s) current_user_id active).
  pose proof (length_listed_completed_ids (pending s) current_user_id active)
    as Hlen. fold ids in Hlen.
  assert (length (lessons_with_status active ids) = length active) as Hl.
  { unfold lessons_with_status. apply length_imap. }
  split; [apply NoDup_listed_completed_ids|]. split; [done|].
  split; [rewrite Hl; lia|]. split.
  - apply percentage_bounded. lia.
  - intros Hnil. rewrite Hnil in Hl. destruct active; [done|]. done.
Qed.

Lemma listing_progress_is_bounded_witness :
  let rows := [LessonRow.mk (Lesson.mk 5 2 "Intro" 1 (Some 20)) true (Some 1);
               LessonRow.mk (Lesson.mk 6 2 "Practice" 2 (Some 0)) true
                            (Some 2)] in
  get_module (pending (start stale_db)) 2 = Some (Module_.mk 2 1 (Some 3))
  ∧ ∃ data,
      ModulesApi.get_module_lessons rows (Some 1) 2 (start stale_db)
      = (Returns (APIResponse.success data
                    "Module lessons retrieved successfully"), start stale_db)
      ∧ (0 <= ModuleInfo.progress_percentage (ModuleLessons.module_info data)
         <= 100)%Q.
Proof.
  intros rows. split; [reflexivity|].
  destruct (listing_progress_is_bounded rows (Some 1) 2 (start stale_db)
              (Module_.mk 2 1 (Some 3)) eq_refl)
    as (data & H1 & _ & _ & _ & H2 & _).
  by exists data.
Defined.

(** X16.  Completing a lesson shows in the listing.  After a request
    that takes the pair [(u, l)] from not completed to completed, the
    listing of any module for [u], whatever the lessons table holds, shows
    lesson [l] as completed and every other lesson as completed exactly
    when it was completed before the request; and the lesson listed right
    after [l] is unlocked. *)
Theorem completion_unlocks_the_next_lesson
    (rows : list LessonRow.t) (db : DB) (r : request) (u l m' : Z)
    (module : Module_.t) :
  sequential (request_env r) →
  aims_at db r u l →
  completed db u l = false →
  completed (serve db r) u l = true →
  u ≠ 0 →
  get_module db m' = Some module →
  ∃ after,
    ModulesApi.get_module_lessons rows (Some u) m' (start (serve db r))
    = (Returns (APIResponse.success after
                  "Module lessons retrieved successfully"),
       start (serve db r))
    ∧ ∀ i d,
        ModuleLessons.lessons after !! i = Some d →
        LessonData.is_completed d
        = (if bool_decide (LessonRow.id (LessonData.lesson d) = l)
           then true
           else completed db u (LessonRow.id (LessonData.lesson d)))
        ∧ (∀ j previous,
             i = S j →
             ModuleLessons.lessons after !! j = Some previous →
             LessonRow.id (LessonData.lesson previous) = l →
             LessonData.is_locked d = false).
Proof.
  intros Hseq Haim Hbefore Hafter Hu Hmod.
  destruct (serve_cases db r Hseq) as [Heq|(u' & m & l' & Haim' & H)].
  { rewrite Heq in Hafter. congruence. }
  destruct (aims_at_unique _ _ _ _ _ _ Haim Haim') as [-> ->].
  destruct (first_completion_content _ _ _ _ _ H) as [_ Hmods].
  assert (get_module (serve db r) m' = Some module) as Hmod'.
  { unfold get_module. rewrite Hmods. exact Hmod. }
  assert (∀ db0 l0, shown_completed db0 (Some u) l0 = completed db0 u l0)
    as Hshown.
  { intros db0 l0. unfold shown_completed, authenticated.
    destruct (u =? 0) eqn:E; [|done]. apply Z.eqb_eq in E. done. }
  eexists. split; [by apply module_lessons_run|].
  cbn [ModuleLessons.lessons pending start].
  set (active := active_lessons rows m').
  intros i d Hd.
  assert (is_Some (active !! i)) as [row Hi].
  { apply lookup_lt_is_Some. apply lookup_lt_Some in Hd.
    unfold lessons_with_status in Hd. by rewrite length_imap in Hd. }
  rewrite (listing_entry _ _ _ _ _ Hi) in Hd. injection Hd as <-.
  cbn [LessonData.lesson LessonData.is_completed LessonData.is_locked].
  rewrite !Hshown.
  rewrite (first_completion_completed _ _ _ _ _ u (LessonRow.id row) H).
  split.
  - repeat case_bool_decide; congruence.
  - intros j previous -> Hprev Hid.
    assert (is_Some (active !! j)) as [prow Hj].
    { apply lookup_lt_is_Some. apply lookup_lt_Some in Hi. lia. }
    rewrite (listing_entry _ _ _ _ _ Hj) in Hprev. injection Hprev as <-.
    cbn [LessonData.lesson] in Hid. rewrite Hj, Hshown.
    rewrite (first_completion_completed _ _ _ _ _ u (LessonRow.id prow) H).
    rewrite Hid. by rewrite bool_decide_true.
Qed.

Lemma completion_unlocks_the_next_lesson_witness :
  let rows := [LessonRow.mk (Lesson.mk 5 2 "Intro" 1 (Some 20)) true (Some 1);
               LessonRow.mk (Lesson.mk 6 2 "Practice" 2 (Some 0)) true
                            (Some 2)] in
  let r := ViaModules quiet 1 2 5 Data.empty in
  (sequential (request_env r) ∧ aims_at demo_db r 1 5
   ∧ completed demo_db 1 5 = false ∧ completed (serve demo_db r) 1 5 = true
   ∧ get_module demo_db 2 = Some (Module_.mk 2 1 (Some 3)))
  ∧ ∃ after,
      ModulesApi.get_module_lessons rows (Some 1) 2 (start (serve demo_db r))
      = (Returns (APIResponse.success after
                    "Module lessons retrieved successfully"),
         start (serve demo_db r))
      ∧ (LessonData.is_locked <$> ModuleLessons.lessons after)
        = [false; false].
Proof.
  intros rows r.
  assert (sequential (request_env r)) as Hseq by (by split).
  assert (aims_at demo_db r 1 5) as Haim by (by split).
  assert (completed demo_db 1 5 = false) as Hb by reflexivity.
  assert (completed (serve demo_db r) 1 5 = true) as Ha
    by (vm_compute; reflexivity).
  assert (get_module demo_db 2 = Some (Module_.mk 2 1 (Some 3))) as Hmod
    by reflexivity.
  split; [done|].
  destruct (completion_unlocks_the_next_lesson rows demo_db r 1 5 2 _
              Hseq Haim Hb Ha ltac:(lia) Hmod)
    as (after & H1 & _).
  exists after. split; [exact H1|].
  assert (ModulesApi.get_module_lessons rows (Some 1) 2
            (start (serve demo_db r))
          = (Returns (APIResponse.success after
                        "Module lessons retrieved successfully"),
             start (serve demo_db r))) as H2 by exact H1.
  vm_compute in H2. injection H2 as <-. reflexivity.
Defined.

(** ** A module that does not exist *)

(** X15.  For a module that does not exist the three read routes and the
    progress update all answer 404 with [MODULE_NOT_FOUND] and ["Module not
    found"].  The read routes leave the session as it is; the update rolls
    it back. *)
Theorem missing_module_is_reported
    (rows : list LessonRow.t) (current_user_id : option Z) (env : Env)
    (u m : Z) (update_data : ProgressUpdate.t) (s : Session) :
  get_module (pending s) m = None →
  let not_found {A} : APIResponse.t A :=
    APIResponse.error "Module not found" 404 "MODULE_NOT_FOUND" in
  ModulesApi.get_module_lessons rows current_user_id m s
  = (Returns not_found, s)
  ∧ ModulesApi.get_module_progress u m s = (Returns not_found, s)
  ∧ ModulesApi.get_module current_user_id m s = (Returns not_found, s)
  ∧ (ProgressUpdate.is_empty update_data = false →
     ModulesApi.update_module_progress env u m
       (Body.parsed (Body.object update_data)) s
     = (Returns not_found, mkSession (committed s) (committed s) (trace s))).
Proof.
  intros Hmod not_found. subst not_found. unfold get_module in Hmod.
  repeat split.
  - run_api. by rewrite Hmod.
  - run_api. by rewrite Hmod.
  - run_api. by rewrite Hmod.
  - intros He. run_api. rewrite He; step. by rewrite Hmod.
Qed.

Lemma missing_module_is_reported_witness :
  get_module (pending (start demo_db)) 9 = None
  ∧ ModulesApi.get_module_progress 1 9 (start demo_db)
    = (Returns (APIResponse.error "Module not found" 404 "MODULE_NOT_FOUND"),
       start demo_db).
Proof.
  split; [reflexivity|].
  refine (proj1 (proj2 (missing_module_is_reported [] None quiet 1 9
                          (ProgressUpdate.mk None None None true)
                          (start demo_db) _))).
  reflexivity.
Defined.

(** ** The progress of a module, read back *)

Lemma module_progress_run u m s module :
  get_module (pending s) m = Some module →
  ModulesApi.get_module_progress u m s
  = (Returns (APIResponse.success
       (match module_progress (pending s) !! (u, m) with
        | Some p => ModuleProgressData.to_dict p
        | None =>
          ModuleProgressData.mk None m 0 (Some 0)
            (Module_.total_lessons module) (Some false) None None None
        end)
       "Module progress retrieved successfully"), s).
Proof.
  intros Hmod. unfold get_module in Hmod. run_api. rewrite Hmod; step.
  by destruct (module_progress (pending s) !! (u, m)).
Qed.

Lemma lesson_progress_run u l s :
  LessonsApi.lesson_progress_of u l s
  = (Returns (APIResponse.success
       (match lesson_progress (pending s) !! (u, l) with
        | Some p => LessonProgressData.to_dict p
        | None =>
          LessonProgressData.mk l 0 (Some false) "not_started" None
        end)
       "Lesson progress retrieved successfully"), s).
Proof.
  run_api. by destruct (lesson_progress (pending s) !! (u, l)).
Qed.

(** X17.  The three views of a module agree for an authenticated user:
    [get_module] returns the module-progress row (or none),
    [get_module_progress] returns that row's dictionary, and its
    [is_completed] is the one in [module_info] of the listing.  Without a
    row, [get_module_progress] reports 0 completed lessons, not completed,
    no timestamps, and the module's own [total_lessons]. *)
Theorem module_views_agree
    (rows : list LessonRow.t) (u m : Z) (s : Session) (module : Module_.t) :
  u ≠ 0 →
  get_module (pending s) m = Some module →
  ∃ progress row listing,
    ModulesApi.get_module_progress u m s
    = (Returns (APIResponse.success progress
                  "Module progress retrieved successfully"), s)
    ∧ ModulesApi.get_module (Some u) m s
      = (Returns (APIResponse.success (module, row)
                    "Module retrieved successfully"), s)
    ∧ ModulesApi.get_module_lessons rows (Some u) m s
      = (Returns (APIResponse.success listing
                    "Module lessons retrieved successfully"), s)
    ∧ row = module_progress (pending s) !! (u, m)
    ∧ ModuleProgressData.is_completed progress
      = ModuleInfo.is_completed (ModuleLessons.module_info listing)
    ∧ match row with
      | Some p => progress = ModuleProgressData.to_dict p
      | None =>
        ModuleProgressData.completed_lessons progress = Some 0
        ∧ ModuleProgressData.total_lessons progress
          = Module_.total_lessons module
        ∧ ModuleProgressData.is_completed progress = Some false
        ∧ ModuleProgressData.started_at progress = None
      end.
Proof.
  intros Hu Hmod.
  assert (authenticated (Some u) = Some u) as Hauth.
  { unfold authenticated. destruct (u =? 0) eqn:E; [|done].
    apply Z.eqb_eq in E. done. }
  do 3 eexists. split; [by apply module_progress_run|].
  split.
  { pose proof Hmod as Hmod'. unfold get_module in Hmod'.
    run_api. rewrite Hmod'; step. rewrite Hauth. done. }
  split; [by apply module_lessons_run|].
  split; [done|].
  cbn [ModuleLessons.module_info ModuleInfo.is_completed]. rewrite Hauth.
  by destruct (module_progress (pending s) !! (u, m)).
Qed.

Lemma module_views_agree_witness :
  (1 ≠ 0 ∧ get_module (pending (start stale_db)) 2
           = Some (Module_.mk 2 1 (Some 3)))
  ∧ ∃ progress row listing,
      ModulesApi.get_module_progress 1 2 (start stale_db)
      = (Returns (APIResponse.success progress
                    "Module progress retrieved successfully"),
         start stale_db)
      ∧ ModulesApi.get_module (Some 1) 2 (start stale_db)
        = (Returns (APIResponse.success (Module_.mk 2 1 (Some 3), row)
                      "Module retrieved successfully"), start stale_db)
      ∧ ModulesApi.get_module_lessons [] (Some 1) 2 (start stale_db)
        = (Returns (APIResponse.success listing
                      "Module lessons retrieved successfully"),
           start stale_db).
Proof.
  split; [split; [lia|reflexivity]|].
  destruct (module_views_agree [] 1 2 (start stale_db)
              (Module_.mk 2 1 (Some 3)) ltac:(lia) eq_refl)
    as (progress & row & listing & H1 & H2 & H3 & _).
  by exists progress, row, listing.
Defined.

(** X18.  What a first completion answers can be read back: after the
    request, the lesson-progress route's body returns the dictionary of the
    lesson row that the response carried, which is completed, and
    [get_module_progress] returns the dictionary of the module row that the
    response carried. *)
Theorem completion_is_read_back
    (db : DB) (r : request) (u l : Z)
    (row : UserLessonProgress.t) (mrow : UserModuleProgress.t)
    (xp : Z) (message : string) :
  sequential (request_env r) →
  aims_at db r u l →
  (handle r (start db)).1
  = Returns (Success (mkPayload row (Some mrow) xp false) message) →
  let after := start (serve db r) in
  LessonsApi.lesson_progress_of u l after
  = (Returns (APIResponse.success (LessonProgressData.to_dict row)
                "Lesson progress retrieved successfully"), after)
  ∧ LessonProgressData.is_completed (LessonProgressData.to_dict row)
    = Some true
  ∧ ∃ m,
      ModulesApi.get_module_progress u m after
      = (Returns (APIResponse.success (ModuleProgressData.to_dict mrow)
                    "Module progress retrieved successfully"), after).
Proof.
  intros Hseq Haim Hresp after. subst after. unfold serve.
  destruct (handle_answers db r u l Hseq Haim)
    as [(msg & st & code & det & H1 & H2)
       |[(p & Hp & Hc & H1 & H2)
        |(row' & mrow' & xp' & m & Hd & H1 & Hrow & Hc & Hmrow
          & [module Hmod])]];
    rewrite H1 in Hresp; try done.
  injection Hresp as <- <- <- <-.
  split; [|split].
  - rewrite lesson_progress_run. cbn [pending start]. by rewrite Hrow.
  - done.
  - exists m. rewrite (module_progress_run u m _ module) by done.
    cbn [pending start]. by rewrite Hmrow.
Qed.

Lemma completion_is_read_back_witness :
  let r := ViaModules quiet 1 2 5 Data.empty in
  let row := lesson_row quiet 1 5 Data.empty
               (Lesson.mk 5 2 "Intro" 1 (Some 20)) demo_db true in
  (sequential (request_env r) ∧ aims_at demo_db r 1 5)
  ∧ LessonsApi.lesson_progress_of 1 5 (start (serve demo_db r))
    = (Returns (APIResponse.success (LessonProgressData.to_dict row)
                  "Lesson progress retrieved successfully"),
       start (serve demo_db r)).
Proof.
  intros r row. split; [by split|].
  refine (proj1 (completion_is_read_back demo_db r 1 5 row
                   (module_row quiet 1 2 3 demo_db 1) 20
                   "Lesson completed successfully" _ _ _)).
  - by split.
  - by split.
  - vm_compute. reflexivity.
Defined.

(** ** [require_auth] *)

Lemma require_auth_run {A} (error : string → Z → string → A)
    is_active u (f : M A) s :
  require_auth error is_active u f s
  = match users (pending s) !! u with
    | None => (Returns (error "User not found" 401 "INVALID_CREDENTIALS"), s)
    | Some _ =>
      if truthy (is_active u)
      then match f s with
           | (Returns a, s') => (Returns a, s')
           | (Raises _, s') =>
             (Returns (error "Authentication failed" 401 "TOKEN_INVALID"), s')
           end
      else (Returns (error "Account is disabled" 401 "ACCOUNT_DISABLED"), s)
    end.
Proof.
  cbv [require_auth bind ret attempt query]. step.
  destruct (users (pending s) !! u) eqn:Hu; [|done].
  destruct (truthy (is_active u)); step; [|done].
  rewrite Hu. by destruct (f s) as [[a|e] s'].
Qed.

(** X19.  [require_auth] around a route: without a user row the answer
    is 401 [INVALID_CREDENTIALS] and the route does not run; with a user
    row whose [is_active] is not true, 401 [ACCOUNT_DISABLED], and the route
    does not run; otherwise the route runs, its response is passed on, and
    an exception that escapes it becomes 401 [TOKEN_INVALID], the session
    left as the route left it.  These cases are all there are: the second
    look at the user never rejects. *)
Theorem require_auth_gate
    {A : Type} (error : string → Z → string → A)
    (is_active : Z → option bool) (u : Z) (f : M A) (s : Session) :
  let o := require_auth error is_active u f s in
  (users (pending s) !! u = None →
   o = (Returns (error "User not found" 401 "INVALID_CREDENTIALS"), s))
  ∧ (is_Some (users (pending s) !! u) → is_active u ≠ Some true →
     o = (Returns (error "Account is disabled" 401 "ACCOUNT_DISABLED"), s))
  ∧ (is_Some (users (pending s) !! u) → is_active u = Some true →
     (∀ a s', f s = (Returns a, s') → o = (Returns a, s'))
     ∧ (∀ e s', f s = (Raises e, s') →
          o = (Returns (error "Authentication failed" 401 "TOKEN_INVALID"),
               s'))).
Proof.
  intros o. subst o. rewrite require_auth_run. split; [|split].
  - by intros ->.
  - intros [x ->] Hact.
    destruct (is_active u) as [[]|]; simpl; done.
  - intros [x ->] ->. simpl. split.
    + by intros a s' ->.
    + by intros e s' ->.
Qed.

Lemma require_auth_gate_witness :
  let is_active := λ _ : Z, Some false in
  (is_Some (users (pending (start demo_db)) !! 1)
   ∧ is_active 1 ≠ Some true)
  ∧ LessonsApi.get_lesson_progress is_active 1 5 (start demo_db)
    = (Returns (APIResponse.error "Account is disabled" 401
                                  "ACCOUNT_DISABLED"), start demo_db).
Proof.
  intros is_active.
  assert (is_Some (users (pending (start demo_db)) !! 1)) as Hu
    by (vm_compute; by eexists).
  assert (is_active 1 ≠ Some true) as Hact by done.
  split; [done|].
  exact (proj1 (proj2 (require_auth_gate APIResponse.error is_active 1 _
                         (start demo_db))) Hu Hact).
Defined.

(** X20.  For an active user [get_lesson_progress] always answers 200,
    also for a lesson that does not exist, for which [get_lesson] answers
    404: the data say completed exactly when the pair is completed, and
    without a progress row they are the defaults with status
    [not_started]. *)
Theorem lesson_progress_needs_no_lesson
    (is_active : Z → option bool) (u l : Z) (s : Session) :
  is_Some (users (pending s) !! u) →
  is_active u = Some true →
  ∃ data,
    LessonsApi.get_lesson_progress is_active u l s
    = (Returns (APIResponse.success data
                  "Lesson progress retrieved successfully"), s)
    ∧ truthy (LessonProgressData.is_completed data)
      = completed (pending s) u l
    ∧ (lesson_progress (pending s) !! (u, l) = None →
       data = LessonProgressData.mk l 0 (Some false) "not_started" None)
    ∧ (get_lesson (pending s) l = None →
       LessonsApi.get_lesson l s
       = (Returns (APIResponse.error "Lesson not found" 404
                                     "LESSON_NOT_FOUND"), s)).
Proof.
  intros [x Hu] Hact. eexists. split; [|split; [|split]].
  - unfold LessonsApi.get_lesson_progress. rewrite require_auth_run.
    rewrite Hu, Hact. simpl. unfold bind, attempt.
    rewrite lesson_progress_run. reflexivity.
  - unfold completed.
    by destruct (lesson_progress (pending s) !! (u, l)).
  - by intros ->.
  - intros Hl. unfold get_lesson in Hl. run_api. by rewrite Hl.
Qed.

Lemma lesson_progress_needs_no_lesson_witness :
  let is_active := λ _ : Z, Some true in
  (is_Some (users (pending (start demo_db)) !! 1)
   ∧ get_lesson (pending (start demo_db)) 99 = None)
  ∧ ∃ data,
      LessonsApi.get_lesson_progress is_active 1 99 (start demo_db)
      = (Returns (APIResponse.success data
                    "Lesson progress retrieved successfully"),
         start demo_db).
Proof.
  intros is_active.
  assert (is_Some (users (pending (start demo_db)) !! 1)) as Hu
    by (vm_compute; by eexists).
  split; [by split|].
  destruct (lesson_progress_needs_no_lesson is_active 1 99 (start demo_db)
              Hu eq_refl) as (data & H1 & _).
  by exists data.
Defined.

(** X21.  Only [lessons.py] stops a disabled account.  For a user whose
    [is_active] is not true, the completion route of [lessons.py], which
    is registered behind [require_auth], answers 401 [ACCOUNT_DISABLED] and
    changes nothing; the route of [modules.py], which is not, completes the
    lesson and credits the resolved XP when it is positive. *)
Theorem disabled_account_is_stopped_by_lessons_only
    (is_active : Z → option bool) (env : Env) (u l : Z) (data : Data.t)
    (db : DB) (lesson : Lesson.t) (module : Module_.t) (t : Z) :
  sequential env →
  get_lesson db l = Some lesson →
  completed db u l = false →
  get_module db (Lesson.module_id lesson) = Some module →
  Module_.total_lessons module = Some t →
  is_Some (users db !! u) →
  is_active u ≠ Some true →
  let m := Lesson.module_id lesson in
  let by_modules := serve db (ViaModules env u m l data) in
  LessonsApi.complete_lesson is_active env u l data (start db)
  = (Returns (Error "Account is disabled" 401 "ACCOUNT_DISABLED" None),
     start db)
  ∧ completed by_modules u l = true
  ∧ xp_of u (xp_transactions by_modules)
    = xp_of u (xp_transactions db) + Z.max 0 (resolve_xp data lesson).
Proof.
  intros Hseq Hl Hd Hmod Ht [x Hu] Hact m by_modules.
  subst by_modules m. split; [|split].
  - unfold LessonsApi.complete_lesson. rewrite require_auth_run.
    cbn [pending start]. rewrite Hu.
    by destruct (is_active u) as [[]|].
  - unfold serve, handle.
    rewrite (modules_route_first _ _ _ _ _ _ _ _ _ Hseq Hl eq_refl Hd Hmod
               Ht).
    cbn [snd committed]. cbv zeta. cbn [committed].
    unfold completed, after_modules_py. cbn [lesson_progress].
    rewrite lookup_insert_eq. by rewrite lesson_row_is_completed.
  - unfold serve, handle.
    rewrite (modules_route_first _ _ _ _ _ _ _ _ _ Hseq Hl eq_refl Hd Hmod
               Ht).
    cbn [snd committed]. cbv zeta. cbn [committed].
    unfold after_modules_py, credited_transactions. cbn [xp_transactions].
    destruct (0 <? resolve_xp data lesson) eqn:Hx.
    + apply Z.ltb_lt in Hx. rewrite xp_of_app. simpl.
      rewrite Z.eqb_refl. lia.
    + apply Z.ltb_ge in Hx. lia.
Qed.

Lemma disabled_account_is_stopped_by_lessons_only_witness :
  let is_active := λ _ : Z, Some false in
  let lesson := Lesson.mk 5 2 "Intro" 1 (Some 20) in
  (sequential quiet ∧ get_lesson demo_db 5 = Some lesson
   ∧ is_Some (users demo_db !! 1) ∧ is_active 1 ≠ Some true)
  ∧ LessonsApi.complete_lesson is_active quiet 1 5 Data.empty (start demo_db)
    = (Returns (Error "Account is disabled" 401 "ACCOUNT_DISABLED" None),
       start demo_db)
  ∧ completed (serve demo_db (ViaModules quiet 1 2 5 Data.empty)) 1 5 = true.
Proof.
  intros is_active lesson.
  assert (sequential quiet) as Hseq by (by split).
  assert (get_lesson demo_db 5 = Some lesson) as Hl by reflexivity.
  assert (completed demo_db 1 5 = false) as Hd by reflexivity.
  assert (get_module demo_db (Lesson.module_id lesson)
          = Some (Module_.mk 2 1 (Some 3))) as Hmod by reflexivity.
  assert (is_Some (users demo_db !! 1)) as Hu by (vm_compute; by eexists).
  assert (is_active 1 ≠ Some true) as Hact by done.
  split; [done|].
  destruct (disabled_account_is_stopped_by_lessons_only is_active quiet 1 5
              Data.empty demo_db lesson _ 3 Hseq Hl Hd Hmod eq_refl Hu Hact)
    as (H1 & H2 & _).
  split; [exact H1|exact H2].
Defined.
(** ** [update_module_progress] *)

Lemma update_run env u m d s module :
  ProgressUpdate.is_empty d = false →
  get_module (pending s) m = Some module →
  commit_outcome env = Succeeds →
  let p := apply_update env d
             (default (blank_module_progress env u m)
                      (module_progress (pending s) !! (u, m))) in
  ModulesApi.update_module_progress env u m (Body.parsed (Body.object d)) s
  = (Returns (APIResponse.success
                (UpdatedProgress.mk (ModuleProgressData.to_dict p))
                "Progress updated successfully"),
     let db' := set_module_progress <[(u, m) := p]> (pending s) in
     mkSession db' db' (trace s)).
Proof.
  intros He Hmod Hc p. subst p. unfold get_module in Hmod.
  run_api. rewrite He; step. rewrite Hmod; step.
  destruct (module_progress (pending s) !! (u, m)); step; rewrite Hc; step;
    by rewrite ?insert_insert_eq.
Qed.

(** A body that is not falsy is answered with a success, with 404 or with
    500. *)
Lemma update_truthy env u m update_data s :
  Body.falsy update_data = false →
  ∃ response,
    (ModulesApi.update_module_progress env u m (Body.parsed update_data) s).1
    = Returns response
    ∧ match response with
      | APIResponse.success _ _ => True
      | APIResponse.error _ status_code _ =>
        status_code = 404 ∨ status_code = 500
      end.
Proof.
  intros Hf.
  destruct update_data as [|[]|n|x|[|c t]|[|i items]|d];
    cbn [Body.falsy negb] in Hf; try done;
    run_api; rewrite ?Hf; step;
    destruct (find _ (modules (pending s))); step;
    try destruct (module_progress (pending s) !! (u, m)); step;
    repeat match goal with
           | |- context [if ?c then _ else _] => destruct c; step
           end;
    try (destruct (commit_outcome env); step);
    cbn [fst]; eexists; (split; [reflexivity|]);
    first [exact I | by left | by right].
Qed.

(** X22.  What [update_module_progress] rejects.  A request from which
    [get_json()] cannot read a JSON body is answered 500 [INTERNAL_ERROR].
    A body that Python takes for false -- [null], [false], a zero, the
    empty string, the empty array, the empty object, and nothing else --
    is answered 400 [VALIDATION_ERROR], before the module is looked up;
    no other body is ever answered 400.  When the commit fails on an
    [IntegrityError] the answer is 500 [INTERNAL_ERROR], and the session
    holds what the database holds.  Every rejection rolls back. *)
Theorem rejected_update_commits_nothing
    (env : Env) (u m : Z) (s : Session) :
  let rolled_back := mkSession (committed s) (committed s) (trace s) in
  let rejected :=
    (Returns (APIResponse.error "Request data is required" 400
                                "VALIDATION_ERROR"), rolled_back) in
  let failed :=
    (Returns (APIResponse.error "Failed to update progress" 500
                                "INTERNAL_ERROR"), rolled_back) in
  (∀ message,
     ModulesApi.update_module_progress env u m (Body.not_json message) s
     = failed)
  ∧ (∀ update_data,
       Body.falsy update_data = true →
       ModulesApi.update_module_progress env u m (Body.parsed update_data) s
       = rejected)
  ∧ (∀ update_data,
       Body.falsy update_data = true
       ↔ update_data = Body.null
         ∨ update_data = Body.boolean false
         ∨ update_data = Body.integer 0
         ∨ (∃ denominator, update_data = Body.real (0 # denominator))
         ∨ update_data = Body.text ""
         ∨ update_data = Body.array []
         ∨ update_data
           = Body.object (ProgressUpdate.mk None None None false))
  ∧ (∀ update_data message error_code,
       Body.falsy update_data = false →
       (ModulesApi.update_module_progress env u m (Body.parsed update_data)
                                          s).1
       ≠ Returns (APIResponse.error message 400 error_code))
  ∧ (∀ d module message visible,
       ProgressUpdate.is_empty d = false →
       get_module (pending s) m = Some module →
       commit_outcome env = RaisesIntegrityError message visible →
       ModulesApi.update_module_progress env u m
         (Body.parsed (Body.object d)) s
       = (Returns (APIResponse.error "Failed to update progress" 500
                                     "INTERNAL_ERROR"),
          mkSession visible visible (trace s))).
Proof.
  cbv zeta. split; [done|]. split; [|split; [|split]].
  - intros update_data Hf.
    destruct update_data as [|[]|n|x|[|c t]|[|i items]|d];
      cbn [Body.falsy negb] in Hf; try done;
      run_api; by rewrite ?Hf.
  - intros update_data. split.
    + destruct update_data as [|[]|n|[num den]|[|c t]|[|i items]
                               |[[pp|] [cl|] [ic|] []]];
        simpl; try done; intros H; auto 10.
      * apply Z.eqb_eq in H as ->. auto 10.
      * apply Z.eqb_eq in H as ->. right; right; right; left. by exists den.
    + intros [->|[->|[->|[[den ->]|[->|[->| ->]]]]]]; done.
  - intros update_data message error_code Hf Heq.
    destruct (update_truthy env u m update_data s Hf) as (r & Hr & Hcase).
    rewrite Hr in Heq. injection Heq as ->. destruct Hcase; lia.
  - intros d module message visible He Hmod Hc. unfold get_module in Hmod.
    run_api. rewrite He; step. rewrite Hmod; step.
    destruct (module_progress (pending s) !! (u, m)); step; rewrite Hc; step;
      done.
Qed.

Lemma rejected_update_commits_nothing_witness :
  let env := mkEnv (λ _, 0) Succeeds
                   (RaisesIntegrityError "Duplicate entry" stale_db)
                   (λ _, true) in
  let d := ProgressUpdate.mk None (Some 1) None false in
  (ProgressUpdate.is_empty d = false
   ∧ get_module (pending (start demo_db)) 2 = Some (Module_.mk 2 1 (Some 3)))
  ∧ ModulesApi.update_module_progress env 1 2 (Body.parsed (Body.object d))
                                      (start demo_db)
    = (Returns (APIResponse.error "Failed to update progress" 500
                                  "INTERNAL_ERROR"), start stale_db)
  ∧ ModulesApi.update_module_progress env 1 2 (Body.parsed (Body.array []))
                                      (start demo_db)
    = (Returns (APIResponse.error "Request data is required" 400
                                  "VALIDATION_ERROR"), start demo_db).
Proof.
  intros env d. split; [by split|]. split.
  - exact (proj2 (proj2 (proj2 (proj2 (rejected_update_commits_nothing env 1 2
                                         (start demo_db)))))
             d (Module_.mk 2 1 (Some 3)) "Duplicate entry" stale_db
             eq_refl eq_refl eq_refl).
  - exact (proj1 (proj2 (rejected_update_commits_nothing env 1 2
                           (start demo_db)))
             (Body.array []) eq_refl).
Defined.

(** X23.  A progress update that goes through stores what is posted, as
    posted: the response carries, under [progress], the dictionary of the
    row stored for the pair [(user, module)]; [progress_percentage],
    [completed_lessons] and [is_completed] take the posted values, whatever
    the module's lessons are; [total_lessons] is left as it was, which is 0
    for a row that the update creates; and nothing else in the database
    changes. *)
Theorem update_stores_what_is_posted
    (env : Env) (u m : Z) (d : ProgressUpdate.t) (db : DB)
    (module : Module_.t) :
  ProgressUpdate.is_empty d = false →
  get_module db m = Some module →
  commit_outcome env = Succeeds →
  let o := ModulesApi.update_module_progress env u m
             (Body.parsed (Body.object d)) (start db) in
  let db' := committed o.2 in
  ∃ p,
    o.1 = Returns (APIResponse.success
                     (UpdatedProgress.mk (ModuleProgressData.to_dict p))
                     "Progress updated successfully")
    ∧ module_progress db' !! (u, m) = Some p
    ∧ (∀ k, k ≠ (u, m) → module_progress db' !! k = module_progress db !! k)
    ∧ (lessons db' = lessons db ∧ modules db' = modules db
       ∧ users db' = users db ∧ lesson_progress db' = lesson_progress db
       ∧ xp_transactions db' = xp_transactions db)
    ∧ (∀ x, ProgressUpdate.progress_percentage d = Some x →
            UserModuleProgress.progress_percentage p = x)
    ∧ (∀ n, ProgressUpdate.completed_lessons d = Some n →
            UserModuleProgress.completed_lessons p = Some n)
    ∧ (∀ b, ProgressUpdate.is_completed d = Some b →
            UserModuleProgress.is_completed p = Some b)
    ∧ UserModuleProgress.total_lessons p
      = match module_progress db !! (u, m) with
        | Some old => UserModuleProgress.total_lessons old
        | None => Some 0
        end.
Proof.
  intros He Hmod Hc o db'. subst o db'.
  rewrite (update_run env u m d (start db) module He Hmod Hc).
  cbn [fst snd committed pending start]. cbv zeta.
  cbn [committed module_progress lessons modules users lesson_progress
       xp_transactions set_module_progress].
  eexists. split; [done|]. split; [by rewrite lookup_insert_eq|].
  split; [by intros k Hk; rewrite lookup_insert_ne|].
  split; [done|]. unfold apply_update.
  cbn [UserModuleProgress.progress_percentage
       UserModuleProgress.completed_lessons UserModuleProgress.is_completed
       UserModuleProgress.total_lessons].
  split; [by intros x ->|]. split; [by intros n ->|].
  split; [by intros b ->|].
  by destruct (module_progress db !! (u, m)).
Qed.

Lemma update_stores_what_is_posted_witness :
  let d := ProgressUpdate.mk None (Some 99) (Some true) false in
  (ProgressUpdate.is_empty d = false
   ∧ get_module demo_db 2 = Some (Module_.mk 2 1 (Some 3)))
  ∧ ∃ p,
      module_progress
        (committed (ModulesApi.update_module_progress quiet 1 2
                      (Body.parsed (Body.object d)) (start demo_db)).2)
        !! (1, 2) = Some p
      ∧ UserModuleProgress.completed_lessons p = Some 99
      ∧ UserModuleProgress.total_lessons p = Some 0.
Proof.
  intros d. split; [by split|].
  destruct (update_stores_what_is_posted quiet 1 2 d demo_db
              (Module_.mk 2 1 (Some 3)) eq_refl eq_refl eq_refl)
    as (p & _ & H1 & _ & _ & _ & H2 & _ & H3).
  exists p. split; [exact H1|]. split; [by apply H2|exact H3].
Defined.

(** X24.  A progress update on an existing row keeps [started_at], sets
    [last_accessed] to now, and stamps [completed_at] once: a value that is
    set is kept, an unset one is set to now when [is_completed = true] is
    posted, and posting anything else -- [is_completed = false] included --
    leaves [completed_at] as it is. *)
Theorem update_stamps_completion_once
    (env : Env) (u m : Z) (d : ProgressUpdate.t) (db : DB)
    (module : Module_.t) (old : UserModuleProgress.t) :
  ProgressUpdate.is_empty d = false →
  get_module db m = Some module →
  commit_outcome env = Succeeds →
  module_progress db !! (u, m) = Some old →
  let db' := committed (ModulesApi.update_module_progress env u m
                          (Body.parsed (Body.object d)) (start db)).2 in
  ∃ p,
    module_progress db' !! (u, m) = Some p
    ∧ UserModuleProgress.started_at p = UserModuleProgress.started_at old
    ∧ UserModuleProgress.last_accessed p = utcnow env at_progress_accessed
    ∧ (∀ t, UserModuleProgress.completed_at old = Some t →
            UserModuleProgress.completed_at p = Some t)
    ∧ (ProgressUpdate.is_completed d = Some true →
       UserModuleProgress.completed_at old = None →
       UserModuleProgress.completed_at p
       = Some (utcnow env at_progress_completed))
    ∧ (ProgressUpdate.is_completed d ≠ Some true →
       UserModuleProgress.completed_at p
       = UserModuleProgress.completed_at old).
Proof.
  intros He Hmod Hc Hold db'. subst db'.
  rewrite (update_run env u m d (start db) module He Hmod Hc).
  cbn [fst snd committed pending start]. cbv zeta.
  cbn [committed module_progress set_module_progress].
  rewrite Hold. cbn [default from_option id]. eexists.
  split; [by rewrite lookup_insert_eq|]. unfold apply_update.
  cbn [UserModuleProgress.started_at UserModuleProgress.last_accessed
       UserModuleProgress.completed_at].
  split; [done|]. split; [done|]. split; [|split].
  - intros t ->. by destruct (ProgressUpdate.is_completed d) as [[]|].
  - by intros -> ->.
  - intros Hne. by destruct (ProgressUpdate.is_completed d) as [[]|].
Qed.

Lemma update_stamps_completion_once_witness :
  let d := ProgressUpdate.mk None None (Some true) false in
  let old := new_module_progress quiet 1 2 (Some 3) in
  (ProgressUpdate.is_empty d = false
   ∧ get_module stale_db 2 = Some (Module_.mk 2 1 (Some 3))
   ∧ module_progress stale_db !! (1, 2) = Some old)
  ∧ ∃ p,
      module_progress
        (committed (ModulesApi.update_module_progress quiet 1 2
                      (Body.parsed (Body.object d)) (start stale_db)).2)
        !! (1, 2) = Some p
      ∧ UserModuleProgress.completed_at p
        = Some (utcnow quiet at_progress_completed).
Proof.
  intros d old.
  assert (module_progress stale_db !! (1, 2) = Some old) as Hold
    by (vm_compute; reflexivity).
  split; [done|].
  destruct (update_stamps_completion_once quiet 1 2 d stale_db
              (Module_.mk 2 1 (Some 3)) old eq_refl eq_refl eq_refl Hold)
    as (p & H1 & _ & _ & _ & H2 & _).
  exists p. split; [exact H1|]. by apply H2.
Defined.

(** X25.  A progress update can be read back.  The update answers with
    the row's dictionary under the key [progress]; on the committed
    database [get_module_progress] answers with that same dictionary, not
    wrapped, [get_module] returns the module with the stored row, and the
    dictionary is the one of that row. *)
Theorem update_is_read_back
    (env : Env) (u m : Z) (d : ProgressUpdate.t) (db : DB)
    (module : Module_.t) :
  ProgressUpdate.is_empty d = false →
  get_module db m = Some module →
  commit_outcome env = Succeeds →
  let o := ModulesApi.update_module_progress env u m
             (Body.parsed (Body.object d)) (start db) in
  let after := start (committed o.2) in
  ∃ data,
    o.1 = Returns (APIResponse.success (UpdatedProgress.mk data)
                     "Progress updated successfully")
    ∧ ModulesApi.get_module_progress u m after
      = (Returns (APIResponse.success data
                    "Module progress retrieved successfully"), after)
    ∧ ModulesApi.get_module (Some u) m after
      = (Returns (APIResponse.success
                    (module, if u =? 0 then None
                             else module_progress (committed o.2) !! (u, m))
                    "Module retrieved successfully"), after)
    ∧ (ModuleProgressData.to_dict
         <$> module_progress (committed o.2) !! (u, m)) = Some data.
Proof.
  intros He Hmod Hc o after. subst o after.
  rewrite (update_run env u m d (start db) module He Hmod Hc).
  cbn [fst snd committed pending start]. cbv zeta. cbn [committed].
  set (db' := set_module_progress _ db).
  assert (get_module db' m = Some module) as Hmod' by exact Hmod.
  eexists. split; [done|]. split; [|split].
  - rewrite (module_progress_run u m _ module) by exact Hmod'.
    subst db'. cbn [pending start set_module_progress module_progress].
    by rewrite lookup_insert_eq.
  - unfold get_module in Hmod'. run_api. rewrite Hmod'; step.
    unfold authenticated. by destruct (u =? 0).
  - subst db'. cbn [set_module_progress module_progress].
    by rewrite lookup_insert_eq.
Qed.

Lemma update_is_read_back_witness :
  let d := ProgressUpdate.mk (Some 50%Q) None None false in
  let o := ModulesApi.update_module_progress quiet 1 2
             (Body.parsed (Body.object d)) (start demo_db) in
  (ProgressUpdate.is_empty d = false
   ∧ get_module demo_db 2 = Some (Module_.mk 2 1 (Some 3)))
  ∧ ∃ data,
      o.1 = Returns (APIResponse.success (UpdatedProgress.mk data)
                       "Progress updated successfully")
      ∧ ModulesApi.get_module_progress 1 2 (start (committed o.2))
        = (Returns (APIResponse.success data
                      "Module progress retrieved successfully"),
           start (committed o.2)).
Proof.
  intros d o. split; [by split|].
  destruct (update_is_read_back quiet 1 2 d demo_db
              (Module_.mk 2 1 (Some 3)) eq_refl eq_refl eq_refl)
    as (data & H1 & H2 & _).
  by exists data.
Defined.

(** X26.  [modules.py] trusts a posted counter.  An update that posts
    [completed_lessons = n] stores [n], whatever the user has completed;
    a first completion through [modules.py] (with an empty body) then
    leaves the counter at [n + 1] and sets the row's [total_lessons] to the
    module's.  Nothing reconciles it: a request through [lessons.py] leaves
    the database as posted. *)
Theorem posted_counter_is_trusted
    (env0 env : Env) (u l n : Z) (d : ProgressUpdate.t)
    (db : DB) (lesson : Lesson.t) (module : Module_.t) (t : Z) :
  commit_outcome env0 = Succeeds →
  sequential env →
  get_lesson db l = Some lesson →
  completed db u l = false →
  get_module db (Lesson.module_id lesson) = Some module →
  Module_.total_lessons module = Some t →
  ProgressUpdate.completed_lessons d = Some n →
  let m := Lesson.module_id lesson in
  let posted :=
    committed (ModulesApi.update_module_progress env0 u m
                 (Body.parsed (Body.object d)) (start db)).2 in
  let by_modules := serve posted (ViaModules env u m l Data.empty) in
  (UserModuleProgress.completed_lessons <$> module_progress posted !! (u, m))
  = Some (Some n)
  ∧ count_completed_lessons posted u m = count_completed_lessons db u m
  ∧ (UserModuleProgress.completed_lessons
       <$> module_progress by_modules !! (u, m)) = Some (Some (n + 1))
  ∧ (UserModuleProgress.total_lessons
       <$> module_progress by_modules !! (u, m)) = Some (Some t)
  ∧ serve posted (ViaLessons env u l Data.empty) = posted.
Proof.
  intros Hc0 Hseq Hl Hd Hmod Ht Hn m posted by_modules.
  assert (ProgressUpdate.is_empty d = false) as He.
  { unfold ProgressUpdate.is_empty. rewrite Hn.
    by destruct (ProgressUpdate.progress_percentage d). }
  subst by_modules posted.
  rewrite (update_run env0 u m d (start db) module He Hmod Hc0).
  cbn [fst snd committed pending start]. cbv zeta. cbn [committed].
  set (p := apply_update env0 d _).
  set (db1 := set_module_progress <[(u, m) := p]> db).
  assert (get_lesson db1 l = Some lesson) as Hl1 by exact Hl.
  assert (completed db1 u l = false) as Hd1 by exact Hd.
  assert (get_module db1 m = Some module) as Hmod1 by exact Hmod.
  assert (module_progress db1 !! (u, m) = Some p) as Hp.
  { subst db1. cbn [set_module_progress module_progress].
    by rewrite lookup_insert_eq. }
  assert (UserModuleProgress.completed_lessons p = Some n) as Hpn.
  { subst p. unfold apply_update.
    cbn [UserModuleProgress.completed_lessons]. by rewrite Hn. }
  split; [by rewrite Hp; cbn [fmap option_fmap option_map]; rewrite Hpn|].
  split; [by rewrite (count_content db db1 u m eq_refl eq_refl)|].
  split; [|split].
  - unfold serve, handle.
    rewrite (modules_route_first _ _ _ _ _ _ _ _ _ Hseq Hl1 eq_refl Hd1
               Hmod1 Ht).
    cbn [snd committed]. cbv zeta. cbn [committed].
    unfold after_modules_py. cbn [module_progress].
    rewrite lookup_insert_eq. cbn [fmap option_fmap option_map].
    unfold module_row, with_percentage, with_counts.
    cbn [UserModuleProgress.completed_lessons].
    fold m. unfold incremented, module_row0. rewrite Hp.
    cbn [default from_option id]. by rewrite Hpn.
  - unfold serve, handle.
    rewrite (modules_route_first _ _ _ _ _ _ _ _ _ Hseq Hl1 eq_refl Hd1
               Hmod1 Ht).
    cbn [snd committed]. cbv zeta. cbn [committed].
    unfold after_modules_py. cbn [module_progress].
    by rewrite lookup_insert_eq.
  - unfold serve, handle. by rewrite lessons_route_fails.
Qed.

Lemma posted_counter_is_trusted_witness :
  let d := ProgressUpdate.mk None (Some 99) None false in
  let lesson := Lesson.mk 5 2 "Intro" 1 (Some 20) in
  let posted :=
    committed (ModulesApi.update_module_progress quiet 1 2
                 (Body.parsed (Body.object d)) (start demo_db)).2 in
  (sequential quiet ∧ get_lesson demo_db 5 = Some lesson
   ∧ ProgressUpdate.completed_lessons d = Some 99)
  ∧ (UserModuleProgress.completed_lessons
       <$> module_progress (serve posted (ViaModules quiet 1 2 5 Data.empty))
           !! (1, 2)) = Some (Some (99 + 1))
  ∧ count_completed_lessons posted 1 2 = count_completed_lessons demo_db 1 2.
Proof.
  intros d lesson posted.
  assert (sequential quiet) as Hseq by (by split).
  assert (get_lesson demo_db 5 = Some lesson) as Hl by reflexivity.
  assert (completed demo_db 1 5 = false) as Hd by reflexivity.
  assert (get_module demo_db (Lesson.module_id lesson)
          = Some (Module_.mk 2 1 (Some 3))) as Hmod by reflexivity.
  split; [done|].
  destruct (posted_counter_is_trusted quiet quiet 1 5 99 d
              demo_db lesson _ 3 eq_refl Hseq Hl Hd Hmod eq_refl
              eq_refl) as (_ & H0 & H1 & _).
  split; [exact H1|exact H0].
Defined.

(** ** [APIResponse.paginated] *)

(** X27.  [APIResponse.paginated], for a positive [per_page] and a
    non-negative [total]: the response echoes [page], [per_page] and
    [total], and [total_pages] is the ceiling of [total / per_page] -- the
    least number of pages that hold [total] items -- which is 0 exactly
    when there are no items. *)
Theorem page_count_is_the_ceiling
    {A : Type} (data : list A) (page per_page total : Z) (message : string) :
  0 < per_page →
  0 ≤ total →
  ∃ p,
    APIResponse.paginated data page per_page total message
    = Some (APIResponse.success (data, p) message)
    ∧ APIResponse.page p = page
    ∧ APIResponse.per_page p = per_page
    ∧ APIResponse.total p = total
    ∧ 0 ≤ APIResponse.total_pages p
    ∧ (APIResponse.total_pages p - 1) * per_page < total
      ≤ APIResponse.total_pages p * per_page
    ∧ (APIResponse.total_pages p = 0 ↔ total = 0).
Proof.
  intros Hpp Ht. unfold APIResponse.paginated.
  destruct (per_page =? 0) eqn:E; [apply Z.eqb_eq in E; lia|].
  eexists. split; [done|]. cbn [APIResponse.page APIResponse.per_page
    APIResponse.total APIResponse.total_pages].
  split; [done|]. split; [done|]. split; [done|].
  set (q := (total + per_page - 1) / per_page).
  pose proof (Z.div_mod (total + per_page - 1) per_page ltac:(lia)) as Hdm.
  pose proof (Z.mod_pos_bound (total + per_page - 1) per_page Hpp) as Hb.
  fold q in Hdm.
  assert (0 ≤ q) as Hq by (apply Z.div_pos; lia).
  split; [done|]. split; [nia|]. split; intros H; nia.
Qed.

Lemma page_count_is_the_ceiling_witness :
  (0 < 10 ∧ 0 ≤ 25)
  ∧ ∃ p,
      APIResponse.paginated [1; 2; 3] 3 10 25 "Success"
      = Some (APIResponse.success ([1; 2; 3], p) "Success")
      ∧ APIResponse.total_pages p = 3
      ∧ APIResponse.has_next p = false.
Proof.
  split; [lia|].
  destruct (page_count_is_the_ceiling [1; 2; 3] 3 10 25 "Success"
              ltac:(lia) ltac:(lia)) as (p & H & _).
  exists p. split; [exact H|].
  injection H as <-. by vm_compute.
Defined.

(** X28.  [APIResponse.paginated] fails for [per_page = 0] (the division
    raises).  For a positive [per_page], and any [page] and [total],
    [has_next] holds exactly when items remain beyond the page
    ([page * per_page < total]) and [has_prev] exactly when [1 < page];
    [next_page] and [prev_page] are the neighbouring page numbers when the
    flags hold and null otherwise. *)
Theorem next_and_previous_pages
    {A : Type} (data : list A) (page per_page total : Z) (message : string) :
  APIResponse.paginated data page 0 total message = None
  ∧ (0 < per_page →
     ∃ p,
       APIResponse.paginated data page per_page total message
       = Some (APIResponse.success (data, p) message)
       ∧ (APIResponse.has_next p = true ↔ page * per_page < total)
       ∧ (APIResponse.has_prev p = true ↔ 1 < page)
       ∧ APIResponse.next_page p
         = (if APIResponse.has_next p then Some (page + 1) else None)
       ∧ APIResponse.prev_page p
         = (if APIResponse.has_prev p then Some (page - 1) else None)).
Proof.
  split; [done|]. intros Hpp. unfold APIResponse.paginated.
  destruct (per_page =? 0) eqn:E; [apply Z.eqb_eq in E; lia|].
  eexists. split; [done|]. cbn [APIResponse.has_next APIResponse.has_prev
    APIResponse.next_page APIResponse.prev_page].
  split; [|split; [|done]].
  - set (q := (total + per_page - 1) / per_page).
    pose proof (Z.div_mod (total + per_page - 1) per_page ltac:(lia)) as Hdm.
    pose proof (Z.mod_pos_bound (total + per_page - 1) per_page Hpp) as Hb.
    fold q in Hdm. rewrite Z.ltb_lt. split; intros H; nia.
  - by rewrite Z.ltb_lt.
Qed.

Lemma next_and_previous_pages_witness :
  0 < 10
  ∧ ∃ p,
      APIResponse.paginated [1; 2; 3] 2 10 25 "Success"
      = Some (APIResponse.success ([1; 2; 3], p) "Success")
      ∧ (APIResponse.has_next p = true ↔ 2 * 10 < 25).
Proof.
  split; [lia|].
  destruct (proj2 (next_and_previous_pages [1; 2; 3] 2 10 25 "Success")
              ltac:(lia)) as (p & H1 & H2 & _).
  by exists p.
Defined.

(** ** The row of a completed lesson *)

(** X29.  The row that a first completion through [modules.py] stores for
    the pair, for a request that posts none of [score], [time_spent] and
    [xp_earned]: status [completed], 100 percent, completed now;
    [started_at], [last_accessed] and [attempts] as they were -- completing
    does not count as an attempt; [score] and [time_spent] as they were;
    and [xp_earned] the lesson's reward when it is positive, and as it was
    otherwise. *)
Theorem completed_row_fields
    (env : Env) (u l : Z) (db : DB)
    (lesson : Lesson.t) (module : Module_.t) (t : Z) :
  sequential env →
  get_lesson db l = Some lesson →
  completed db u l = false →
  get_module db (Lesson.module_id lesson) = Some module →
  Module_.total_lessons module = Some t →
  let r := ViaModules env u (Lesson.module_id lesson) l Data.empty in
  let old := default (new_lesson_progress env u l)
                     (lesson_progress db !! (u, l)) in
  let reward := default 50 (Lesson.xp_reward lesson) in
  ∃ row,
    lesson_progress (serve db r) !! (u, l) = Some row
    ∧ UserLessonProgress.status row = "completed"
    ∧ UserLessonProgress.is_completed row = Some true
    ∧ (UserLessonProgress.progress_percentage row == 100)%Q
    ∧ UserLessonProgress.completed_at row
      = Some (utcnow env at_lesson_completed)
    ∧ UserLessonProgress.started_at row = UserLessonProgress.started_at old
    ∧ UserLessonProgress.last_accessed row
      = UserLessonProgress.last_accessed old
    ∧ UserLessonProgress.attempts row = UserLessonProgress.attempts old
    ∧ UserLessonProgress.score row = UserLessonProgress.score old
    ∧ UserLessonProgress.time_spent row = UserLessonProgress.time_spent old
    ∧ UserLessonProgress.xp_earned row
      = if 0 <? reward then JInt reward else UserLessonProgress.xp_earned old.
Proof.
  intros Hseq Hl Hd Hmod Ht r old reward. subst r.
  assert (resolve_xp Data.empty lesson = reward) as Hxp.
  { unfold resolve_xp. subst reward. simpl.
    by destruct (Lesson.xp_reward lesson). }
  unfold serve, handle.
  rewrite (modules_route_first _ _ _ _ _ _ _ _ _ Hseq Hl eq_refl Hd Hmod Ht).
  cbn [snd committed]. cbv zeta. cbn [committed].
  unfold after_modules_py. cbn [lesson_progress].
  rewrite lookup_insert_eq. eexists. split; [done|].
  unfold lesson_row, marked_row, lesson_row0. fold old. cbn [andb].
  rewrite Hxp. destruct (0 <? reward); done.
Qed.

Lemma completed_row_fields_witness :
  let lesson := Lesson.mk 5 2 "Intro" 1 (Some 20) in
  let r := ViaModules quiet 1 2 5 Data.empty in
  (sequential quiet ∧ get_lesson started_db 5 = Some lesson
   ∧ completed started_db 1 5 = false)
  ∧ ∃ row,
      lesson_progress (serve started_db r) !! (1, 5) = Some row
      ∧ UserLessonProgress.status row = "completed"
      ∧ UserLessonProgress.attempts row = 1
      ∧ UserLessonProgress.time_spent row = JInt 120
      ∧ UserLessonProgress.xp_earned row = JInt 20.
Proof.
  intros lesson r.
  assert (sequential quiet) as Hseq by (by split).
  assert (get_lesson started_db 5 = Some lesson) as Hl by reflexivity.
  assert (completed started_db 1 5 = false) as Hd by reflexivity.
  assert (get_module started_db (Lesson.module_id lesson)
          = Some (Module_.mk 2 1 (Some 3))) as Hmod by reflexivity.
  split; [done|].
  destruct (completed_row_fields quiet 1 5 started_db lesson _ 3
              Hseq Hl Hd Hmod eq_refl)
    as (row & H1 & H2 & _ & _ & _ & _ & _ & H3 & _ & H4 & H5).
  exists row. split; [exact H1|]. split; [exact H2|].
  split; [exact H3|]. split; [exact H4|exact H5].
Defined.
